(** * KnowledgeGlow: the content-processing pipeline and the knowledge store

    A shallow embedding of [ai-service/app/routes/processing.py],
    [ai-service/app/database.py] and the statistics route of
    [ai-service/app/routes/knowledge.py], with the properties that the
    design document states about them.

    Conventions.
    - A Python [str] is a [string]; a character is read as the code point
      of the same number, so the texts covered are those over U+0000..U+00FF.
    - A Python [int] is a [Z]; [len] is a [nat].
    - An operation that may raise returns a [result]; an operation that
      touches the database takes the table and returns the new table.
    - [CURRENT_TIMESTAMP] is an argument [now]; timestamps are [Z] (seconds),
      ordered as SQLite orders the text form it stores. *)

From Stdlib Require Import ZArith List String Ascii Bool Lia.
From Stdlib Require Import Permutation Sorted DecimalString.
From Stdlib Require DecimalNat DecimalFacts.
Import ListNotations.
Local Open Scope string_scope.
Local Open Scope Z_scope.

Set Implicit Arguments.

(* ================================================================== *)
(** * Exceptions and fallible results *)
(* ================================================================== *)

(** The exceptions that the modelled code raises or lets through.
    [HTTPException] is FastAPI's; the others belong to [requests],
    [sqlite3], [json] and the built-ins. *)
Inductive exn : Type :=
| HTTPException (status_code : Z) (detail : string)
| ValueError (msg : string)
| RequestException (msg : string)
| IntegrityError
| InterfaceError
| OperationalError
| OverflowError
| JSONDecodeError.

Inductive result (A : Type) : Type :=
| Return (a : A)
| Raise (e : exn).
Arguments Return {A} a.
Arguments Raise {A} e.

Definition rbind {A B} (m : result A) (k : A -> result B) : result B :=
  match m with
  | Return a => k a
  | Raise e => Raise e
  end.

Declare Scope result_scope.
Delimit Scope result_scope with result.
Notation "x <- m ;; k" := (rbind m (fun x => k))
  (at level 61, m at next level, right associativity) : result_scope.

(** [for row in rows: items.append(f(row))], stopping at the first raise. *)
Fixpoint mapM {A B} (f : A -> result B) (l : list A) : result (list B) :=
  match l with
  | [] => Return []
  | a :: l' =>
      match f a with
      | Raise e => Raise e
      | Return b =>
          match mapM f l' with
          | Raise e => Raise e
          | Return bs => Return (b :: bs)
          end
      end
  end.

(* ================================================================== *)
(** * The Python string operations the code calls *)
(* ================================================================== *)

Module Py.

Definition code (c : ascii) : nat := nat_of_ascii c.

(** [c.isspace()]: the white-space code points below 256. *)
Definition isspace (c : ascii) : bool :=
  let n := code c in
  ((9 <=? n) && (n <=? 13) || (28 <=? n) && (n <=? 32)
   || (n =? 133) || (n =? 160))%nat.

(** [c.lower()] for one character: A-Z, and the capital letters
    U+00C0..U+00DE except the multiplication sign U+00D7. *)
Definition lower_char (c : ascii) : ascii :=
  let n := code c in
  if ((65 <=? n) && (n <=? 90)
      || (192 <=? n) && (n <=? 222) && negb (n =? 215))%nat
  then ascii_of_nat (n + 32) else c.

(** [s.lower()] *)
Fixpoint lower (s : string) : string :=
  match s with
  | EmptyString => EmptyString
  | String c s' => String (lower_char c) (lower s')
  end.

(** Truth value of a string: [bool(s)]. *)
Definition truthy (s : string) : bool :=
  match s with EmptyString => false | _ => true end.

(** [s.lstrip()], [s.rstrip()], [s.strip()] *)
Fixpoint lstrip (s : string) : string :=
  match s with
  | EmptyString => EmptyString
  | String c s' => if isspace c then lstrip s' else s
  end.

Fixpoint rstrip (s : string) : string :=
  match s with
  | EmptyString => EmptyString
  | String c s' =>
      let r := rstrip s' in
      if isspace c && negb (truthy r) then EmptyString else String c r
  end.

Definition strip (s : string) : string := rstrip (lstrip s).

(** [s.split()]: the maximal runs of characters that are not white
    space, in order.  [cur] is the word being read. *)
Fixpoint split_from (cur : string) (s : string) : list string :=
  match s with
  | EmptyString => if truthy cur then [cur] else []
  | String c s' =>
      if isspace c
      then (if truthy cur then cur :: split_from EmptyString s'
            else split_from EmptyString s')
      else split_from (cur ++ String c EmptyString) s'
  end.

Definition split (s : string) : list string := split_from EmptyString s.

(** [sep.join(l)] *)
Definition join (sep : string) (l : list string) : string :=
  String.concat sep l.

(** [needle in hay] *)
Fixpoint contains (needle hay : string) : bool :=
  String.prefix needle hay
  || match hay with
     | EmptyString => false
     | String _ hay' => contains needle hay'
     end.

(** [any(word in text for word in words)] *)
Definition any_in (words : list string) (text : string) : bool :=
  existsb (fun word => contains word text) words.

(** [str(n)] for a length. *)
Definition str_of_nat (n : nat) : string :=
  NilZero.string_of_uint (Nat.to_uint n).

(** [s[:n]] *)
Definition slice_to (n : nat) (s : string) : string :=
  String.substring 0 n s.

End Py.

(* ================================================================== *)
(** * routes/processing.py *)
(* ================================================================== *)

Module Processing.

(** [class ProcessingRequest(BaseModel)] *)
Record ProcessingRequest : Type := {
  text : string;
  url : string;
  source_type : string
}.

(** [class ProcessingResponse(BaseModel)] *)
Record ProcessingResponse : Type := {
  summary : string;
  tags : list string;
  analysis : string;
  status : string;
  error : string
}.

(** The dictionary that [mock_ai_processing] returns. *)
Module AiResult.
Record t : Type := { summary : string; tags : list string; analysis : string }.
End AiResult.

(** What the pipeline does to the world: the outbound request of
    [requests.get] and the [time.sleep(0.5)] of the analysis. *)
Inductive event : Type :=
| HttpGet (url : string)
| Sleep.

(** A computation: the events it performed, then its outcome. *)
Definition io (A : Type) : Type := (list event * result A)%type.

Definition ret {A} (a : A) : io A := ([], Return a).
Definition raise {A} (e : exn) : io A := ([], Raise e).
Definition emit (ev : event) : io unit := ([ev], Return tt).

Definition bind {A B} (m : io A) (k : A -> io B) : io B :=
  match m with
  | (t, Return a) => let (t2, r) := k a in ((t ++ t2)%list, r)
  | (t, Raise e) => (t, Raise e)
  end.

(** [try: m except Exception as e: h(e)] *)
Definition try_except {A} (m : io A) (h : exn -> io A) : io A :=
  match m with
  | (t, Return a) => (t, Return a)
  | (t, Raise e) => let (t2, r) := h e in ((t ++ t2)%list, r)
  end.

Declare Scope io_scope.
Delimit Scope io_scope with io.
Notation "x <- m ;; k" := (bind m (fun x => k))
  (at level 61, m at next level, right associativity) : io_scope.
Notation "m ;;; k" := (bind m (fun _ => k))
  (at level 61, right associativity) : io_scope.

(** ** [extract_text_from_url] *)

(** [re.sub(r'<[^>]+>', ' ', content)]: a tag is a '<', one or more
    characters other than '>', and the next '>'. *)
Fixpoint has_gt (s : string) : bool :=
  match s with
  | EmptyString => false
  | String c s' => Ascii.eqb c ">" || has_gt s'
  end.

Fixpoint strip_tags_from (in_tag : bool) (s : string) : string :=
  match s with
  | EmptyString => EmptyString
  | String c s' =>
      if in_tag then
        (if Ascii.eqb c ">" then strip_tags_from false s'
         else strip_tags_from true s')
      else if Ascii.eqb c "<" then
        match s' with
        | String d s'' =>
            if negb (Ascii.eqb d ">") && has_gt s''
            then String " " (strip_tags_from true s')
            else String c (strip_tags_from false s')
        | EmptyString => String c EmptyString
        end
      else String c (strip_tags_from false s')
  end.

Definition strip_tags (s : string) : string := strip_tags_from false s.

(** [re.sub(r'\s+', ' ', s)] *)
Fixpoint collapse_spaces_from (in_run : bool) (s : string) : string :=
  match s with
  | EmptyString => EmptyString
  | String c s' =>
      if Py.isspace c
      then (if in_run then collapse_spaces_from true s'
            else String " " (collapse_spaces_from true s'))
      else String c (collapse_spaces_from false s')
  end.

Definition collapse_spaces (s : string) : string :=
  collapse_spaces_from false s.

Section Pipeline.

(** [str(e)] of an exception: text that the libraries produce. *)
Variable str_exn : exn -> string.
(** [urlparse(url)], read at [.scheme] and [.netloc]. *)
Variable urlparse : string -> string * string.
(** [requests.get(url, headers=..., timeout=10)], then
    [raise_for_status()] and [.text]: the network. *)
Variable requests_get : string -> result string.

Definition str (e : exn) : string :=
  match e with
  | ValueError msg => msg
  | RequestException msg => msg
  | _ => str_exn e
  end.

Definition extract_text_from_url (url : string) : io string :=
  try_except
    (let parsed := urlparse url in
     if negb (Py.truthy (fst parsed)) || negb (Py.truthy (snd parsed))
     then raise (ValueError "Invalid URL format")
     else
       (emit (HttpGet url) ;;;
        content <- ([], requests_get url) ;;
        let clean_text := strip_tags content in
        let clean_text := Py.strip (collapse_spaces clean_text) in
        let clean_text :=
          if (5000 <? String.length clean_text)%nat
          then Py.slice_to 5000 clean_text ++ "..."
          else clean_text in
        ret clean_text)%io)
    (fun e =>
       raise (HTTPException 400
                ("Failed to extract content from URL: " ++ str e))).

(** ** [mock_ai_processing] *)

Definition mock_summary (text : string) : string :=
  let words := Py.split text in
  let summary_length := Nat.min 50 (List.length words / 3) in
  let summary := Py.join " " (firstn summary_length words) in
  if (summary_length <? List.length words)%nat
  then summary ++ "..."
  else summary.

Definition mock_tags (text : string) : list string :=
  let tags := [] in
  let text_lower := Py.lower text in
  let tags :=
    if Py.any_in ["ai"; "artificial intelligence"; "machine learning"; "ml"]
         text_lower
    then (tags ++ ["AI"])%list else tags in
  let tags :=
    if Py.any_in ["python"; "javascript"; "programming"; "code";
                  "development"] text_lower
    then (tags ++ ["Development"])%list else tags in
  let tags :=
    if Py.any_in ["database"; "sql"; "data"] text_lower
    then (tags ++ ["Database"])%list else tags in
  let tags :=
    if Py.any_in ["web"; "http"; "api"; "rest"] text_lower
    then (tags ++ ["Web"])%list else tags in
  let tags :=
    if Py.any_in ["research"; "study"; "analysis"] text_lower
    then (tags ++ ["Research"])%list else tags in
  match tags with
  | [] => ["General"; "Knowledge"]
  | _ => tags
  end.

Definition mock_analysis (text : string) (tags : list string) : string :=
  let words := Py.split text in
  let text_lower := Py.lower text in
  let analysis :=
    "This content appears to be about "
    ++ Py.lower (Py.join ", " tags) ++ ". " in
  let analysis :=
    analysis ++ "The text contains approximately "
    ++ Py.str_of_nat (List.length words) ++ " words and covers " in
  if Py.contains "ai" text_lower
     || Py.contains "artificial intelligence" text_lower
  then analysis ++ "artificial intelligence concepts and applications."
  else if Py.contains "development" text_lower
          || Py.contains "programming" text_lower
  then analysis ++ "software development practices and methodologies."
  else if Py.contains "database" text_lower
  then analysis ++ "database design and management principles."
  else analysis ++ "general knowledge and information.".

Definition mock_ai_processing (text : string) : io AiResult.t :=
  (emit Sleep ;;;
   let summary := mock_summary text in
   let tags := mock_tags text in
   let analysis := mock_analysis text tags in
   ret {| AiResult.summary := summary;
          AiResult.tags := tags;
          AiResult.analysis := analysis |})%io.

(** ** [process_content] *)

(** The body of the [try]. *)
Definition process_body (request : ProcessingRequest) :
  io ProcessingResponse :=
  (text_content <-
     (if (request.(source_type) =? "url")%string
         && Py.truthy request.(url)
      then extract_text_from_url request.(url)
      else if (request.(source_type) =? "text")%string
              && Py.truthy request.(text)
      then ret request.(text)
      else raise (HTTPException 400 "No valid content provided")) ;;
   (if (String.length (Py.strip text_content) <? 10)%nat
    then raise (HTTPException 400 "Content too short for processing")
    else ret tt) ;;;
   ai_result <- mock_ai_processing text_content ;;
   ret {| summary := ai_result.(AiResult.summary);
          tags := ai_result.(AiResult.tags);
          analysis := ai_result.(AiResult.analysis);
          status := "success";
          error := "" |})%io.

(** [except HTTPException: raise] and
    [except Exception as e: return ProcessingResponse(...)]. *)
Definition process_handlers (m : io ProcessingResponse) :
  io ProcessingResponse :=
  match m with
  | (t, Return r) => (t, Return r)
  | (t, Raise (HTTPException c d)) => (t, Raise (HTTPException c d))
  | (t, Raise e) =>
      (t, Return {| summary := ""; tags := []; analysis := "";
                    status := "error"; error := str e |})
  end.

Definition process_content (request : ProcessingRequest) :
  io ProcessingResponse :=
  process_handlers (process_body request).

End Pipeline.

End Processing.

(* ================================================================== *)
(** * The [json] calls of database.py *)
(* ================================================================== *)

(** [json.dumps] and [json.loads] on the values this program passes
    through them: lists of strings.  [loads] is the inverse reading of
    a JSON array of strings; on any other text it answers [None] (Python
    then raises [JSONDecodeError], or, for JSON of another shape or with
    characters above U+00FF, returns a value outside this model). *)
Module Json.

Definition dquote : ascii := "034"%char.
Definition backslash : ascii := "092"%char.

Definition hex_lower (n : nat) : ascii :=
  ascii_of_nat (if (n <? 10)%nat then 48 + n else 87 + n).

(** [ESCAPE_ASCII] of [json.encoder], with [ensure_ascii=True]. *)
Definition escape_char (c : ascii) : string :=
  let n := Py.code c in
  if (n =? 34)%nat then String backslash (String dquote EmptyString)
  else if (n =? 92)%nat then String backslash (String backslash EmptyString)
  else if (n =? 10)%nat then String backslash "n"
  else if (n =? 13)%nat then String backslash "r"
  else if (n =? 9)%nat then String backslash "t"
  else if (n =? 8)%nat then String backslash "b"
  else if (n =? 12)%nat then String backslash "f"
  else if ((n <? 32) || (126 <? n))%nat
  then String backslash
         ("u00" ++ String (hex_lower (n / 16))
                     (String (hex_lower (n mod 16)) EmptyString))
  else String c EmptyString.

Fixpoint escape (s : string) : string :=
  match s with
  | EmptyString => EmptyString
  | String c s' => escape_char c ++ escape s'
  end.

Definition encode_str (s : string) : string :=
  String dquote (escape s ++ String dquote EmptyString).

(** [json.dumps(l)] for a list of strings. *)
Definition dumps (l : list string) : string :=
  "[" ++ Py.join ", " (map encode_str l) ++ "]".

(** The decoder. *)
Definition is_ws (c : ascii) : bool :=
  let n := Py.code c in
  ((n =? 32) || (n =? 9) || (n =? 10) || (n =? 13))%nat.

Fixpoint skip_ws (s : string) : string :=
  match s with
  | EmptyString => EmptyString
  | String c s' => if is_ws c then skip_ws s' else s
  end.

Definition hex_value (c : ascii) : option nat :=
  let n := Py.code c in
  if ((48 <=? n) && (n <=? 57))%nat then Some (n - 48)%nat
  else if ((97 <=? n) && (n <=? 102))%nat then Some (n - 87)%nat
  else if ((65 <=? n) && (n <=? 70))%nat then Some (n - 55)%nat
  else None.

Definition hex4 (a b c d : ascii) : option nat :=
  match hex_value a, hex_value b, hex_value c, hex_value d with
  | Some x, Some y, Some z, Some w =>
      Some (((x * 16 + y) * 16 + z) * 16 + w)%nat
  | _, _, _, _ => None
  end.

(** [BACKSLASH] of [json.decoder]. *)
Definition unescape (c : ascii) : option ascii :=
  let n := Py.code c in
  if (n =? 34)%nat then Some dquote
  else if (n =? 92)%nat then Some backslash
  else if (n =? 47)%nat then Some "/"%char
  else if (n =? 98)%nat then Some "008"%char
  else if (n =? 102)%nat then Some "012"%char
  else if (n =? 110)%nat then Some "010"%char
  else if (n =? 114)%nat then Some "013"%char
  else if (n =? 116)%nat then Some "009"%char
  else None.

Definition cons_fst (c : ascii) (r : option (string * string)) :
  option (string * string) :=
  match r with
  | Some (x, rest) => Some (String c x, rest)
  | None => None
  end.

(** [scanstring], from just after the opening quote: the decoded
    string and what follows the closing quote. *)
Fixpoint scan_string (s : string) : option (string * string) :=
  match s with
  | EmptyString => None
  | String c s' =>
      if Ascii.eqb c dquote then Some (EmptyString, s')
      else if Ascii.eqb c backslash then
        match s' with
        | EmptyString => None
        | String e s'' =>
            if Ascii.eqb e "u" then
              match s'' with
              | String h1 (String h2 (String h3 (String h4 s5))) =>
                  match hex4 h1 h2 h3 h4 with
                  | Some n =>
                      if (n <? 256)%nat
                      then cons_fst (ascii_of_nat n) (scan_string s5)
                      else None
                  | None => None
                  end
              | _ => None
              end
            else
              match unescape e with
              | Some d => cons_fst d (scan_string s'')
              | None => None
              end
        end
      else if (Py.code c <? 32)%nat then None
      else cons_fst c (scan_string s')
  end.

(** The loop of [JSONArray] from just after a value: a comma and the
    next value, or the closing bracket. *)
Fixpoint scan_items (fuel : nat) (s : string) :
  option (list string * string) :=
  match fuel with
  | O => None
  | S fuel' =>
      match skip_ws s with
      | String c rest =>
          if Ascii.eqb c "]" then Some ([], rest)
          else if Ascii.eqb c "," then
            match skip_ws rest with
            | String q r1 =>
                if Ascii.eqb q dquote then
                  match scan_string r1 with
                  | Some (x, r2) =>
                      match scan_items fuel' r2 with
                      | Some (xs, r3) => Some (x :: xs, r3)
                      | None => None
                      end
                  | None => None
                  end
                else None
            | EmptyString => None
            end
          else None
      | EmptyString => None
      end
  end.

Definition at_end (s : string) : bool := negb (Py.truthy (skip_ws s)).

(** [json.loads(s)], for a text that is an array of strings. *)
Definition loads (s : string) : option (list string) :=
  match skip_ws s with
  | String b r =>
      if Ascii.eqb b "[" then
        match skip_ws r with
        | String c r1 =>
            if Ascii.eqb c "]"
            then (if at_end r1 then Some [] else None)
            else if Ascii.eqb c dquote then
              match scan_string r1 with
              | Some (x, r2) =>
                  match scan_items (String.length r2) r2 with
                  | Some (xs, r3) =>
                      if at_end r3 then Some (x :: xs) else None
                  | None => None
                  end
              | None => None
              end
            else None
        | EmptyString => None
        end
      else None
  | EmptyString => None
  end.

End Json.

(* ================================================================== *)
(** * database.py *)
(* ================================================================== *)

Module Database.

(** The Python values that reach the store as tags or as keyword
    arguments of an update: [None], a [str], a list of [str]. *)
Inductive pyval : Type :=
| PyNone
| PyStr (s : string)
| PyList (l : list string).

(** A row of [knowledge_items] (tags as stored: NULL or TEXT) and the
    dictionary made of it (tags as decoded) have the same columns. *)
Record record (T : Type) : Type := {
  id : Z;
  title : string;
  content : string;
  source_type : string;
  source_url : option string;
  tags : T;
  summary : option string;
  ai_analysis : option string;
  created_at : Z;
  updated_at : Z;
  is_active : bool
}.

Definition row : Type := record (option string).
Definition item : Type := record pyval.

(** The table, in rowid order. *)
Definition table : Type := list row.

(** A Python [int] that SQLite can take as an INTEGER. *)
Definition sqlite_int (z : Z) : bool :=
  (- 9223372036854775808 <=? z) && (z <=? 9223372036854775807).

(** ** [create_knowledge_item] *)

(** AUTOINCREMENT: one more than the largest rowid ever used, which is
    the largest of the table since no row is ever removed; when that is
    not an INTEGER any more the insertion fails (the table is full). *)
Definition next_rowid (db : table) : Z :=
  1 + fold_right Z.max 0 (map (fun r : row => r.(id)) db).

(** [CHECK (source_type IN ('text', 'url', 'file'))] *)
Definition check_source_type (s : string) : bool :=
  existsb (String.eqb s) ["text"; "url"; "file"].

Definition create_knowledge_item (db : table) (now : Z)
    (title content source_type : string) (source_url : option string)
    (tags : option (list string)) (summary ai_analysis : option string) :
  table * result Z :=
  let tags_json :=
    match tags with
    | Some ((_ :: _) as l) => Some (Json.dumps l)
    | _ => None
    end in
  if negb (check_source_type source_type) then (db, Raise IntegrityError)
  else if negb (sqlite_int (next_rowid db))
  then (db, Raise OperationalError)
  else
    let item_id := next_rowid db in
    ((db ++ [ {| id := item_id; title := title; content := content;
                 source_type := source_type; source_url := source_url;
                 tags := tags_json; summary := summary;
                 ai_analysis := ai_analysis; created_at := now;
                 updated_at := now; is_active := true |} ])%list,
     Return item_id).

(** ** Reading rows *)

(** [item = dict(row)] and
    [if item['tags']: item['tags'] = json.loads(item['tags'])].
    A text that [Json.loads] does not read counts as a decoding error. *)
Definition dict_of_row (r : row) : result item :=
  (t <- match r.(tags) with
        | None => Return PyNone
        | Some s =>
            if Py.truthy s then
              match Json.loads s with
              | Some l => Return (PyList l)
              | None => Raise JSONDecodeError
              end
            else Return (PyStr s)
        end ;;
   Return {| id := r.(id); title := r.(title); content := r.(content);
             source_type := r.(source_type);
             source_url := r.(source_url); tags := t;
             summary := r.(summary); ai_analysis := r.(ai_analysis);
             created_at := r.(created_at); updated_at := r.(updated_at);
             is_active := r.(is_active) |})%result.

(** [WHERE id = ? AND is_active = 1] *)
Definition active_with_id (item_id : Z) (r : row) : bool :=
  (r.(id) =? item_id) && r.(is_active).

Definition get_knowledge_item (db : table) (item_id : Z) :
  result (option item) :=
  if negb (sqlite_int item_id) then Raise OverflowError
  else
    match find (active_with_id item_id) db with
    | Some r => (i <- dict_of_row r ;; Return (Some i))%result
    | None => Return None
    end.

(** [LIMIT ?]: a negative limit is no limit. *)
Definition sql_limit (limit : Z) (rows : list row) : list row :=
  if limit <? 0 then rows else firstn (Z.to_nat limit) rows.

(** [OFFSET ?]: a negative offset is zero. *)
Definition sql_offset (offset : Z) (rows : list row) : list row :=
  skipn (Z.to_nat offset) rows.

(** SQLite's [LIKE]: '%' is any run of characters, '_' any one
    character, and the letters A-Z match in either case. *)
Definition like_fold (c : ascii) : ascii :=
  let n := Py.code c in
  if ((65 <=? n) && (n <=? 90))%nat then ascii_of_nat (n + 32) else c.

Fixpoint like (pattern : string) (s : string) {struct pattern} : bool :=
  match pattern with
  | EmptyString => negb (Py.truthy s)
  | String c p' =>
      if Ascii.eqb c "%" then
        (fix any_run (s : string) : bool :=
           like p' s
           || match s with
              | EmptyString => false
              | String _ s' => any_run s'
              end) s
      else
        match s with
        | EmptyString => false
        | String d s' =>
            (Ascii.eqb c "_" || Ascii.eqb (like_fold c) (like_fold d))
            && like p' s'
        end
  end.

(** [column LIKE ?] on a column that may be NULL. *)
Definition like_null (pattern : string) (v : option string) : bool :=
  match v with
  | Some s => like pattern s
  | None => false
  end.

Section Queries.

(** [ORDER BY created_at DESC], as the engine performs it: SQLite does
    not say in which order it leaves rows of equal [created_at], so the
    queries take the ordering as a parameter. *)
Variable order_by_created_at_desc : list row -> list row.

(** The rows that the query of [get_all_knowledge_items] selects. *)
Definition select_page (db : table) (limit offset : Z) : list row :=
  sql_limit limit
    (sql_offset offset
       (order_by_created_at_desc
          (filter (fun r : row => r.(is_active)) db))).

Definition get_all_knowledge_items (db : table) (limit offset : Z) :
  result (list item) :=
  if negb (sqlite_int limit && sqlite_int offset)
  then Raise OverflowError
  else mapM dict_of_row (select_page db limit offset).

(** The rows that the query of [search_knowledge_items] selects. *)
Definition select_search (db : table) (query : string) (limit : Z) :
  list row :=
  let search_term := "%" ++ query ++ "%" in
  sql_limit limit
    (order_by_created_at_desc
       (filter (fun r : row =>
                  r.(is_active)
                  && (like search_term r.(title)
                      || like search_term r.(content)
                      || like_null search_term r.(summary)))
               db)).

Definition search_knowledge_items (db : table) (query : string)
    (limit : Z) : result (list item) :=
  if negb (sqlite_int limit) then Raise OverflowError
  else mapM dict_of_row (select_search db query limit).

End Queries.

(** ** [update_knowledge_item] *)

Definition kwargs : Type := list (string * pyval).

(** [if 'tags' in kwargs and isinstance(kwargs['tags'], list):
       kwargs['tags'] = json.dumps(kwargs['tags'])] *)
Definition serialize_tags (kw : kwargs) : kwargs :=
  map (fun kv : string * pyval =>
         if (fst kv =? "tags")%string then
           match snd kv with
           | PyList l => (fst kv, PyStr (Json.dumps l))
           | _ => kv
           end
         else kv) kw.

Definition updatable : list string :=
  ["title"; "content"; "source_url"; "tags"; "summary"; "ai_analysis"].

Definition is_updatable (key : string) : bool :=
  existsb (String.eqb key) updatable.

(** The loop that fills [set_clauses] and [values]. *)
Definition set_clauses (kw : kwargs) : kwargs :=
  filter (fun kv : string * pyval => is_updatable (fst kv)) kw.

(** What [sqlite3] binds for a parameter: it takes [None] and [str],
    and refuses a list. *)
Definition bind_param (v : pyval) : result (option string) :=
  match v with
  | PyNone => Return None
  | PyStr s => Return (Some s)
  | PyList _ => Raise InterfaceError
  end.

Definition set_title (v : string) (r : row) : row :=
  {| id := r.(id); title := v; content := r.(content);
     source_type := r.(source_type); source_url := r.(source_url);
     tags := r.(tags); summary := r.(summary);
     ai_analysis := r.(ai_analysis); created_at := r.(created_at);
     updated_at := r.(updated_at); is_active := r.(is_active) |}.

Definition set_content (v : string) (r : row) : row :=
  {| id := r.(id); title := r.(title); content := v;
     source_type := r.(source_type); source_url := r.(source_url);
     tags := r.(tags); summary := r.(summary);
     ai_analysis := r.(ai_analysis); created_at := r.(created_at);
     updated_at := r.(updated_at); is_active := r.(is_active) |}.

Definition set_source_url (v : option string) (r : row) : row :=
  {| id := r.(id); title := r.(title); content := r.(content);
     source_type := r.(source_type); source_url := v;
     tags := r.(tags); summary := r.(summary);
     ai_analysis := r.(ai_analysis); created_at := r.(created_at);
     updated_at := r.(updated_at); is_active := r.(is_active) |}.

Definition set_tags (v : option string) (r : row) : row :=
  {| id := r.(id); title := r.(title); content := r.(content);
     source_type := r.(source_type); source_url := r.(source_url);
     tags := v; summary := r.(summary);
     ai_analysis := r.(ai_analysis); created_at := r.(created_at);
     updated_at := r.(updated_at); is_active := r.(is_active) |}.

Definition set_summary (v : option string) (r : row) : row :=
  {| id := r.(id); title := r.(title); content := r.(content);
     source_type := r.(source_type); source_url := r.(source_url);
     tags := r.(tags); summary := v;
     ai_analysis := r.(ai_analysis); created_at := r.(created_at);
     updated_at := r.(updated_at); is_active := r.(is_active) |}.

Definition set_ai_analysis (v : option string) (r : row) : row :=
  {| id := r.(id); title := r.(title); content := r.(content);
     source_type := r.(source_type); source_url := r.(source_url);
     tags := r.(tags); summary := r.(summary);
     ai_analysis := v; created_at := r.(created_at);
     updated_at := r.(updated_at); is_active := r.(is_active) |}.

Definition set_updated_at (v : Z) (r : row) : row :=
  {| id := r.(id); title := r.(title); content := r.(content);
     source_type := r.(source_type); source_url := r.(source_url);
     tags := r.(tags); summary := r.(summary);
     ai_analysis := r.(ai_analysis); created_at := r.(created_at);
     updated_at := v; is_active := r.(is_active) |}.

Definition set_is_active (v : bool) (r : row) : row :=
  {| id := r.(id); title := r.(title); content := r.(content);
     source_type := r.(source_type); source_url := r.(source_url);
     tags := r.(tags); summary := r.(summary);
     ai_analysis := r.(ai_analysis); created_at := r.(created_at);
     updated_at := r.(updated_at); is_active := v |}.

(** [SET key = ?] on one row; [title] and [content] are NOT NULL. *)
Definition assign (key : string) (v : option string) (r : row) :
  result row :=
  if (key =? "title")%string then
    match v with
    | Some s => Return (set_title s r)
    | None => Raise IntegrityError
    end
  else if (key =? "content")%string then
    match v with
    | Some s => Return (set_content s r)
    | None => Raise IntegrityError
    end
  else if (key =? "source_url")%string then Return (set_source_url v r)
  else if (key =? "tags")%string then Return (set_tags v r)
  else if (key =? "summary")%string then Return (set_summary v r)
  else if (key =? "ai_analysis")%string then Return (set_ai_analysis v r)
  else Return r.

Fixpoint assign_all (sets : list (string * option string)) (r : row) :
  result row :=
  match sets with
  | [] => Return r
  | (key, v) :: sets' =>
      (r' <- assign key v r ;; assign_all sets' r')%result
  end.

(** [UPDATE knowledge_items SET ... WHERE ...]: the new table and
    [cursor.rowcount], or the error that aborts the statement. *)
Fixpoint sql_update (where_ : row -> bool) (set_ : row -> result row)
    (db : table) : result (table * nat) :=
  match db with
  | [] => Return ([], O)
  | r :: db' =>
      if where_ r then
        (r' <- set_ r ;;
         rest <- sql_update where_ set_ db' ;;
         Return (r' :: fst rest, S (snd rest)))%result
      else
        (rest <- sql_update where_ set_ db' ;;
         Return (r :: fst rest, snd rest))%result
  end.

Fixpoint bind_params (sets : kwargs) : result (list (string * option string)) :=
  match sets with
  | [] => Return []
  | (key, v) :: sets' =>
      (b <- bind_param v ;;
       bs <- bind_params sets' ;;
       Return ((key, b) :: bs))%result
  end.

Definition update_knowledge_item (db : table) (now : Z) (item_id : Z)
    (kw : kwargs) : table * result bool :=
  match kw with
  | [] => (db, Return false)
  | _ =>
      let kw := serialize_tags kw in
      match set_clauses kw with
      | [] => (db, Return false)
      | sets =>
          match bind_params sets with
          | Raise e => (db, Raise e)
          | Return bound =>
              if negb (sqlite_int item_id) then (db, Raise OverflowError)
              else
                match sql_update (active_with_id item_id)
                        (fun r =>
                           (r' <- assign_all bound r ;;
                            Return (set_updated_at now r'))%result)
                        db with
                | Raise e => (db, Raise e)
                | Return (db', affected) =>
                    (db', Return (0 <? affected)%nat)
                end
          end
      end
  end.

(** ** [delete_knowledge_item] *)

Definition delete_knowledge_item (db : table) (now : Z) (item_id : Z) :
  table * result bool :=
  if negb (sqlite_int item_id) then (db, Raise OverflowError)
  else
    match sql_update (active_with_id item_id)
            (fun r => Return (set_updated_at now (set_is_active false r)))
            db with
    | Raise e => (db, Raise e)
    | Return (db', affected) => (db', Return (0 <? affected)%nat)
    end.

(** ** An engine

    One way to perform [ORDER BY created_at DESC]: a stable insertion
    sort of the rows scanned in rowid order. *)
Fixpoint insert_by_created_at (r : row) (rows : list row) : list row :=
  match rows with
  | [] => [r]
  | r' :: rows' =>
      if r.(created_at) <? r'.(created_at)
      then r' :: insert_by_created_at r rows'
      else r :: rows
  end.

Definition stable_order_by (rows : list row) : list row :=
  fold_right insert_by_created_at [] rows.

End Database.

(* ================================================================== *)
(** * routes/knowledge.py: the statistics *)
(* ================================================================== *)

Module Knowledge.
Import Database.

(** A [dict] from strings to counts, in insertion order. *)
Definition counter : Type := list (string * nat).

(** [d[key] = d.get(key, 0) + 1] *)
Fixpoint incr (key : string) (d : counter) : counter :=
  match d with
  | [] => [(key, 1%nat)]
  | (k, n) :: d' =>
      if (k =? key)%string then (k, S n) :: d' else (k, n) :: incr key d'
  end.

(** [for tag in item['tags']], entered when [item.get('tags')] is true. *)
Definition tags_iter (v : pyval) : list string :=
  match v with
  | PyNone => []
  | PyStr s => map (fun c => String c EmptyString) (list_ascii_of_string s)
  | PyList l => l
  end.

(** [sorted(d.items(), key=lambda x: x[1], reverse=True)]: by count,
    largest first, equal counts in their order in [d]. *)
Fixpoint insert_desc (x : string * nat) (l : counter) : counter :=
  match l with
  | [] => [x]
  | y :: l' =>
      if (snd x <? snd y)%nat then y :: insert_desc x l' else x :: l
  end.

Definition sorted_desc (d : counter) : counter :=
  fold_right insert_desc [] d.

Record Stats : Type := {
  total_items : nat;
  source_types : counter;
  popular_tags : counter;
  status : string
}.

Definition count_item (acc : counter * counter) (i : item) :
  counter * counter :=
  (incr i.(source_type) (fst acc),
   fold_left (fun d tag => incr tag d) (tags_iter i.(tags)) (snd acc)).

Definition stats_of (items : list item) : Stats :=
  let '(source_types, tags_count) :=
    fold_left count_item items ([], []) in
  {| total_items := List.length items;
     source_types := source_types;
     popular_tags := firstn 10 (sorted_desc tags_count);
     status := "success" |}.

Section Route.

Variable str_exn : exn -> string.
Variable order_by_created_at_desc : list row -> list row.

Definition get_knowledge_stats (db : table) : result Stats :=
  match get_all_knowledge_items order_by_created_at_desc db 10000 0 with
  | Return items => Return (stats_of items)
  | Raise e =>
      Raise (HTTPException 500
               ("Failed to get statistics: " ++ str_exn e))
  end.

End Route.

End Knowledge.

(* ================================================================== *)
(** * database.py: the processing log *)
(* ================================================================== *)

Module Logs.

(** A row of [ai_processing_logs].  The reference to a knowledge item
    is not checked: the connection of [get_db_connection] never turns
    foreign keys on. *)
Record log_entry : Type := {
  id : Z;
  knowledge_item_id : Z;
  processing_type : string;
  input_text : string;
  output_text : string;
  processing_time_ms : Z;
  status : string;
  error_message : option string;
  created_at : Z
}.

Definition log_table : Type := list log_entry.

Definition next_rowid (logs : log_table) : Z :=
  1 + fold_right Z.max 0 (map (fun l : log_entry => l.(id)) logs).

(** [log_ai_processing]; [status] defaults to ['success'] and
    [error_message] to [None] at the call. *)
Definition log_ai_processing (logs : log_table) (now : Z)
    (knowledge_item_id : Z) (processing_type input_text output_text : string)
    (processing_time_ms : Z) (status : string)
    (error_message : option string) : log_table * result Z :=
  if negb (Database.sqlite_int knowledge_item_id
           && Database.sqlite_int processing_time_ms)
  then (logs, Raise OverflowError)
  else if negb (Database.sqlite_int (next_rowid logs))
  then (logs, Raise OperationalError)
  else
    let log_id := next_rowid logs in
    ((logs ++ [ {| id := log_id; knowledge_item_id := knowledge_item_id;
                   processing_type := processing_type;
                   input_text := input_text; output_text := output_text;
                   processing_time_ms := processing_time_ms;
                   status := status; error_message := error_message;
                   created_at := now |} ])%list,
     Return log_id).

End Logs.

(* ================================================================== *)
(** * routes/knowledge.py: the routes over the store *)
(* ================================================================== *)

Module KnowledgeRoutes.

(** [class KnowledgeItemCreate(BaseModel)] *)
Module Create.
Record t : Type := {
  title : string;
  content : string;
  source_type : string;
  source_url : option string;
  tags : option (list string);
  summary : option string;
  ai_analysis : option string
}.
End Create.

(** [class KnowledgeItemUpdate(BaseModel)] *)
Module Update.
Record t : Type := {
  title : option string;
  content : option string;
  source_url : option string;
  tags : option (list string);
  summary : option string;
  ai_analysis : option string
}.
End Update.

(** The dictionary that create, update and delete answer. *)
Record Ack : Type := {
  id : Z;
  message : string;
  status : string
}.

Definition text_field (key : string) (v : option string) : Database.kwargs :=
  match v with
  | Some s => [(key, Database.PyStr s)]
  | None => []
  end.

Definition list_field (key : string) (v : option (list string)) :
  Database.kwargs :=
  match v with
  | Some l => [(key, Database.PyList l)]
  | None => []
  end.

(** [{k: v for k, v in item.dict().items() if v is not None}] *)
Definition update_data (item : Update.t) : Database.kwargs :=
  (text_field "title" item.(Update.title)
   ++ text_field "content" item.(Update.content)
   ++ text_field "source_url" item.(Update.source_url)
   ++ list_field "tags" item.(Update.tags)
   ++ text_field "summary" item.(Update.summary)
   ++ text_field "ai_analysis" item.(Update.ai_analysis))%list.

Definition not_found : exn := HTTPException 404 "Knowledge item not found".

Section Routes.

Variable str_exn : exn -> string.
Variable order_by_created_at_desc : list Database.row -> list Database.row.

(** [except Exception as e: raise HTTPException(500, prefix + str(e))] *)
Definition internal_error (prefix : string) (e : exn) : exn :=
  HTTPException 500 (prefix ++ Processing.str str_exn e).

(** [except HTTPException: raise], then the handler above. *)
Definition reraise_or_internal (prefix : string) (e : exn) : exn :=
  match e with
  | HTTPException c d => HTTPException c d
  | _ => internal_error prefix e
  end.

(** [POST /knowledge] *)
Definition create_knowledge_item (db : Database.table) (now : Z)
    (item : Create.t) : Database.table * result Ack :=
  match Database.create_knowledge_item db now item.(Create.title)
          item.(Create.content) item.(Create.source_type)
          item.(Create.source_url) item.(Create.tags)
          item.(Create.summary) item.(Create.ai_analysis) with
  | (db', Return item_id) =>
      (db', Return {| id := item_id;
                      message := "Knowledge item created successfully";
                      status := "success" |})
  | (db', Raise e) =>
      (db', Raise (internal_error "Failed to create knowledge item: " e))
  end.

(** [GET /knowledge] *)
Definition get_knowledge_items (db : Database.table) (limit offset : Z)
    (search : option string) : result (list Database.item) :=
  match
    (match search with
     | Some (String c q) =>
         Database.search_knowledge_items order_by_created_at_desc db
           (String c q) limit
     | _ =>
         Database.get_all_knowledge_items order_by_created_at_desc db
           limit offset
     end)
  with
  | Return items => Return items
  | Raise e =>
      Raise (internal_error "Failed to retrieve knowledge items: " e)
  end.

(** [GET /knowledge/{item_id}] *)
Definition get_knowledge_item (db : Database.table) (item_id : Z) :
  result Database.item :=
  match Database.get_knowledge_item db item_id with
  | Return (Some item) => Return item
  | Return None => Raise not_found
  | Raise e =>
      Raise (reraise_or_internal "Failed to retrieve knowledge item: " e)
  end.

(** [PUT /knowledge/{item_id}] *)
Definition update_knowledge_item (db : Database.table) (now : Z)
    (item_id : Z) (item : Update.t) : Database.table * result Ack :=
  match update_data item with
  | [] => (db, Raise (HTTPException 400 "No update data provided"))
  | data =>
      match Database.update_knowledge_item db now item_id data with
      | (db', Return true) =>
          (db', Return {| id := item_id;
                          message := "Knowledge item updated successfully";
                          status := "success" |})
      | (db', Return false) => (db', Raise not_found)
      | (db', Raise e) =>
          (db', Raise (reraise_or_internal
                         "Failed to update knowledge item: " e))
      end
  end.

(** [DELETE /knowledge/{item_id}] *)
Definition delete_knowledge_item (db : Database.table) (now : Z)
    (item_id : Z) : Database.table * result Ack :=
  match Database.delete_knowledge_item db now item_id with
  | (db', Return true) =>
      (db', Return {| id := item_id;
                      message := "Knowledge item deleted successfully";
                      status := "success" |})
  | (db', Return false) => (db', Raise not_found)
  | (db', Raise e) =>
      (db', Raise (reraise_or_internal
                     "Failed to delete knowledge item: " e))
  end.

(** [GET /knowledge/search/{query}] *)
Definition search_knowledge_items (db : Database.table) (query : string)
    (limit : Z) : result (list Database.item) :=
  match Database.search_knowledge_items order_by_created_at_desc db
          query limit with
  | Return items => Return items
  | Raise e => Raise (internal_error "Search failed: " e)
  end.

End Routes.

End KnowledgeRoutes.

(* ================================================================== *)
(** * The vocabulary of the properties *)
(* ================================================================== *)

(** What the statements below are written with: predicates on texts,
    the tables of the design document, frames, sample data. *)

Module TextTerms.
Import Py.

(** No character of [s] is white space. *)
Fixpoint no_space (s : string) : bool :=
  match s with
  | EmptyString => true
  | String c s' => negb (isspace c) && no_space s'
  end.

End TextTerms.

Module ProcessingTerms.
Import Py Processing.

(** The two validation errors. *)
Definition NoContent : exn :=
  HTTPException 400 "No valid content provided".
Definition ContentTooShort : exn :=
  HTTPException 400 "Content too short for processing".

(** The payload that the source type of a request designates. *)
Definition payload_of (req : ProcessingRequest) : option string :=
  if (req.(source_type) =? "text")%string then Some req.(text)
  else if (req.(source_type) =? "url")%string then Some req.(url)
  else None.

(** The payload is missing or empty. *)
Definition payload_empty (req : ProcessingRequest) : Prop :=
  payload_of req = None \/ payload_of req = Some "".

(** What a successful analysis answers. *)
Definition success_of (text : string) : ProcessingResponse :=
  {| summary := mock_summary text;
     tags := mock_tags text;
     analysis := mock_analysis text (mock_tags text);
     status := "success";
     error := "" |}.

(** Stand-ins for the libraries, to run the pipeline on examples. *)
Definition sample_str : exn -> string := fun _ => "error".
Definition sample_urlparse : string -> string * string :=
  fun _ => ("http", "example.org").
Definition sample_get : string -> result string :=
  fun _ => Return "<p>short</p>".

Definition empty_text_request : ProcessingRequest :=
  {| text := ""; url := ""; source_type := "text" |}.
Definition hi_request : ProcessingRequest :=
  {| text := "hi"; url := ""; source_type := "text" |}.
Definition file_request : ProcessingRequest :=
  {| text := "A text that is long enough to be analysed";
     url := "http://example.org/page"; source_type := "file" |}.

Section Extraction.

Variable str_exn : exn -> string.
Variable urlparse : string -> string * string.
Variable requests_get : string -> result string.

(** The text that extraction hands to the length validation, with
    the events extraction performed. *)
Definition extracted (req : ProcessingRequest) (t : list event)
    (txt : string) : Prop :=
  (req.(source_type) = "text" /\ req.(text) <> ""
   /\ t = [] /\ txt = req.(text))
  \/ (req.(source_type) = "url" /\ req.(url) <> ""
      /\ extract_text_from_url str_exn urlparse requests_get req.(url)
         = (t, Return txt)).

End Extraction.

End ProcessingTerms.

Module AnalysisTerms.
Import Py Processing.

(** ** Tags, as the design document words them: an ordered table of
    buckets, each with its trigger keywords. *)
Definition buckets : list (string * list string) :=
  [ ("AI", ["ai"; "artificial intelligence"; "machine learning"; "ml"]);
    ("Development",
      ["python"; "javascript"; "programming"; "code"; "development"]);
    ("Database", ["database"; "sql"; "data"]);
    ("Web", ["web"; "http"; "api"; "rest"]);
    ("Research", ["research"; "study"; "analysis"]) ].

Definition fallback_tags : list string := ["General"; "Knowledge"].

(** A bucket matches when one of its keywords occurs in the lowered text. *)
Definition bucket_matches (text : string) (b : string * list string) : bool :=
  any_in (snd b) (lower text).

Definition bucket_tags (text : string) : list string :=
  match filter (bucket_matches text) buckets with
  | [] => fallback_tags
  | hits => map fst hits
  end.

Definition project_text : string :=
  "This project uses Python and a SQL database for web APIs".

(** ** The narrative, as the design document words it: a template and
    a priority-ordered table of keyword tests and topic clauses. *)
Definition topic_clauses : list (list string * string) :=
  [ (["ai"; "artificial intelligence"],
     "artificial intelligence concepts and applications.");
    (["development"; "programming"],
     "software development practices and methodologies.");
    (["database"], "database design and management principles.") ].

Definition generic_clause : string := "general knowledge and information.".

Definition topic_clause (text : string) : string :=
  match find (fun c => any_in (fst c) (lower text)) topic_clauses with
  | Some c => snd c
  | None => generic_clause
  end.

Definition narrative (tags : list string) (word_count : nat)
    (clause : string) : string :=
  "This content appears to be about " ++ lower (join ", " tags)
  ++ ". The text contains approximately " ++ str_of_nat word_count
  ++ " words and covers " ++ clause.

(** The dictionary that the analysis of [text] answers. *)
Definition analyze (text : string) : AiResult.t :=
  {| AiResult.summary := mock_summary text;
     AiResult.tags := mock_tags text;
     AiResult.analysis := mock_analysis text (mock_tags text) |}.

(** The words kept by the summary. *)
Definition kept_words (text : string) : list string :=
  firstn (Nat.min 50 (List.length (split text) / 3)) (split text).

End AnalysisTerms.

Module JsonTerms.
Import Json.

(** What follows the first element in the text of a list. *)
Fixpoint items_tail (l : list string) : string :=
  match l with
  | [] => "]"
  | x :: l' => ", " ++ encode_str x ++ items_tail l'
  end.

End JsonTerms.

Module StoreTerms.
Import Py Json Database.

(** What an update leaves alone in every row. *)
Definition same_frame (r r' : row) : Prop :=
  r'.(id) = r.(id) /\ r'.(source_type) = r.(source_type)
  /\ r'.(created_at) = r.(created_at) /\ r'.(is_active) = r.(is_active).

(** The column that a keyword of an update names. *)
Definition column (key : string) (r : row) : option (option string) :=
  if (key =? "title")%string then Some (Some r.(title))
  else if (key =? "content")%string then Some (Some r.(content))
  else if (key =? "source_url")%string then Some r.(source_url)
  else if (key =? "tags")%string then Some r.(tags)
  else if (key =? "summary")%string then Some r.(summary)
  else if (key =? "ai_analysis")%string then Some r.(ai_analysis)
  else None.

(** The update once the clauses are known. *)
Definition update_with (db : table) (now item_id : Z) (sets : kwargs) :
  table * result bool :=
  match sets with
  | [] => (db, Return false)
  | _ =>
      match bind_params sets with
      | Raise e => (db, Raise e)
      | Return bound =>
          if negb (sqlite_int item_id) then (db, Raise OverflowError)
          else
            match sql_update (active_with_id item_id)
                    (fun r =>
                       (r' <- assign_all bound r ;;
                        Return (set_updated_at now r'))%result)
                    db with
            | Raise e => (db, Raise e)
            | Return (db', affected) => (db', Return (0 <? affected)%nat)
            end
      end
  end.

(** What one call of the update leaves alone in a row. *)
Definition update_frame (item_id : Z) (kw : kwargs) (r r' : row) : Prop :=
  r'.(id) = r.(id) /\ r'.(source_type) = r.(source_type)
  /\ r'.(created_at) = r.(created_at) /\ r'.(is_active) = r.(is_active)
  /\ (forall k, ~ In k (map fst kw) -> column k r' = column k r)
  /\ (active_with_id item_id r = false -> r' = r).

Definition sample_row (i t : Z) (active : bool) : row :=
  {| id := i; title := "Title"; content := "Content";
     source_type := "text"; source_url := None;
     tags := Some (dumps ["AI"; "Web"]); summary := Some "Summary";
     ai_analysis := None; created_at := t; updated_at := t;
     is_active := active |}.

(** Five active rows and a deleted one. *)
Definition sample_db : table :=
  [ sample_row 1 100 true; sample_row 2 300 true; sample_row 3 200 false;
    sample_row 4 250 true; sample_row 5 250 true; sample_row 6 400 true ].

(** What the statement of [delete_knowledge_item] does to a row. *)
Definition deactivate (now item_id : Z) (r : row) : row :=
  if active_with_id item_id r
  then set_updated_at now (set_is_active false r)
  else r.

(** The table without the rows of that id. *)
Definition purge (item_id : Z) (db : table) : table :=
  filter (fun r : row => negb (r.(id) =? item_id)) db.

(** Every list among the values is that of the tags, or of a key that
    the update does not recognise. *)
Definition bindable (kw : kwargs) : Prop :=
  Forall (fun kv : string * pyval =>
            match snd kv with
            | PyList _ => fst kv = "tags" \/ is_updatable (fst kv) = false
            | _ => True
            end) kw.

(** Newest first: the order of [ORDER BY created_at DESC]. *)
Definition newest_first (r r' : row) : Prop :=
  r'.(created_at) <= r.(created_at).

(** A row whose dictionary can be made. *)
Definition decodable (r : row) : Prop := exists i, dict_of_row r = Return i.

(** The tags that are read back for the tags given at creation. *)
Definition tags_read_back (tags : option (list string)) : pyval :=
  match tags with
  | Some ((_ :: _) as l) => PyList l
  | _ => PyNone
  end.

Section Listing.

Variable order_by : list row -> list row.

(** All the active rows, newest first: what the pages are cut from. *)
Definition listing (db : table) : list row :=
  order_by (filter (fun r : row => r.(is_active)) db).

End Listing.

End StoreTerms.

Module CleaningTerms.
Import Py.

(** '<' occurs in [s]. *)
Fixpoint has_lt (s : string) : bool :=
  match s with
  | EmptyString => false
  | String c s' => Ascii.eqb c "<" || has_lt s'
  end.

(** White space occurs in [s] only as single spaces: every white-space
    character is a space, and no two of them are neighbours
    ([after_space]: the character before was one). *)
Fixpoint spaced_from (after_space : bool) (s : string) : bool :=
  match s with
  | EmptyString => true
  | String c s' =>
      if isspace c
      then Ascii.eqb c " " && negb after_space && spaced_from true s'
      else spaced_from false s'
  end.

Definition single_spaced (s : string) : bool := spaced_from false s.

(** The first character of [s] is white space. *)
Definition starts_with_space (s : string) : bool :=
  match s with
  | EmptyString => false
  | String c _ => isspace c
  end.

(** What [extract_text_from_url] makes of the body of a page. *)
Definition clean_text (content : string) : string :=
  let cleaned := strip (Processing.collapse_spaces
                          (Processing.strip_tags content)) in
  if (5000 <? String.length cleaned)%nat
  then slice_to 5000 cleaned ++ "..."
  else cleaned.

Definition invalid_url : exn :=
  HTTPException 400
    "Failed to extract content from URL: Invalid URL format".

(** A web page for the examples, and the libraries around it. *)
Definition sample_page : string :=
  "<html><body><h1>Notes</h1>  <p>Python   and SQL</p></body></html>".

Definition page_get : string -> result string :=
  fun _ => Return sample_page.

Definition no_scheme : string -> string * string := fun u => ("", u).

End CleaningTerms.

Module SummaryTerms.

(** The words [ws], the last one followed at once by [tail]. *)
Fixpoint glue_last (ws : list string) (tail : string) : list string :=
  match ws with
  | [] => []
  | [w] => [w ++ tail]
  | w :: ws' => w :: glue_last ws' tail
  end.

End SummaryTerms.

Module UpdateTerms.
Import Json Database.

(** What an update writes in a column for a value it was given. *)
Definition stored (v : pyval) : option string :=
  match v with
  | PyNone => None
  | PyStr s => Some s
  | PyList l => Some (dumps l)
  end.

(** The values that the update route passes: strings, and a list for
    the tags only. *)
Definition typed_update (kw : kwargs) : Prop :=
  Forall (fun kv : string * pyval =>
            match snd kv with
            | PyNone => False
            | PyStr _ => True
            | PyList _ => fst kv = "tags"
            end) kw.

(** All the columns of a row but [is_active] and [updated_at]. *)
Definition same_content (r r' : row) : Prop :=
  r'.(id) = r.(id) /\ r'.(title) = r.(title)
  /\ r'.(content) = r.(content) /\ r'.(source_type) = r.(source_type)
  /\ r'.(source_url) = r.(source_url) /\ r'.(tags) = r.(tags)
  /\ r'.(summary) = r.(summary) /\ r'.(ai_analysis) = r.(ai_analysis)
  /\ r'.(created_at) = r.(created_at).

End UpdateTerms.

Module WordTerms.
Import Py TextTerms.

(** Every character of [s] is white space. *)
Fixpoint all_space (s : string) : bool :=
  match s with
  | EmptyString => true
  | String c s' => isspace c && all_space s'
  end.

(** A text written out as its words: some white space, then every word
    followed by its gap. *)
Definition layout (lead : string) (pieces : list (string * string)) :
  string :=
  lead ++ fold_right (fun p rest => fst p ++ snd p ++ rest) "" pieces.

(** The pieces are words and gaps: a word is not empty and holds no
    white space, a gap is white space, and only the last gap may be
    empty. *)
Fixpoint well_spaced (pieces : list (string * string)) : Prop :=
  match pieces with
  | [] => True
  | (w, gap) :: rest =>
      w <> "" /\ no_space w = true /\ all_space gap = true
      /\ (rest <> [] -> gap <> "") /\ well_spaced rest
  end.

(** The value of a decimal digit: the digits are the code points 48
    to 57. *)
Definition digit_value (c : ascii) : option nat :=
  if ((48 <=? code c) && (code c <=? 57))%nat
  then Some (code c - 48)%nat
  else None.

(** The number that a run of digits writes, read from the left. *)
Fixpoint read_digits (acc : nat) (s : string) : option nat :=
  match s with
  | EmptyString => Some acc
  | String c s' =>
      match digit_value c with
      | Some d => read_digits (10 * acc + d) s'
      | None => None
      end
  end.

(** [s] is the decimal numeral of [n]: digits that write [n], with no
    leading zero but for "0" itself. *)
Definition decimal (n : nat) (s : string) : Prop :=
  s <> "" /\ read_digits 0 s = Some n
  /\ (s = "0" \/ exists c s', s = String c s' /\ c <> "0"%char).

(** [needle] occurs in [hay]. *)
Definition occurs (needle hay : string) : Prop :=
  exists a b, hay = a ++ needle ++ b.

(** Nine words, set apart by spaces, a tab and a line feed. *)
Definition fox_text : string :=
  "  The quick" ++ String "009" "brown   fox" ++ String "010"
  "jumps over the lazy dog ".

End WordTerms.

Module ListingTerms.
Import Json Database.

(** The dictionary of a row as a caller sees it: every column as the
    row has it, and the tags as the list that was stored. *)
Definition item_of_row (r : row) (i : item) : Prop :=
  i.(id) = r.(id) /\ i.(title) = r.(title) /\ i.(content) = r.(content)
  /\ i.(source_type) = r.(source_type) /\ i.(source_url) = r.(source_url)
  /\ i.(summary) = r.(summary) /\ i.(ai_analysis) = r.(ai_analysis)
  /\ i.(created_at) = r.(created_at) /\ i.(updated_at) = r.(updated_at)
  /\ i.(is_active) = r.(is_active)
  /\ (r.(tags) = None -> i.(tags) = PyNone)
  /\ (forall l, r.(tags) = Some (dumps l) -> i.(tags) = PyList l).

(** Newest first, for the dictionaries. *)
Definition newest_item_first (i i' : item) : Prop :=
  i'.(created_at) <= i.(created_at).

End ListingTerms.

Module SearchTerms.
Import Database.

(** A letter A-Z as its small letter, any other character as it is. *)
Definition lower_az (c : ascii) : ascii :=
  match c with
  | "A" => "a" | "B" => "b" | "C" => "c" | "D" => "d" | "E" => "e"
  | "F" => "f" | "G" => "g" | "H" => "h" | "I" => "i" | "J" => "j"
  | "K" => "k" | "L" => "l" | "M" => "m" | "N" => "n" | "O" => "o"
  | "P" => "p" | "Q" => "q" | "R" => "r" | "S" => "s" | "T" => "t"
  | "U" => "u" | "V" => "v" | "W" => "w" | "X" => "x" | "Y" => "y"
  | "Z" => "z" | _ => c
  end%char.

(** The text with the letters A-Z as small letters. *)
Fixpoint fold_case (s : string) : string :=
  match s with
  | EmptyString => EmptyString
  | String c s' => String (lower_az c) (fold_case s')
  end.

(** [q] is in [s], the letters A-Z and a-z taken as the same. *)
Definition occurs_in (q s : string) : Prop :=
  exists pre mid post,
    s = pre ++ mid ++ post /\ fold_case mid = fold_case q.

(** No character NUL: the engine reads a text up to its first NUL. *)
Fixpoint no_nul (s : string) : bool :=
  match s with
  | EmptyString => true
  | String c s' => negb (Ascii.eqb c Ascii.zero) && no_nul s'
  end.

(** A query that LIKE takes letter by letter: none of the wildcards '%'
    and '_', no NUL, and short enough for the pattern to be accepted
    (50000 bytes at most, two bytes at most for a character). *)
Fixpoint no_wildcard (q : string) : bool :=
  match q with
  | EmptyString => true
  | String c q' =>
      negb (Ascii.eqb c "%") && negb (Ascii.eqb c "_") && no_wildcard q'
  end.

Definition literal (q : string) : Prop :=
  no_wildcard q = true /\ no_nul q = true
  /\ Z.of_nat (String.length q) <= 24999.

(** The query is in the title, the content or the summary of the row. *)
Definition mentions (T : Type) (q : string) (r : record T) : Prop :=
  occurs_in q r.(title) \/ occurs_in q r.(content)
  \/ exists s, r.(summary) = Some s /\ occurs_in q s.

(** A row whose texts the engine reads to their end. *)
Definition read_in_full (r : row) : Prop :=
  no_nul r.(title) = true /\ no_nul r.(content) = true
  /\ forall s, r.(summary) = Some s -> no_nul s = true.

End SearchTerms.

Module StatsTerms.
Import Database Knowledge.

(** [d.get(key, 0)] *)
Fixpoint get (key : string) (d : counter) : nat :=
  match d with
  | [] => O
  | (k, n) :: d' => if (k =? key)%string then n else get key d'
  end.

(** How many times [key] is in [l]. *)
Definition times (key : string) (l : list string) : nat :=
  count_occ string_dec l key.

(** The tags that the statistics go through, item after item. *)
Definition all_tags (items : list item) : list string :=
  List.concat (map (fun i : item => tags_iter i.(tags)) items).

(** The tags of the items as the store gives them: the list of each
    item that has one, item after item. *)
Definition given_tags (items : list item) : list string :=
  List.concat (map (fun i : item =>
                      match i.(tags) with
                      | PyList l => l
                      | _ => []
                      end) items).

(** An item as the store reads it: its tags are a list, or none, or
    the empty text that was stored as such. *)
Definition as_read (i : item) : Prop :=
  match i.(tags) with
  | PyStr s => s = ""
  | _ => True
  end.

(** Three items: two with tags, one without. *)
Definition tagged (t : pyval) : item :=
  {| id := 1; title := "Title"; content := "Content";
     source_type := "text"; source_url := None; tags := t;
     summary := None; ai_analysis := None; created_at := 100;
     updated_at := 100; is_active := true |}.

Definition sample_items : list item :=
  [ tagged (PyList ["Web"; "AI"]); tagged PyNone; tagged (PyList ["AI"]) ].

(** Largest count first. *)
Definition by_count_desc (x y : string * nat) : Prop :=
  (snd y <= snd x)%nat.

(** The keys of a dictionary are distinct and no count is zero. *)
Definition counts (d : counter) : Prop :=
  NoDup (map fst d) /\ forall k n, In (k, n) d -> (0 < n)%nat.

End StatsTerms.

Module RouteTerms.

(** An [HTTPException] with one of these status codes. *)
Definition http_error (codes : list Z) (e : exn) : Prop :=
  exists code detail, e = HTTPException code detail /\ In code codes.

(** An exception of the store or of the decoding: no [HTTPException]. *)
Definition store_error (e : exn) : Prop :=
  match e with
  | HTTPException _ _ => False
  | _ => True
  end.

End RouteTerms.

(* ================================================================== *)
(** * Facts about the string operations *)
(* ================================================================== *)

Module PyFacts.
Import Py TextTerms.

Lemma prefix_iff (n h : string) :
  String.prefix n h = true <-> exists b, h = n ++ b.
Proof.
  revert h; induction n as [|c n IH]; intros h.
  - destruct h; simpl; split; intros; eauto.
  - destruct h as [|d h]; simpl.
    + split; [discriminate | intros [b Hb]; discriminate].
    + destruct (ascii_dec c d) as [->|Hcd].
      * rewrite IH. split; intros [b Hb]; exists b; congruence.
      * split; [discriminate | intros [b Hb]; congruence].
Qed.

(** [needle in hay] holds exactly when [hay] is some text, then
    [needle], then some text. *)
Lemma contains_iff (n h : string) :
  contains n h = true <-> exists a b, h = a ++ n ++ b.
Proof.
  induction h as [|d h IH].
  - change (contains n "") with (String.prefix n "" || false).
    rewrite orb_false_r, prefix_iff. split.
    + intros [b Hb]. exists EmptyString, b. exact Hb.
    + intros [a [b Hb]]. destruct a; simpl in Hb; [eauto | discriminate].
  - change (contains n (String d h))
      with (String.prefix n (String d h) || contains n h).
    rewrite orb_true_iff, prefix_iff, IH. split.
    + intros [[b Hb] | [a [b Hb]]].
      * exists EmptyString, b. exact Hb.
      * exists (String d a), b. simpl. congruence.
    + intros [a [b Hb]]. destruct a as [|e a]; simpl in Hb.
      * left; eauto.
      * right. exists a, b. congruence.
Qed.

Lemma lower_char_idempotent (c : ascii) :
  lower_char (lower_char c) = lower_char c.
Proof.
  destruct c as [[] [] [] [] [] [] [] []]; vm_compute; reflexivity.
Qed.

Lemma lower_idempotent (s : string) : lower (lower s) = lower s.
Proof.
  induction s as [|c s IH]; simpl; [reflexivity|].
  now rewrite lower_char_idempotent, IH.
Qed.

Lemma no_space_snoc (s : string) (c : ascii) :
  no_space s = true -> isspace c = false ->
  no_space (s ++ String c EmptyString) = true.
Proof.
  induction s as [|d s IH]; simpl; intros Hs Hc.
  - now rewrite Hc.
  - apply andb_true_iff in Hs as [Hd Hs]. rewrite Hd. simpl. auto.
Qed.

Lemma truthy_snoc (s : string) (c : ascii) :
  truthy (s ++ String c EmptyString) = true.
Proof. destruct s; reflexivity. Qed.

Lemma split_from_words (s cur : string) :
  no_space cur = true ->
  Forall (fun w => truthy w = true /\ no_space w = true) (split_from cur s).
Proof.
  revert cur; induction s as [|c s IH]; intros cur Hcur; simpl.
  - destruct (truthy cur) eqn:E; auto.
  - destruct (isspace c) eqn:Hc.
    + destruct (truthy cur) eqn:E; [constructor; auto|]; now apply IH.
    + apply IH. now apply no_space_snoc.
Qed.

(** The words of [s.split()] are not empty and hold no white space. *)
Lemma split_words (s : string) :
  Forall (fun w => truthy w = true /\ no_space w = true) (split s).
Proof. now apply split_from_words. Qed.

(** A text without white space is its own single word. *)
Lemma split_from_no_space (s cur : string) :
  no_space s = true ->
  split_from cur s = if truthy (cur ++ s) then [cur ++ s] else [].
Proof.
  revert cur; induction s as [|c s IH]; intros cur Hs; simpl.
  - replace (cur ++ "") with cur by (induction cur; simpl; congruence).
    reflexivity.
  - simpl in Hs. apply andb_true_iff in Hs as [Hc Hs].
    apply negb_true_iff in Hc. rewrite Hc, IH by assumption.
    replace ((cur ++ String c "") ++ s) with (cur ++ String c s);
      [reflexivity|].
    clear. induction cur; simpl; congruence.
Qed.

Lemma append_assoc (a b c : string) : (a ++ b) ++ c = a ++ b ++ c.
Proof. induction a; simpl; congruence. Qed.

Lemma length_append (a b : string) :
  String.length (a ++ b) = (String.length a + String.length b)%nat.
Proof. induction a; simpl; congruence. Qed.

Lemma append_nil_r (a : string) : a ++ "" = a.
Proof. induction a; simpl; congruence. Qed.

Lemma truthy_true (s : string) : truthy s = true <-> s <> "".
Proof. destruct s; simpl; split; congruence. Qed.

Lemma truthy_false (s : string) : truthy s = false <-> s = "".
Proof. destruct s; simpl; split; congruence. Qed.

End PyFacts.

(* ================================================================== *)
(** * The processing orchestrator *)
(* ================================================================== *)

Module ProcessingSpec.
Import Py PyFacts Processing ProcessingTerms.

Section Orchestrator.

Variable str_exn : exn -> string.
Variable urlparse : string -> string * string.
Variable requests_get : string -> result string.

Local Abbreviation process := (process_content str_exn urlparse requests_get).
Local Abbreviation extract := (extract_text_from_url str_exn urlparse requests_get).
Local Abbreviation extracted := (extracted str_exn urlparse requests_get).

Lemma process_rejects (req : ProcessingRequest) :
  (req.(source_type) =? "url")%string && truthy req.(url) = false ->
  (req.(source_type) =? "text")%string && truthy req.(text) = false ->
  process req = ([], Raise NoContent).
Proof.
  intros Hu Ht. unfold process_content, process_body.
  rewrite Hu, Ht. reflexivity.
Qed.

Lemma process_payload_empty (req : ProcessingRequest) :
  payload_empty req -> process req = ([], Raise NoContent).
Proof.
  unfold payload_empty, payload_of. intros H.
  apply process_rejects.
  - destruct (req.(source_type) =? "url")%string eqn:Eu; [|reflexivity].
    apply String.eqb_eq in Eu. rewrite Eu in H. simpl in H.
    destruct H as [H|H]; [discriminate|]. injection H as ->. reflexivity.
  - destruct (req.(source_type) =? "text")%string eqn:Et; [|reflexivity].
    destruct H as [H|H]; [discriminate|]. injection H as ->. reflexivity.
Qed.

(** After extraction: the length validation, then the analysis. *)
Lemma process_extracted (req : ProcessingRequest) (t : list event)
    (txt : string) :
  extracted req t txt ->
  process req =
    if (String.length (strip txt) <? 10)%nat
    then (t, Raise ContentTooShort)
    else ((t ++ [Sleep])%list, Return (success_of txt)).
Proof.
  intros [(Hs & Hne & -> & ->) | (Hs & Hne & He)];
    unfold process_content, process_body; rewrite Hs; simpl.
  - apply truthy_true in Hne. rewrite Hne. simpl.
    destruct (String.length (strip (text req)) <? 10)%nat; reflexivity.
  - apply truthy_true in Hne. rewrite Hne, He. simpl.
    destruct (String.length (strip txt) <? 10)%nat; simpl;
      [rewrite app_nil_r|]; reflexivity.
Qed.

Lemma process_too_short (req : ProcessingRequest) (t : list event)
    (txt : string) :
  extracted req t txt ->
  (String.length (strip txt) < 10)%nat ->
  process req = (t, Raise ContentTooShort).
Proof.
  intros He Hl. rewrite (process_extracted He).
  apply Nat.ltb_lt in Hl. now rewrite Hl.
Qed.

(** Extraction raises nothing but an HTTP 400. *)
Lemma extract_raises (u : string) (t : list event) (e : exn) :
  extract u = (t, Raise e) ->
  exists msg,
    e = HTTPException 400 ("Failed to extract content from URL: " ++ msg).
Proof.
  unfold extract_text_from_url.
  destruct (negb (truthy (fst (urlparse u)))
            || negb (truthy (snd (urlparse u)))); simpl.
  - intros H. injection H as _ <-. eauto.
  - destruct (requests_get u); simpl; intros H; [discriminate|].
    injection H as _ <-. eauto.
Qed.

(** The second handler of [process_content], on what is not an
    [HTTPException]. *)
Lemma handlers_envelope (t : list event) (e : exn) :
  (forall c d, e <> HTTPException c d) ->
  process_handlers str_exn (t, Raise e) =
    (t, Return {| summary := ""; tags := []; analysis := "";
                  status := "error"; error := str str_exn e |}).
Proof.
  intros H. destruct e; try reflexivity. now elim (H status_code detail).
Qed.

End Orchestrator.

Section Claims.

Variable str_exn : exn -> string.
Variable urlparse : string -> string * string.
Variable requests_get : string -> result string.

Local Abbreviation process := (process_content str_exn urlparse requests_get).
Local Abbreviation extract := (extract_text_from_url str_exn urlparse requests_get).
Local Abbreviation extracted := (extracted str_exn urlparse requests_get).

Lemma process_extract_fails (req : ProcessingRequest) (t : list event)
    (e : exn) :
  req.(source_type) = "url" -> req.(url) <> "" ->
  extract req.(url) = (t, Raise e) ->
  process req = (t, Raise e).
Proof.
  intros Hs Hne He. destruct (extract_raises _ _ _ _ He) as [msg ->].
  unfold process_content, process_body. rewrite Hs. simpl.
  apply truthy_true in Hne. rewrite Hne, He. reflexivity.
Qed.

(** Whatever [process_content] returns is a success: in this pipeline
    nothing but an [HTTPException] is raised inside the [try]. *)
Lemma process_returns_success (req : ProcessingRequest) (t : list event)
    (r : ProcessingResponse) :
  process req = (t, Return r) -> r.(status) = "success".
Proof.
  unfold process_content, process_body.
  destruct ((req.(source_type) =? "url")%string && truthy req.(url)).
  - destruct (extract req.(url)) as [t0 [txt|e]] eqn:He; simpl.
    + destruct (String.length (strip txt) <? 10)%nat; simpl;
        intros H; [discriminate|]. now injection H as _ <-.
    + destruct (extract_raises _ _ _ _ He) as [msg ->]. discriminate.
  - destruct ((req.(source_type) =? "text")%string && truthy req.(text));
      simpl; [|discriminate].
    destruct (String.length (strip (text req)) <? 10)%nat; simpl;
      intros H; [discriminate|]. now injection H as _ <-.
Qed.

(** C1, as the code has it: a request that fails a content validation
    (payload missing or empty, or extracted text shorter than 10
    characters once trimmed) makes [process_content] raise an HTTP 400
    whose detail names the failure; no envelope is returned.  The
    envelope with [status = "error"] is what the second handler answers
    for an exception that is not an [HTTPException]. *)
Theorem C1_validation_failures_raise_http_400 (req : ProcessingRequest) :
  (payload_empty req -> process req = ([], Raise NoContent))
  /\ (forall t txt,
        extracted req t txt -> (String.length (strip txt) < 10)%nat ->
        process req = (t, Raise ContentTooShort))
  /\ (forall t e,
        (forall c d, e <> HTTPException c d) ->
        process_handlers str_exn (t, Raise e) =
          (t, Return {| summary := ""; tags := []; analysis := "";
                        status := "error"; error := str str_exn e |})).
Proof.
  split; [|split].
  - apply process_payload_empty.
  - intros t txt. apply process_too_short.
  - apply handlers_envelope.
Qed.

(** C2: with a source type of "text" or "url", an empty payload fails
    with NoContent whatever else the request holds; a payload that is
    not empty never does, and once its text is extracted and, trimmed,
    is shorter than 10 characters, the request fails with
    ContentTooShort.  The text "hi" fails with ContentTooShort. *)
Theorem C2_validation_order (req : ProcessingRequest) :
  req.(source_type) = "text" \/ req.(source_type) = "url" ->
  (payload_of req = Some "" -> process req = ([], Raise NoContent))
  /\ (forall c s,
        payload_of req = Some (String c s) ->
        snd (process req) <> Raise NoContent)
  /\ (forall t txt,
        extracted req t txt -> (String.length (strip txt) < 10)%nat ->
        process req = (t, Raise ContentTooShort))
  /\ process hi_request = ([], Raise ContentTooShort).
Proof.
  intros Hty. split; [|split; [|split]].
  - intros H. apply process_payload_empty. now right.
  - intros c s Hp. unfold payload_of in Hp.
    destruct (req.(source_type) =? "text")%string eqn:Et.
    + apply String.eqb_eq in Et. injection Hp as Hp.
      assert (He : extracted req [] req.(text)).
      { left. rewrite Hp. repeat split; auto. discriminate. }
      rewrite (process_extracted He).
      destruct (String.length (strip (text req)) <? 10)%nat; discriminate.
    + destruct Hty as [Hty|Hty]; [rewrite Hty in Et; discriminate|].
      rewrite Hty in Hp. simpl in Hp. injection Hp as Hp.
      assert (Hne : req.(url) <> "") by (rewrite Hp; discriminate).
      destruct (extract req.(url)) as [t [txt|e]] eqn:He.
      * assert (Hx : extracted req t txt) by (right; auto).
        rewrite (process_extracted Hx).
        destruct (String.length (strip txt) <? 10)%nat; discriminate.
      * rewrite (process_extract_fails _ Hty Hne He).
        destruct (extract_raises _ _ _ _ He) as [msg ->]. discriminate.
  - intros t txt. apply process_too_short.
  - reflexivity.
Qed.

(** C10: a request whose source type is neither "text" nor "url" fails
    with NoContent, with no event performed (no extraction, no
    analysis), whatever its text and url hold; "file", which the store
    accepts as a source type, is such a type. *)
Theorem C10_other_source_types_have_no_content :
  (forall req,
      req.(source_type) <> "text" -> req.(source_type) <> "url" ->
      process req = ([], Raise NoContent))
  /\ Database.check_source_type "file" = true
  /\ (forall text url,
        process {| text := text; url := url; source_type := "file" |}
        = ([], Raise NoContent)).
Proof.
  assert (H : forall req,
             req.(source_type) <> "text" -> req.(source_type) <> "url" ->
             process req = ([], Raise NoContent)).
  { intros req Ht Hu. apply process_rejects.
    - apply String.eqb_neq in Hu. now rewrite Hu.
    - apply String.eqb_neq in Ht. now rewrite Ht. }
  split; [exact H|]. split; [reflexivity|].
  intros text url. apply H; simpl; discriminate.
Qed.

End Claims.

(** C1, as the claim has it, fails: the request with an empty text
    fails the first validation and no envelope is returned. *)
Lemma C1_counterexample :
  payload_empty empty_text_request
  /\ ~ (exists t r,
          process_content sample_str sample_urlparse sample_get
            empty_text_request = (t, Return r)
          /\ r.(status) = "error").
Proof.
  split; [right; reflexivity|].
  intros (t & r & H & _). vm_compute in H. discriminate.
Qed.

(** C1 on the empty text, on "hi" and on an exception that is not an
    [HTTPException]. *)
Lemma C1_witness :
  process_content sample_str sample_urlparse sample_get empty_text_request
  = ([], Raise NoContent)
  /\ process_content sample_str sample_urlparse sample_get hi_request
     = ([], Raise ContentTooShort)
  /\ process_handlers sample_str ([], Raise (ValueError "boom"))
     = ([], Return {| summary := ""; tags := []; analysis := "";
                      status := "error"; error := "boom" |}).
Proof.
  split; [|split].
  - apply (proj1 (C1_validation_failures_raise_http_400
                    sample_str sample_urlparse sample_get
                    empty_text_request)).
    right; reflexivity.
  - apply (proj1 (proj2 (C1_validation_failures_raise_http_400
                           sample_str sample_urlparse sample_get
                           hi_request))) with (txt := "hi").
    + left. repeat split. discriminate.
    + simpl. lia.
  - apply (proj2 (proj2 (C1_validation_failures_raise_http_400
                           sample_str sample_urlparse sample_get
                           empty_text_request))).
    intros c d; discriminate.
Defined.

(** C2 on an empty text and on a page whose text is short. *)
Lemma C2_witness :
  process_content sample_str sample_urlparse sample_get empty_text_request
  = ([], Raise NoContent)
  /\ process_content sample_str sample_urlparse sample_get
       {| text := ""; url := "http://example.org"; source_type := "url" |}
     = ([HttpGet "http://example.org"], Raise ContentTooShort).
Proof.
  split.
  - apply (proj1 (C2_validation_order sample_str sample_urlparse sample_get
                    empty_text_request (or_introl eq_refl))).
    reflexivity.
  - apply (proj1 (proj2 (proj2
             (C2_validation_order sample_str sample_urlparse sample_get
                {| text := ""; url := "http://example.org";
                   source_type := "url" |} (or_intror eq_refl)))))
      with (txt := "short").
    + right. repeat split. discriminate.
    + simpl. lia.
Defined.

(** C10 on a request of type "file" with both payloads filled in. *)
Lemma C10_witness :
  process_content sample_str sample_urlparse sample_get file_request
  = ([], Raise NoContent).
Proof.
  apply (proj1 (C10_other_source_types_have_no_content
                  sample_str sample_urlparse sample_get));
    simpl; discriminate.
Defined.

End ProcessingSpec.

(* ================================================================== *)
(** * Words and numerals *)
(* ================================================================== *)

Module WordFacts.
Import Py TextTerms WordTerms PyFacts.

(** Reading on through a run without white space. *)
Lemma split_from_word (w cur rest : string) :
  no_space w = true ->
  split_from cur (w ++ rest) = split_from (cur ++ w) rest.
Proof.
  revert cur; induction w as [|c w IH]; intros cur Hw.
  - now rewrite append_nil_r.
  - cbn [no_space] in Hw. apply andb_true_iff in Hw as [Hc Hw].
    apply negb_true_iff in Hc. cbn [append split_from]. rewrite Hc.
    rewrite IH by assumption. f_equal.
    rewrite append_assoc. reflexivity.
Qed.

(** A gap ends the word being read, if there is one. *)
Lemma split_from_gap (gap cur rest : string) :
  all_space gap = true ->
  split_from cur (gap ++ rest) =
    if truthy cur && truthy gap then cur :: split_from "" rest
    else split_from cur rest.
Proof.
  intros Hg. destruct gap as [|c gap]; cbn [append].
  - now rewrite andb_false_r.
  - cbn [all_space] in Hg. apply andb_true_iff in Hg as [Hc Hg].
    cbn [split_from truthy]. rewrite Hc, andb_true_r.
    assert (E : split_from "" (gap ++ rest) = split_from "" rest).
    { clear Hc. induction gap as [|d gap IH]; [reflexivity|].
      cbn [all_space] in Hg. apply andb_true_iff in Hg as [Hd Hg].
      cbn [append split_from truthy]. rewrite Hd. now apply IH. }
    rewrite E. destruct cur; reflexivity.
Qed.

Lemma split_pieces (pieces : list (string * string)) :
  well_spaced pieces ->
  split_from "" (fold_right (fun p rest => fst p ++ snd p ++ rest) "" pieces)
  = map fst pieces.
Proof.
  induction pieces as [|[w gap] pieces IH]; [reflexivity|].
  intros (Hw & Hn & Hg & Hlast & Hrest). cbn [fold_right fst snd map].
  rewrite (split_from_word w "" _ Hn). cbn [append].
  rewrite (split_from_gap gap w _ Hg).
  apply truthy_true in Hw. rewrite Hw. cbn [andb].
  destruct gap as [|c gap]; cbn [truthy].
  - destruct pieces as [|p pieces]; [|now elim Hlast].
    cbn [fold_right split_from map]. now rewrite Hw.
  - now rewrite (IH Hrest).
Qed.

(** The words of a text that is written out as words and gaps. *)
Lemma split_layout (lead : string) (pieces : list (string * string)) :
  all_space lead = true -> well_spaced pieces ->
  split (layout lead pieces) = map fst pieces.
Proof.
  intros Hl Hp. unfold split, layout.
  rewrite (split_from_gap lead "" _ Hl). cbn [truthy andb].
  now apply split_pieces.
Qed.

(** Every text can be written out so. *)
Lemma layout_exists (s : string) :
  exists lead pieces,
    s = layout lead pieces /\ all_space lead = true /\ well_spaced pieces.
Proof.
  induction s as [|c s (lead & pieces & -> & Hl & Hp)].
  - exists "", []. repeat split.
  - destruct (isspace c) eqn:Hc.
    + exists (String c lead), pieces. cbn [all_space]. rewrite Hc.
      repeat split; assumption.
    + destruct lead as [|d lead].
      * destruct pieces as [|[w gap] pieces].
        -- exists "", [(String c "", "")]. cbn [well_spaced no_space].
           rewrite Hc. repeat split; try discriminate. intros H; now elim H.
        -- exists "", ((String c w, gap) :: pieces).
           destruct Hp as (Hw & Hn & Hg & Hlast & Hrest).
           cbn [well_spaced no_space]. rewrite Hc.
           repeat split; try assumption; discriminate.
      * exists "", ((String c "", String d lead) :: pieces).
        cbn [well_spaced no_space]. rewrite Hc.
        repeat split; try assumption; discriminate.
Qed.

(** ** Numerals *)

Lemma read_digits_uint (d : Decimal.uint) (acc : nat) :
  read_digits acc (NilEmpty.string_of_uint d) = Some (Nat.of_uint_acc d acc).
Proof.
  revert acc. induction d; intros acc;
    cbn [NilEmpty.string_of_uint Nat.of_uint_acc];
    [reflexivity|..];
    cbn [read_digits];
    match goal with
    | |- context [digit_value ?c] =>
        let v := eval vm_compute in (digit_value c) in
        change (digit_value c) with v
    end;
    cbv iota; rewrite IHd; do 2 f_equal;
    rewrite Nat.tail_mul_spec; lia.
Qed.

Lemma nzhead_head (d : Decimal.uint) :
  match Decimal.nzhead d with
  | Decimal.D0 _ => False
  | _ => True
  end.
Proof. induction d; cbn [Decimal.nzhead]; auto. Qed.

(** [str(n)] is the decimal numeral of [n]. *)
Lemma str_of_nat_decimal (n : nat) : decimal n (str_of_nat n).
Proof.
  unfold decimal, str_of_nat.
  assert (Hn : Nat.to_uint n = Decimal.unorm (Nat.to_uint n)).
  { rewrite <- (DecimalNat.Unsigned.of_to n) at 1.
    apply DecimalNat.Unsigned.to_of. }
  assert (Hv : Nat.of_uint (Nat.to_uint n) = n)
    by apply DecimalNat.Unsigned.of_to.
  revert Hn Hv. generalize (Nat.to_uint n). intros d Hn Hv.
  assert (Hr : read_digits 0 (NilEmpty.string_of_uint d) = Some n).
  { rewrite read_digits_uint. now f_equal. }
  pose proof (nzhead_head d) as Hh. unfold Decimal.unorm in Hn.
  destruct (Decimal.nzhead d) eqn:E; try destruct Hh; subst d;
    cbn [NilZero.string_of_uint NilEmpty.string_of_uint] in *;
    (split; [discriminate|]); (split; [exact Hr|]);
    try (left; reflexivity);
    right; eexists _, _; (split; [reflexivity | discriminate]).
Qed.

End WordFacts.

(* ================================================================== *)
(** * The analysis engine *)
(* ================================================================== *)

Module AnalysisSpec.
Import Py TextTerms PyFacts Processing AnalysisTerms.
Import WordTerms WordFacts.

(** The analysis always answers, after its pause. *)
Lemma mock_ai_processing_returns (text : string) :
  mock_ai_processing text = ([Sleep], Return (analyze text)).
Proof. reflexivity. Qed.

Lemma mock_tags_buckets (text : string) : mock_tags text = bucket_tags text.
Proof.
  unfold mock_tags, bucket_tags, buckets, bucket_matches.
  cbn [filter snd].
  destruct (any_in ["ai"; "artificial intelligence"; "machine learning"; "ml"]
              (lower text));
  destruct (any_in ["python"; "javascript"; "programming"; "code";
                    "development"] (lower text));
  destruct (any_in ["database"; "sql"; "data"] (lower text));
  destruct (any_in ["web"; "http"; "api"; "rest"] (lower text));
  destruct (any_in ["research"; "study"; "analysis"] (lower text));
  reflexivity.
Qed.

Lemma any_in_iff (words : list string) (text : string) :
  any_in words text = true <->
  exists w a b, In w words /\ text = a ++ w ++ b.
Proof.
  unfold any_in. rewrite existsb_exists. split.
  - intros (w & Hw & Hc). apply contains_iff in Hc as (a & b & Hab). eauto.
  - intros (w & a & b & Hw & Hab). exists w. split; [assumption|].
    apply contains_iff. eauto.
Qed.

(** Five tests, so thirty-two outcomes, each a list of distinct tags. *)
Ltac distinct_strings :=
  repeat (constructor; [simpl; intuition discriminate|]); constructor.

Lemma bucket_tags_NoDup (text : string) : NoDup (bucket_tags text).
Proof.
  unfold bucket_tags, fallback_tags, buckets, bucket_matches.
  cbn [filter snd].
  destruct (any_in ["ai"; "artificial intelligence"; "machine learning"; "ml"]
              (lower text));
  destruct (any_in ["python"; "javascript"; "programming"; "code";
                    "development"] (lower text));
  destruct (any_in ["database"; "sql"; "data"] (lower text));
  destruct (any_in ["web"; "http"; "api"; "rest"] (lower text));
  destruct (any_in ["research"; "study"; "analysis"] (lower text));
  cbn [map fst]; distinct_strings.
Qed.

(** A bucket's tag is among the tags exactly when the bucket matches. *)
Lemma bucket_tags_In (text : string) (b : string * list string) :
  In b buckets ->
  (In (fst b) (bucket_tags text) <-> bucket_matches text b = true).
Proof.
  intros Hb. unfold bucket_tags.
  destruct (filter (bucket_matches text) buckets) as [|h hs] eqn:E.
  - split.
    + unfold fallback_tags. simpl in Hb |- *.
      intros [H|[H|[]]]; exfalso;
        repeat (destruct Hb as [<-|Hb]; [discriminate H|]); exact Hb.
    + intros Hm. assert (Hin : In b (filter (bucket_matches text) buckets))
        by (apply filter_In; auto).
      rewrite E in Hin. destruct Hin.
  - rewrite <- E. rewrite in_map_iff. split.
    + intros (x & Hx & Hi). apply filter_In in Hi as [Hi Hm].
      assert (x = b); [|now subst].
      clear - Hx Hi Hb. simpl in Hi, Hb.
      repeat (destruct Hi as [<-|Hi];
              [repeat (destruct Hb as [<-|Hb];
                       [reflexivity || discriminate Hx|]); destruct Hb|]).
      destruct Hi.
    + intros Hm. exists b. split; [reflexivity|]. apply filter_In; auto.
Qed.

(** C3: the tags are those of the five buckets AI, Development,
    Database, Web, Research that match, in that order, a bucket matching
    when one of its keywords occurs in the lowered text; no tag occurs
    twice; when no bucket matches the tags are General, Knowledge and
    nothing else; the letter case of the text does not matter; and the
    project sentence gets Development, Database, Web. *)
Theorem C3_tags_by_bucket (text : string) :
  mock_ai_processing text = ([Sleep], Return (analyze text))
  /\ map fst buckets = ["AI"; "Development"; "Database"; "Web"; "Research"]
  /\ (analyze text).(AiResult.tags) =
       match filter (bucket_matches text) buckets with
       | [] => ["General"; "Knowledge"]
       | hits => map fst hits
       end
  /\ NoDup (analyze text).(AiResult.tags)
  /\ Forall (fun b =>
               In (fst b) (analyze text).(AiResult.tags) <->
               exists w a c, In w (snd b) /\ lower text = a ++ w ++ c)
            buckets
  /\ (analyze (lower text)).(AiResult.tags) = (analyze text).(AiResult.tags)
  /\ (forall text',
        lower text' = lower text ->
        (analyze text').(AiResult.tags) = (analyze text).(AiResult.tags))
  /\ (analyze project_text).(AiResult.tags)
     = ["Development"; "Database"; "Web"].
Proof.
  split; [apply mock_ai_processing_returns|]. simpl.
  split; [reflexivity|]. rewrite !mock_tags_buckets.
  split; [reflexivity|]. split; [apply bucket_tags_NoDup|].
  split; [|split; [|split]].
  - apply Forall_forall. intros b Hb.
    rewrite (bucket_tags_In text Hb). apply any_in_iff.
  - unfold bucket_tags, bucket_matches.
    now rewrite lower_idempotent.
  - intros text' H. rewrite mock_tags_buckets.
    unfold bucket_tags, bucket_matches. now rewrite H.
  - vm_compute. reflexivity.
Qed.

(** C3 at two spellings of one text. *)
Lemma C3_witness :
  (analyze "PYTHON and SQL").(AiResult.tags)
  = (analyze "python AND sql").(AiResult.tags).
Proof.
  apply (proj1 (proj2 (proj2 (proj2 (proj2 (proj2 (proj2
           (C3_tags_by_bucket "python AND sql")))))))).
  vm_compute. reflexivity.
Defined.

Lemma firstn_eq_iff {A} (k : nat) (l : list A) :
  firstn k l = l <-> (List.length l <= k)%nat.
Proof.
  split.
  - intros H. apply (f_equal (@List.length A)) in H.
    rewrite length_firstn in H. lia.
  - apply firstn_all2.
Qed.

Lemma mock_summary_kept (text : string) :
  mock_summary text =
    join " " (kept_words text)
    ++ (if list_eq_dec string_dec (kept_words text) (split text)
        then "" else "...").
Proof.
  unfold mock_summary, kept_words.
  set (words := split text).
  set (k := Nat.min 50 (List.length words / 3)).
  destruct (list_eq_dec string_dec (firstn k words) words) as [E|E].
  - apply firstn_eq_iff in E. apply Nat.ltb_ge in E. rewrite E.
    now rewrite append_nil_r.
  - destruct (k <? List.length words)%nat eqn:Hk; [reflexivity|].
    apply Nat.ltb_ge in Hk. elim E. now apply firstn_eq_iff.
Qed.

(** Some word is dropped as soon as there is a word. *)
Lemma kept_words_all (text : string) :
  kept_words text = split text <-> split text = [].
Proof.
  unfold kept_words. rewrite firstn_eq_iff.
  destruct (split text) as [|w ws]; simpl List.length.
  - split; [reflexivity | lia].
  - split; [|discriminate]. intros H. exfalso.
    assert (S (List.length ws) / 3 < S (List.length ws))%nat
      by (apply Nat.div_lt; lia).
    lia.
Qed.

(** C4: every text is some white space and then words, each followed
    by a gap of white space; however it is written out so, the summary
    is the first min(50, wordCount / 3) of these words joined by single
    spaces, followed by "..." exactly when some word was dropped; under
    3 words that is the empty summary (no word at all) or the bare
    "...".  On nine words set apart by spaces, a tab and a line feed it
    is the first three. *)
Theorem C4_summary (text : string) :
  mock_ai_processing text = ([Sleep], Return (analyze text))
  /\ (exists lead pieces,
        text = layout lead pieces
        /\ all_space lead = true /\ well_spaced pieces)
  /\ (forall lead pieces,
        text = layout lead pieces ->
        all_space lead = true -> well_spaced pieces ->
        let words := map fst pieces in
        let k := Nat.min 50 (List.length words / 3) in
        split text = words
        /\ (analyze text).(AiResult.summary) =
             join " " (firstn k words)
             ++ (if (k <? List.length words)%nat then "..." else "")
        /\ ((k < List.length words)%nat <-> firstn k words <> words)
        /\ ((List.length words < 3)%nat ->
            (analyze text).(AiResult.summary) =
              match words with
              | [] => ""
              | _ => "..."
              end))
  /\ (analyze fox_text).(AiResult.summary) = "The quick brown..."
  /\ (analyze "hello world").(AiResult.summary) = "..."
  /\ (analyze "   ").(AiResult.summary) = "".
Proof.
  split; [apply mock_ai_processing_returns|].
  split; [apply layout_exists|].
  split; [|repeat split; reflexivity].
  intros lead pieces -> Hl Hp. cbv zeta.
  pose proof (split_layout lead pieces Hl Hp) as Hs.
  split; [exact Hs|]. cbn [AiResult.summary analyze].
  unfold mock_summary. rewrite Hs.
  set (words := map fst pieces).
  set (k := Nat.min 50 (List.length words / 3)).
  split; [|split].
  - destruct (k <? List.length words)%nat; [reflexivity|].
    now rewrite append_nil_r.
  - rewrite firstn_eq_iff. lia.
  - intros Hlt.
    assert (Hk : k = O)
      by (unfold k; rewrite Nat.div_small by assumption; reflexivity).
    rewrite Hk. destruct words; reflexivity.
Qed.

(** C4 on the nine words, written out as words and gaps. *)
Lemma C4_witness :
  split fox_text
  = ["The"; "quick"; "brown"; "fox"; "jumps"; "over"; "the"; "lazy"; "dog"]
  /\ (analyze fox_text).(AiResult.summary) = "The quick brown...".
Proof.
  destruct (proj1 (proj2 (proj2 (C4_summary fox_text))) "  "
              [ ("The", " "); ("quick", String "009" "");
                ("brown", "   "); ("fox", String "010" "");
                ("jumps", " "); ("over", " "); ("the", " "); ("lazy", " ");
                ("dog", " ") ] eq_refl eq_refl)
    as (Hs & Hsum & _).
  - cbn [well_spaced]. repeat split; discriminate.
  - split; [exact Hs | exact Hsum].
Defined.

Lemma mock_analysis_narrative (text : string) (tags : list string) :
  mock_analysis text tags =
    narrative tags (List.length (split text)) (topic_clause text).
Proof.
  unfold mock_analysis, narrative, topic_clause, topic_clauses, any_in.
  cbn [find fst snd existsb]. rewrite !orb_false_r.
  destruct (contains "ai" (lower text)
            || contains "artificial intelligence" (lower text));
    [|destruct (contains "development" (lower text)
               || contains "programming" (lower text));
      [|destruct (contains "database" (lower text))]];
    rewrite !append_assoc; reflexivity.
Qed.

Lemma topic_clause_tests (text : string) :
  topic_clause text =
    if contains "ai" (lower text)
       || contains "artificial intelligence" (lower text)
    then "artificial intelligence concepts and applications."
    else if contains "development" (lower text)
            || contains "programming" (lower text)
    then "software development practices and methodologies."
    else if contains "database" (lower text)
    then "database design and management principles."
    else "general knowledge and information.".
Proof.
  unfold topic_clause, topic_clauses, any_in.
  cbn [find fst snd existsb]. rewrite !orb_false_r.
  destruct (contains "ai" (lower text)
            || contains "artificial intelligence" (lower text));
    [reflexivity|].
  destruct (contains "development" (lower text)
            || contains "programming" (lower text)); [reflexivity|].
  destruct (contains "database" (lower text)); reflexivity.
Qed.

Lemma contains_occurs (needle hay : string) :
  contains needle hay = true <-> occurs needle hay.
Proof. apply contains_iff. Qed.

Lemma contains_either (k1 k2 hay : string) :
  contains k1 hay || contains k2 hay = true
  <-> occurs k1 hay \/ occurs k2 hay.
Proof. now rewrite orb_true_iff, !contains_occurs. Qed.

(** C5: the narrative is the template filled with the tags (joined by
    ", " and lowered), the decimal numeral of the number of words and a
    topic clause.  The clause is chosen by the narrative's own tests on
    the lowered text, in this order: "ai" or "artificial intelligence"
    occurs, then "development" or "programming" occurs, then "database"
    occurs, and the generic clause when none does.  These tests are
    narrower than the keywords of the tags, and the clause is not a
    function of the tags: "ml" and "ai" are one word each with the same
    tags and get different clauses. *)
Theorem C5_narrative (text : string) :
  mock_ai_processing text = ([Sleep], Return (analyze text))
  /\ (exists digits clause,
        (analyze text).(AiResult.analysis) =
          "This content appears to be about "
          ++ lower (join ", " (analyze text).(AiResult.tags))
          ++ ". The text contains approximately " ++ digits
          ++ " words and covers " ++ clause
        /\ decimal (List.length (split text)) digits
        /\ (forall lead pieces,
              text = layout lead pieces ->
              all_space lead = true -> well_spaced pieces ->
              decimal (List.length pieces) digits)
        /\ let ai := occurs "ai" (lower text)
                      \/ occurs "artificial intelligence" (lower text) in
           let dev := occurs "development" (lower text)
                       \/ occurs "programming" (lower text) in
           let dbs := occurs "database" (lower text) in
           (ai ->
            clause = "artificial intelligence concepts and applications.")
           /\ (~ ai -> dev ->
               clause = "software development practices and methodologies.")
           /\ (~ ai -> ~ dev -> dbs ->
               clause = "database design and management principles.")
           /\ (~ ai -> ~ dev -> ~ dbs ->
               clause = "general knowledge and information."))
  /\ ((analyze "ml").(AiResult.tags) = ["AI"]
      /\ (analyze "ai").(AiResult.tags) = ["AI"]
      /\ (analyze "ml").(AiResult.analysis) =
           "This content appears to be about ai. The text contains approximately 1 words and covers general knowledge and information."
      /\ (analyze "ai").(AiResult.analysis) =
           "This content appears to be about ai. The text contains approximately 1 words and covers artificial intelligence concepts and applications.")
  /\ (analyze "Twelve words on PROGRAMMING a Database, then on Artificial Intelligence, at last")
       .(AiResult.analysis) =
       "This content appears to be about ai, development, database. The text contains approximately 12 words and covers artificial intelligence concepts and applications.".
Proof.
  split; [apply mock_ai_processing_returns|].
  split; [|split; [repeat split|]; reflexivity].
  exists (str_of_nat (List.length (split text))), (topic_clause text).
  split; [apply mock_analysis_narrative|].
  split; [apply str_of_nat_decimal|]. split.
  - intros lead pieces -> Hl Hp.
    rewrite (split_layout lead pieces Hl Hp), length_map.
    apply str_of_nat_decimal.
  - cbv zeta. rewrite topic_clause_tests.
    rewrite <- !contains_either, <- contains_occurs.
    destruct (contains "ai" (lower text)
              || contains "artificial intelligence" (lower text));
      destruct (contains "development" (lower text)
                || contains "programming" (lower text));
      destruct (contains "database" (lower text));
      repeat split; intros; try reflexivity;
      try discriminate; exfalso; auto.
Qed.

(** C5 on a note about AI: the first test passes. *)
Lemma C5_witness :
  exists digits,
    (analyze "Notes on AI").(AiResult.analysis) =
      "This content appears to be about ai. The text contains approximately "
      ++ digits
      ++ " words and covers artificial intelligence concepts and applications."
    /\ decimal 3 digits.
Proof.
  destruct (proj1 (proj2 (C5_narrative "Notes on AI")))
    as (digits & clause & Ha & Hd & _ & Hai & _).
  exists digits. split; [|exact Hd].
  rewrite Ha, Hai; [reflexivity|].
  left. exists "notes on ", "". reflexivity.
Defined.

(** C5, as the claim has it, fails: "machine learning" is a keyword of
    the tag AI and the text gets that tag, and yet the narrative ends
    with the generic clause, not with the one on artificial
    intelligence. *)
Lemma C5_counterexample :
  (exists kws, In ("AI", kws) buckets /\ In "machine learning" kws)
  /\ occurs "machine learning" (lower "Machine Learning basics")
  /\ In "AI" (analyze "Machine Learning basics").(AiResult.tags)
  /\ (analyze "Machine Learning basics").(AiResult.analysis) =
       "This content appears to be about ai. The text contains approximately 3 words and covers general knowledge and information."
  /\ (analyze "Machine Learning basics").(AiResult.analysis) <>
       "This content appears to be about ai. The text contains approximately 3 words and covers artificial intelligence concepts and applications.".
Proof.
  split; [eexists; split; [left; reflexivity | cbn; auto]|].
  split; [exists "", " basics"; reflexivity|].
  split; [vm_compute; auto|]. split; [reflexivity|].
  vm_compute. discriminate.
Qed.

End AnalysisSpec.

(* ================================================================== *)
(** * Reading back what [json.dumps] wrote *)
(* ================================================================== *)

Module JsonFacts.
Import Py PyFacts Json JsonTerms.

(** One escaped character reads back as the character. *)
Lemma scan_escape_char (c : ascii) (tail : string) :
  scan_string (escape_char c ++ tail) = cons_fst c (scan_string tail).
Proof.
  destruct c as [[] [] [] [] [] [] [] []]; reflexivity.
Qed.

Lemma scan_escape (s rest : string) :
  scan_string (escape s ++ String dquote rest) = Some (s, rest).
Proof.
  induction s as [|c s IH]; [reflexivity|].
  cbn [escape]. rewrite append_assoc, scan_escape_char, IH. reflexivity.
Qed.

Lemma dumps_cons (x : string) (l : list string) :
  dumps (x :: l) = "[" ++ encode_str x ++ items_tail l.
Proof.
  unfold dumps, join. cbn [append]. f_equal.
  revert x; induction l as [|y l IH]; intros x.
  - reflexivity.
  - change (map encode_str (x :: y :: l))
      with (encode_str x :: map encode_str (y :: l)).
    change (String.concat ", " (encode_str x :: map encode_str (y :: l)))
      with (encode_str x ++ ", " ++ String.concat ", " (map encode_str (y :: l))).
    rewrite !append_assoc. f_equal. cbn [items_tail].
    cbn [append]. do 2 f_equal. rewrite <- IH. reflexivity.
Qed.

(** One turn of the loop: a comma, a space, an element. *)
Lemma scan_items_step (fuel : nat) (x rest : string) :
  scan_items (S fuel) (", " ++ encode_str x ++ rest) =
    match scan_items fuel rest with
    | Some (xs, r) => Some (x :: xs, r)
    | None => None
    end.
Proof.
  unfold encode_str. cbn [append]. rewrite append_assoc. cbn [append].
  transitivity
    (match scan_string (escape x ++ String dquote rest) with
     | Some (y, r2) =>
         match scan_items fuel r2 with
         | Some (ys, r3) => Some (y :: ys, r3)
         | None => None
         end
     | None => None
     end); [reflexivity|].
  now rewrite scan_escape.
Qed.

Lemma scan_items_tail (l : list string) (fuel : nat) (tail : string) :
  (List.length l < fuel)%nat ->
  scan_items fuel (items_tail l ++ tail) = Some (l, tail).
Proof.
  revert fuel; induction l as [|x l IH]; intros fuel Hf;
    destruct fuel as [|fuel]; try (simpl in Hf; lia).
  - reflexivity.
  - cbn [items_tail]. rewrite !append_assoc, scan_items_step.
    rewrite IH by (simpl in Hf; lia). reflexivity.
Qed.

Lemma length_items_tail (l : list string) :
  (List.length l < String.length (items_tail l))%nat.
Proof.
  induction l as [|x l IH]; cbn [items_tail List.length];
    rewrite ?length_append; simpl; lia.
Qed.

Lemma loads_step (x rest : string) :
  loads ("[" ++ encode_str x ++ rest) =
    match scan_items (String.length rest) rest with
    | Some (xs, r) => if at_end r then Some (x :: xs) else None
    | None => None
    end.
Proof.
  unfold encode_str. cbn [append]. rewrite append_assoc. cbn [append].
  transitivity
    (match scan_string (escape x ++ String dquote rest) with
     | Some (y, r2) =>
         match scan_items (String.length r2) r2 with
         | Some (ys, r3) => if at_end r3 then Some (y :: ys) else None
         | None => None
         end
     | None => None
     end); [reflexivity|].
  now rewrite scan_escape.
Qed.

(** [json.loads(json.dumps(l)) == l] *)
Lemma loads_dumps (l : list string) : loads (dumps l) = Some l.
Proof.
  destruct l as [|x l]; [reflexivity|].
  rewrite dumps_cons, loads_step.
  rewrite <- (append_nil_r (items_tail l)) at 2.
  rewrite scan_items_tail by apply length_items_tail. reflexivity.
Qed.

(** The text of a list is a true value. *)
Lemma dumps_truthy (l : list string) : truthy (dumps l) = true.
Proof. reflexivity. Qed.

End JsonFacts.

(* ================================================================== *)
(** * The knowledge store *)
(* ================================================================== *)

Module StoreSpec.
Import Py PyFacts Json JsonFacts Database StoreTerms ListingTerms.

(** ** Partial updates *)

Lemma update_unfold (db : table) (now item_id : Z) (kw : kwargs) :
  update_knowledge_item db now item_id kw =
    update_with db now item_id (set_clauses (serialize_tags kw)).
Proof.
  destruct kw as [|kv kw]; [reflexivity|].
  unfold update_knowledge_item, update_with.
  destruct (set_clauses (serialize_tags (kv :: kw))); reflexivity.
Qed.

Lemma set_clauses_serialize (kw : kwargs) :
  set_clauses (serialize_tags kw) = serialize_tags (set_clauses kw).
Proof.
  unfold set_clauses, serialize_tags.
  induction kw as [|[k v] kw IH]; [reflexivity|]. cbn [map filter fst snd].
  assert (E : is_updatable
                (fst (if (k =? "tags")%string
                      then match v with
                           | PyList l => (k, PyStr (dumps l))
                           | _ => (k, v)
                           end
                      else (k, v))) = is_updatable k).
  { destruct (k =? "tags")%string; [destruct v|]; reflexivity. }
  rewrite E. destruct (is_updatable k); cbn [map fst snd]; now rewrite IH.
Qed.

Lemma set_clauses_idempotent (kw : kwargs) :
  set_clauses (set_clauses kw) = set_clauses kw.
Proof.
  unfold set_clauses. induction kw as [|kv kw IH]; [reflexivity|].
  cbn [filter]. destruct (is_updatable (fst kv)) eqn:E; [|exact IH].
  cbn [filter]. now rewrite E, IH.
Qed.

(** Keys that are not updatable play no part. *)
Lemma update_ignores_unrecognized (db : table) (now item_id : Z)
    (kw : kwargs) :
  update_knowledge_item db now item_id kw =
    update_knowledge_item db now item_id (set_clauses kw).
Proof.
  rewrite !update_unfold, !set_clauses_serialize.
  now rewrite set_clauses_idempotent.
Qed.

Lemma assign_frame (key : string) (v : option string) (r r' : row) :
  assign key v r = Return r' ->
  same_frame r r' /\ r'.(updated_at) = r.(updated_at)
  /\ (forall k, k <> key -> column k r' = column k r).
Proof.
  unfold assign, same_frame.
  destruct (key =? "title")%string eqn:E1;
    [|destruct (key =? "content")%string eqn:E2;
      [|destruct (key =? "source_url")%string eqn:E3;
        [|destruct (key =? "tags")%string eqn:E4;
          [|destruct (key =? "summary")%string eqn:E5;
            [|destruct (key =? "ai_analysis")%string eqn:E6]]]]];
    try (destruct v; [|discriminate]);
    intros H; injection H as <-; (split; [now repeat split|]);
    (split; [reflexivity|]); intros k Hk; try reflexivity;
    match goal with
    | E : (key =? ?c)%string = true |- _ =>
        apply String.eqb_eq in E; subst key;
        apply String.eqb_neq in Hk; unfold column; rewrite ?Hk;
        repeat match goal with
               | |- context [(k =? ?d)%string] =>
                   destruct (k =? d)%string eqn:?
               end; try reflexivity; try discriminate
    end.
Qed.

Lemma assign_all_frame (sets : list (string * option string)) (r r' : row) :
  assign_all sets r = Return r' ->
  same_frame r r' /\ r'.(updated_at) = r.(updated_at)
  /\ (forall k, ~ In k (map fst sets) -> column k r' = column k r).
Proof.
  revert r; induction sets as [|[key v] sets IH]; intros r; cbn [assign_all].
  - intros H; injection H as <-. now repeat split.
  - unfold rbind. destruct (assign key v r) as [r1|e] eqn:E; [|discriminate].
    intros H. apply assign_frame in E as ((A1 & A2 & A3 & A4) & Au & Ac).
    apply IH in H as ((B1 & B2 & B3 & B4) & Bu & Bc).
    split; [repeat split; congruence|]. split; [congruence|].
    intros k Hk. simpl in Hk. rewrite Bc, Ac; auto.
Qed.

(** What an [UPDATE] statement that succeeds does, row by row. *)
Lemma sql_update_rows (where_ : row -> bool) (set_ : row -> result row)
    (db db' : table) (n : nat) :
  sql_update where_ set_ db = Return (db', n) ->
  Forall2 (fun r r' => if where_ r then set_ r = Return r' else r' = r)
          db db'
  /\ n = List.length (filter where_ db).
Proof.
  revert db' n; induction db as [|r db IH]; intros db' n; cbn [sql_update].
  - intros H; injection H as <- <-. split; [constructor | reflexivity].
  - cbn [filter]. destruct (where_ r) eqn:Hw; unfold rbind.
    + destruct (set_ r) as [r1|e] eqn:Hs; [|discriminate].
      destruct (sql_update where_ set_ db) as [[db1 n1]|e]; [|discriminate].
      intros H; injection H as <- <-. destruct (IH _ _ eq_refl) as [F ->].
      split; [constructor; [now rewrite Hw | exact F] | reflexivity].
    + destruct (sql_update where_ set_ db) as [[db1 n1]|e]; [|discriminate].
      intros H; injection H as <- <-. destruct (IH _ _ eq_refl) as [F ->].
      split; [constructor; [now rewrite Hw | exact F] | reflexivity].
Qed.

(** A statement whose [WHERE] selects no row changes nothing. *)
Lemma sql_update_no_row (where_ : row -> bool) (set_ : row -> result row)
    (db : table) :
  Forall (fun r => where_ r = false) db ->
  sql_update where_ set_ db = Return (db, O).
Proof.
  induction 1 as [|r db Hr _ IH]; cbn [sql_update]; [reflexivity|].
  rewrite Hr, IH. reflexivity.
Qed.

Lemma bind_params_keys (sets : kwargs)
    (bound : list (string * option string)) :
  bind_params sets = Return bound -> map fst bound = map fst sets.
Proof.
  revert bound; induction sets as [|[k v] sets IH]; intros bound;
    cbn [bind_params]; unfold rbind.
  - intros H; injection H as <-. reflexivity.
  - destruct (bind_param v); [|discriminate].
    destruct (bind_params sets) as [bs|]; [|discriminate].
    intros H; injection H as <-. simpl. f_equal. now apply IH.
Qed.

Lemma serialize_tags_keys (kw : kwargs) :
  map fst (serialize_tags kw) = map fst kw.
Proof.
  unfold serialize_tags. rewrite map_map. apply map_ext.
  intros [k v]. cbn [fst snd].
  destruct (k =? "tags")%string; [destruct v|]; reflexivity.
Qed.

Lemma set_clauses_keys (kw : kwargs) (k : string) :
  In k (map fst (set_clauses kw)) -> In k (map fst kw).
Proof.
  unfold set_clauses. rewrite !in_map_iff.
  intros (kv & E & Hin). apply filter_In in Hin as [Hin _]. eauto.
Qed.

Lemma update_frame_refl (item_id : Z) (kw : kwargs) (db : table) :
  Forall2 (update_frame item_id kw) db db.
Proof.
  induction db; constructor; auto. unfold update_frame. now repeat split.
Qed.

Lemma update_with_frame (db : table) (now item_id : Z) (kw sets : kwargs) :
  (forall k, In k (map fst sets) -> In k (map fst kw)) ->
  Forall2 (update_frame item_id kw) db
          (fst (update_with db now item_id sets)).
Proof.
  intros Hkeys. unfold update_with.
  destruct sets as [|kv sets]; [apply update_frame_refl|].
  destruct (bind_params (kv :: sets)) as [bound|e] eqn:Hb;
    [|apply update_frame_refl].
  destruct (negb (sqlite_int item_id)); [apply update_frame_refl|].
  match goal with
  | |- context [sql_update ?w ?f db] =>
      destruct (sql_update w f db) as [[db' n]|e] eqn:Hu
  end; [|apply update_frame_refl].
  apply sql_update_rows in Hu as [F _]. cbn [fst].
  eapply Forall2_impl; [|exact F]. intros r r' H. cbv beta in H.
  destruct (active_with_id item_id r) eqn:Hw.
  - unfold rbind in H.
    destruct (assign_all bound r) as [r1|e] eqn:Ha; [|discriminate].
    injection H as <-.
    apply assign_all_frame in Ha as ((A1 & A2 & A3 & A4) & _ & Ac).
    unfold update_frame.
    refine (conj A1 (conj A2 (conj A3 (conj A4 (conj _ _)))));
      [|congruence].
    intros k Hk. rewrite <- (Ac k).
    + unfold column. reflexivity.
    + rewrite (bind_params_keys _ Hb). auto.
  - subst r'. unfold update_frame. now repeat split.
Qed.

(** C6: an update changes no other column than title, content,
    source_url, tags, summary, ai_analysis (and updated_at): the keys
    that are not among these six play no part; in every row id,
    source_type, created_at and is_active are as before, and so is each
    of the six columns that the call does not name; rows other than the
    active one with that id are as before; and a call with no field, or
    with no recognised field, answers false and leaves the table as it
    is, updated_at included. *)
Theorem C6_update_frame (db : table) (now item_id : Z) (kw : kwargs) :
  updatable =
    ["title"; "content"; "source_url"; "tags"; "summary"; "ai_analysis"]
  /\ update_knowledge_item db now item_id kw =
       update_knowledge_item db now item_id
         (filter (fun kv => existsb (String.eqb (fst kv)) updatable) kw)
  /\ Forall2 (update_frame item_id kw) db
             (fst (update_knowledge_item db now item_id kw))
  /\ update_knowledge_item db now item_id [] = (db, Return false)
  /\ (Forall (fun kv => ~ In (fst kv) updatable) kw ->
      update_knowledge_item db now item_id kw = (db, Return false)).
Proof.
  split; [reflexivity|].
  split; [apply update_ignores_unrecognized|].
  split; [|split; [reflexivity|]].
  - rewrite update_unfold. apply update_with_frame.
    intros k Hk. apply set_clauses_keys in Hk.
    now rewrite serialize_tags_keys in Hk.
  - intros Hno. rewrite update_ignores_unrecognized.
    assert (E : set_clauses kw = []); [|now rewrite E].
    unfold set_clauses. induction Hno as [|kv kw Hkv _ IH]; [reflexivity|].
    cbn [filter]. destruct (is_updatable (fst kv)) eqn:Eu; [|exact IH].
    elim Hkv. unfold is_updatable in Eu.
    apply existsb_exists in Eu as (x & Hx & Ex).
    apply String.eqb_eq in Ex. now subst x.
Qed.

(** C6 on a call that names two columns outside the six. *)
Lemma C6_witness :
  update_knowledge_item sample_db 500 1
    [("source_type", PyStr "file"); ("id", PyStr "9")]
  = (sample_db, Return false).
Proof.
  apply (proj2 (proj2 (proj2 (proj2 (C6_update_frame sample_db 500 1 _))))).
  apply Forall_cons; [simpl; intuition discriminate|].
  apply Forall_cons; [simpl; intuition discriminate|].
  apply Forall_nil.
Defined.

(** A recognised field does change, and refreshes updated_at. *)
Example update_changes_title :
  update_knowledge_item [sample_row 1 100 true] 500 1
    [("title", PyStr "New"); ("bogus", PyList [])]
  = ([ {| id := 1; title := "New"; content := "Content";
          source_type := "text"; source_url := None;
          tags := Some (dumps ["AI"; "Web"]); summary := Some "Summary";
          ai_analysis := None; created_at := 100; updated_at := 500;
          is_active := true |} ], Return true).
Proof. reflexivity. Qed.

(** ** Soft delete *)

Lemma sql_update_total (where_ : row -> bool) (f : row -> row) (db : table) :
  sql_update where_ (fun r => Return (f r)) db =
    Return (map (fun r => if where_ r then f r else r) db,
            List.length (filter where_ db)).
Proof.
  induction db as [|r db IH]; cbn [sql_update map filter]; [reflexivity|].
  rewrite IH. destruct (where_ r); reflexivity.
Qed.

Lemma delete_unfold (db : table) (now item_id : Z) :
  sqlite_int item_id = true ->
  delete_knowledge_item db now item_id =
    (map (deactivate now item_id) db,
     Return (0 <? List.length (filter (active_with_id item_id) db))%nat).
Proof.
  intros Hi. unfold delete_knowledge_item. rewrite Hi. cbn [negb].
  rewrite sql_update_total. reflexivity.
Qed.

Lemma deactivate_inactive (now item_id : Z) (r : row) :
  active_with_id item_id (deactivate now item_id r) = false.
Proof.
  unfold deactivate. destruct (active_with_id item_id r) eqn:E; [|exact E].
  unfold active_with_id. cbn. apply andb_false_r.
Qed.

(** After a delete that answered, no row is the active one of that id. *)
Lemma delete_gone (db db' : table) (now item_id : Z) (b : bool) :
  delete_knowledge_item db now item_id = (db', Return b) ->
  sqlite_int item_id = true
  /\ Forall (fun r => active_with_id item_id r = false) db'.
Proof.
  intros H. destruct (sqlite_int item_id) eqn:Hi.
  - split; [reflexivity|]. rewrite (delete_unfold _ _ _ Hi) in H.
    injection H as <- _. apply Forall_forall. intros r Hr.
    apply in_map_iff in Hr as (r0 & <- & _). apply deactivate_inactive.
  - unfold delete_knowledge_item in H. rewrite Hi in H. discriminate.
Qed.

Lemma find_gone (db : table) (item_id : Z) :
  Forall (fun r => active_with_id item_id r = false) db ->
  find (active_with_id item_id) db = None.
Proof.
  induction 1 as [|r db Hr _ IH]; cbn [find]; [reflexivity|].
  now rewrite Hr.
Qed.

Lemma filter_purge (q : row -> bool) (item_id : Z) (db : table) :
  (forall r, q r = true -> r.(is_active) = true) ->
  Forall (fun r => active_with_id item_id r = false) db ->
  filter q (purge item_id db) = filter q db.
Proof.
  intros Hq. unfold purge. induction 1 as [|r db Hr _ IH]; [reflexivity|].
  cbn [filter]. destruct (r.(id) =? item_id) eqn:E; cbn [negb filter].
  - rewrite IH. destruct (q r) eqn:Eq; [|reflexivity].
    apply Hq in Eq. unfold active_with_id in Hr. rewrite E, Eq in Hr.
    discriminate.
  - now rewrite IH.
Qed.

Lemma In_firstn {A} (n : nat) (l : list A) (x : A) :
  In x (firstn n l) -> In x l.
Proof.
  revert l; induction n as [|n IH]; intros [|a l]; simpl; try tauto.
  intros [H|H]; auto.
Qed.

Lemma In_skipn {A} (n : nat) (l : list A) (x : A) :
  In x (skipn n l) -> In x l.
Proof.
  revert l; induction n as [|n IH]; intros [|a l]; simpl; try tauto.
  intros H; auto.
Qed.

Lemma In_sql_limit (limit : Z) (rows : list row) (r : row) :
  In r (sql_limit limit rows) -> In r rows.
Proof.
  unfold sql_limit. destruct (limit <? 0); [tauto | apply In_firstn].
Qed.

(** The dictionaries of rows, when they are all made, have the ids of
    the rows. *)
Lemma dict_of_row_id (r : row) (i : item) :
  dict_of_row r = Return i -> i.(id) = r.(id).
Proof.
  unfold dict_of_row, rbind.
  destruct (tags r) as [s|]; [destruct (truthy s); [destruct (loads s)|]|];
    intros H; try discriminate; injection H as <-; reflexivity.
Qed.

Lemma mapM_ids (rows : list row) (items : list item) :
  mapM dict_of_row rows = Return items ->
  map (fun i : item => i.(id)) items = map (fun r : row => r.(id)) rows.
Proof.
  revert items; induction rows as [|r rows IH]; intros items; cbn [mapM].
  - intros H; injection H as <-. reflexivity.
  - destruct (dict_of_row r) as [i|] eqn:E; [|discriminate].
    destruct (mapM dict_of_row rows) as [is_|]; [|discriminate].
    intros H; injection H as <-. cbn [map].
    f_equal; [now apply dict_of_row_id | now apply IH].
Qed.

Lemma bind_params_raises (sets : kwargs) (e : exn) :
  bind_params sets = Raise e -> e = InterfaceError.
Proof.
  induction sets as [|[k v] sets IH]; cbn [bind_params]; unfold rbind;
    [discriminate|].
  destruct v; cbn [bind_param];
    try (destruct (bind_params sets); [discriminate|];
         intros H; injection H as <-; now apply IH).
  intros H; injection H as <-. reflexivity.
Qed.

Lemma bindable_binds (kw : kwargs) :
  bindable kw ->
  exists bound, bind_params (set_clauses (serialize_tags kw)) = Return bound.
Proof.
  intros H. rewrite set_clauses_serialize.
  induction H as [|[k v] kw Hkv _ [bound IH]]; [now exists []|].
  change (set_clauses ((k, v) :: kw))
    with (if is_updatable k then (k, v) :: set_clauses kw
          else set_clauses kw).
  destruct (is_updatable k) eqn:Eu; [|eauto].
  change (serialize_tags ((k, v) :: set_clauses kw))
    with ((if (k =? "tags")%string
           then match v with
                | PyList l => (k, PyStr (dumps l))
                | _ => (k, v)
                end
           else (k, v)) :: serialize_tags (set_clauses kw)).
  cbn [fst snd] in Hkv.
  destruct (k =? "tags")%string eqn:Et; destruct v;
    cbn [bind_params bind_param rbind]; rewrite ?IH; cbn [rbind]; eauto.
  destruct Hkv as [->|Hk]; [discriminate | congruence].
Qed.

Lemma update_gone (db : table) (now item_id : Z) (kw : kwargs) :
  sqlite_int item_id = true ->
  Forall (fun r => active_with_id item_id r = false) db ->
  (update_knowledge_item db now item_id kw = (db, Return false)
   \/ update_knowledge_item db now item_id kw = (db, Raise InterfaceError))
  /\ (bindable kw ->
      update_knowledge_item db now item_id kw = (db, Return false)).
Proof.
  intros Hi Hgone. rewrite update_unfold. unfold update_with.
  destruct (set_clauses (serialize_tags kw)) as [|kv sets] eqn:Es;
    [split; auto|].
  destruct (bind_params (kv :: sets)) as [bound|e] eqn:Hb.
  - rewrite Hi. cbn [negb].
    rewrite sql_update_no_row by assumption. split; auto.
  - apply bind_params_raises in Hb as E. subst e. split; [auto|].
    intros Hk. apply bindable_binds in Hk as [bound Hk].
    rewrite Es in Hk. congruence.
Qed.

(** ** Listings *)

Lemma insert_by_created_at_perm (r : row) (rows : list row) :
  Permutation (insert_by_created_at r rows) (r :: rows).
Proof.
  induction rows as [|r' rows IH]; cbn [insert_by_created_at]; [reflexivity|].
  destruct (r.(created_at) <? r'.(created_at)); [|reflexivity].
  rewrite IH. apply perm_swap.
Qed.

Lemma stable_order_by_perm (rows : list row) :
  Permutation (stable_order_by rows) rows.
Proof.
  unfold stable_order_by. induction rows as [|r rows IH]; cbn [fold_right];
    [reflexivity|].
  rewrite insert_by_created_at_perm. now constructor.
Qed.

Lemma insert_by_created_at_sorted (r : row) (rows : list row) :
  StronglySorted newest_first rows ->
  StronglySorted newest_first (insert_by_created_at r rows).
Proof.
  induction 1 as [|r' rows Hs IH Hall]; cbn [insert_by_created_at].
  - constructor; constructor.
  - destruct (r.(created_at) <? r'.(created_at)) eqn:E.
    + apply Z.ltb_lt in E. constructor; [exact IH|].
      apply Forall_forall. intros x Hx.
      apply (Permutation_in _ (insert_by_created_at_perm r rows)) in Hx.
      destruct Hx as [<-|Hx]; [unfold newest_first; lia|].
      now apply (proj1 (Forall_forall _ _) Hall).
    + apply Z.ltb_ge in E. constructor; [now constructor|].
      constructor; [exact E|].
      eapply Forall_impl; [|exact Hall]. unfold newest_first. intros; lia.
Qed.

Lemma stable_order_by_sorted (rows : list row) :
  StronglySorted newest_first (stable_order_by rows).
Proof.
  unfold stable_order_by. induction rows as [|r rows IH]; cbn [fold_right].
  - constructor.
  - now apply insert_by_created_at_sorted.
Qed.

Lemma sorted_firstn (n : nat) (rows : list row) :
  StronglySorted newest_first rows ->
  StronglySorted newest_first (firstn n rows).
Proof.
  intros H; revert n; induction H as [|r rows Hs IH Hall]; intros [|n];
    cbn [firstn]; try constructor; auto.
  apply Forall_forall. intros x Hx. apply In_firstn in Hx.
  now apply (proj1 (Forall_forall _ _) Hall).
Qed.

Lemma sorted_skipn (n : nat) (rows : list row) :
  StronglySorted newest_first rows ->
  StronglySorted newest_first (skipn n rows).
Proof.
  intros H; revert n; induction H as [|r rows Hs IH Hall]; intros [|n];
    cbn [skipn]; try constructor; auto.
Qed.

Lemma firstn_plus {A} (a b : nat) (l : list A) :
  firstn (a + b) l = (firstn a l ++ firstn b (skipn a l))%list.
Proof.
  revert l; induction a as [|a IH]; intros l; [reflexivity|].
  destruct l as [|x l]; cbn [Nat.add firstn skipn app].
  - now destruct b.
  - now rewrite IH.
Qed.

Lemma mapM_decodable (rows : list row) :
  Forall decodable rows ->
  exists items,
    mapM dict_of_row rows = Return items
    /\ Forall2 (fun r i => dict_of_row r = Return i) rows items.
Proof.
  induction 1 as [|r rows [i Hi] _ (items & Hm & F)].
  - exists []. split; [reflexivity | constructor].
  - exists (i :: items). cbn [mapM]. rewrite Hi, Hm.
    split; [reflexivity | now constructor].
Qed.

Lemma mapM_rows (rows : list row) (items : list item) :
  mapM dict_of_row rows = Return items ->
  Forall2 (fun r i => dict_of_row r = Return i) rows items.
Proof.
  revert items. induction rows as [|r rows IH]; intros items; cbn [mapM].
  - intros H; injection H as <-. constructor.
  - destruct (dict_of_row r) as [i|] eqn:Hi; [|discriminate].
    destruct (mapM dict_of_row rows) as [l|]; [|discriminate].
    intros H; injection H as <-. constructor; auto.
Qed.

(** The dictionary made of a row has the columns of the row, and the
    list of tags that was stored. *)
Lemma dict_of_row_item (r : row) (i : item) :
  dict_of_row r = Return i -> item_of_row r i.
Proof.
  unfold dict_of_row, item_of_row.
  destruct r.(tags) as [s|] eqn:Et.
  - destruct (truthy s) eqn:Ht.
    + destruct (loads s) as [l|] eqn:El; cbn [rbind]; [|discriminate].
      intros H; injection H as <-. cbn -[dumps].
      repeat split; try discriminate.
      intros l' E. injection E as ->. rewrite loads_dumps in El.
      congruence.
    + cbn [rbind]. intros H; injection H as <-. cbn -[dumps].
      repeat split; try discriminate.
      intros l' E. injection E as ->. rewrite dumps_truthy in Ht.
      discriminate.
  - cbn [rbind]. intros H; injection H as <-. cbn -[dumps].
    repeat split; discriminate.
Qed.

Lemma rows_items (rows : list row) (items : list item) :
  mapM dict_of_row rows = Return items -> Forall2 item_of_row rows items.
Proof.
  intros H. apply mapM_rows in H.
  induction H; constructor; auto using dict_of_row_item.
Qed.

Lemma sorted_items (rows : list row) (items : list item) :
  StronglySorted newest_first rows -> Forall2 item_of_row rows items ->
  StronglySorted newest_item_first items.
Proof.
  intros Hs F. induction F as [|r i rows items Hri F IH];
    [constructor|].
  inversion Hs as [|? ? Hs' Hall]; subst.
  constructor; [now apply IH|].
  destruct Hri as (_ & _ & _ & _ & _ & _ & _ & Hc & _).
  clear IH Hs Hs'. induction F as [|r' i' rows items Hri' F IH];
    constructor.
  - inversion Hall; subst.
    destruct Hri' as (_ & _ & _ & _ & _ & _ & _ & Hc' & _).
    unfold newest_item_first, newest_first in *. congruence.
  - inversion Hall; subst. now apply IH.
Qed.

Lemma items_ids (rows : list row) (items : list item) :
  Forall2 item_of_row rows items ->
  map (fun i : item => i.(id)) items = map (fun r : row => r.(id)) rows.
Proof.
  induction 1 as [|r i rows items (Hid & _) _ IH]; [reflexivity|].
  cbn [map]. now rewrite Hid, IH.
Qed.

Section Queries.

Variable str_exn : exn -> string.
Variable order_by : list row -> list row.
Hypothesis order_by_perm : forall rows, Permutation (order_by rows) rows.
Hypothesis order_by_sorted :
  forall rows, StronglySorted newest_first (order_by rows).

Local Abbreviation listing := (listing order_by).

Lemma select_page_In (db : table) (limit offset : Z) (r : row) :
  In r (select_page order_by db limit offset) ->
  In r db /\ r.(is_active) = true.
Proof.
  unfold select_page. intros H.
  apply In_sql_limit in H. apply In_skipn in H.
  apply (Permutation_in _ (order_by_perm _)) in H.
  now apply filter_In in H.
Qed.

Lemma select_search_In (db : table) (query : string) (limit : Z) (r : row) :
  In r (select_search order_by db query limit) ->
  In r db /\ r.(is_active) = true.
Proof.
  unfold select_search. intros H.
  apply In_sql_limit in H.
  apply (Permutation_in _ (order_by_perm _)) in H.
  apply filter_In in H as [H1 H2].
  apply andb_true_iff in H2 as [H2 _]. auto.
Qed.

Lemma gone_not_selected (db : table) (item_id : Z) (rows : list row)
    (items : list item) :
  Forall (fun r => active_with_id item_id r = false) db ->
  (forall r, In r rows -> In r db /\ r.(is_active) = true) ->
  mapM dict_of_row rows = Return items ->
  Forall (fun i : item => i.(id) <> item_id) items.
Proof.
  intros Hgone Hrows Hm. apply mapM_ids in Hm.
  apply Forall_forall. intros i Hi Heq.
  assert (Hin : In item_id (map (fun r : row => r.(id)) rows)).
  { rewrite <- Hm, <- Heq. now apply in_map. }
  apply in_map_iff in Hin as (r & Hr & Hin).
  destruct (Hrows r Hin) as [Hdb Hact].
  apply (proj1 (Forall_forall _ _) Hgone) in Hdb.
  unfold active_with_id in Hdb. rewrite Hr, Z.eqb_refl, Hact in Hdb.
  discriminate.
Qed.

(** C7: once a delete of an id has answered true, reading that id
    answers None; listings, searches and the statistics are those of the
    table without the rows of that id, and no dictionary of a listing or
    of a search has that id; a further delete answers false; an update
    of that id answers false (unless a value cannot be bound, and then
    it raises); and none of these changes the table. *)
Theorem C7_soft_delete (db db' : table) (now item_id : Z) :
  delete_knowledge_item db now item_id = (db', Return true) ->
  get_knowledge_item db' item_id = Return None
  /\ (forall limit offset,
        get_all_knowledge_items order_by db' limit offset =
          get_all_knowledge_items order_by (purge item_id db') limit offset
        /\ forall items,
             get_all_knowledge_items order_by db' limit offset
             = Return items ->
             Forall (fun i : item => i.(id) <> item_id) items)
  /\ (forall query limit,
        search_knowledge_items order_by db' query limit =
          search_knowledge_items order_by (purge item_id db') query limit
        /\ forall items,
             search_knowledge_items order_by db' query limit
             = Return items ->
             Forall (fun i : item => i.(id) <> item_id) items)
  /\ Knowledge.get_knowledge_stats str_exn order_by db' =
       Knowledge.get_knowledge_stats str_exn order_by (purge item_id db')
  /\ (forall now',
        delete_knowledge_item db' now' item_id = (db', Return false))
  /\ (forall now' kw,
        update_knowledge_item db' now' item_id kw = (db', Return false)
        \/ update_knowledge_item db' now' item_id kw
           = (db', Raise InterfaceError))
  /\ (forall now' kw,
        bindable kw ->
        update_knowledge_item db' now' item_id kw = (db', Return false)).
Proof.
  intros Hdel. apply delete_gone in Hdel as [Hi Hgone].
  assert (Hpage : forall limit offset,
             select_page order_by (purge item_id db') limit offset
             = select_page order_by db' limit offset).
  { intros. unfold select_page. now rewrite filter_purge. }
  assert (Hall : forall limit offset,
             get_all_knowledge_items order_by db' limit offset =
             get_all_knowledge_items order_by (purge item_id db')
               limit offset).
  { intros. unfold get_all_knowledge_items. now rewrite Hpage. }
  split; [|split; [|split; [|split; [|split; [|split]]]]].
  - unfold get_knowledge_item. rewrite Hi. cbn [negb].
    now rewrite find_gone.
  - intros limit offset. split; [apply Hall|].
    unfold get_all_knowledge_items.
    destruct (negb (sqlite_int limit && sqlite_int offset)); [discriminate|].
    intros items Hm. eapply gone_not_selected; [exact Hgone| |exact Hm].
    intros r. apply select_page_In.
  - intros query limit.
    assert (Hs : select_search order_by (purge item_id db') query limit
                 = select_search order_by db' query limit).
    { unfold select_search. rewrite filter_purge; [reflexivity| |assumption].
      intros r Hr. now apply andb_true_iff in Hr as [Hr _]. }
    unfold search_knowledge_items. rewrite Hs. split; [reflexivity|].
    destruct (negb (sqlite_int limit)); [discriminate|].
    intros items Hm. eapply gone_not_selected; [exact Hgone| |exact Hm].
    intros r. apply select_search_In.
  - unfold Knowledge.get_knowledge_stats. now rewrite Hall.
  - intros now'. rewrite (delete_unfold _ _ _ Hi).
    assert (E : filter (active_with_id item_id) db' = []).
    { clear - Hgone. induction Hgone as [|r rows Hr _ IH]; [reflexivity|].
      cbn [filter]. now rewrite Hr. }
    rewrite E. f_equal.
    clear - Hgone. induction Hgone as [|r rows Hr _ IH]; [reflexivity|].
    cbn [map]. unfold deactivate at 1. now rewrite Hr, IH.
  - intros now' kw. now apply update_gone.
  - intros now' kw. now apply update_gone.
Qed.

Lemma select_page_nat (db : table) (limit offset : nat) :
  select_page order_by db (Z.of_nat limit) (Z.of_nat offset) =
    firstn limit (skipn offset (listing db)).
Proof.
  unfold select_page, sql_limit, sql_offset, listing.
  rewrite !Nat2Z.id.
  destruct (Z.of_nat limit <? 0) eqn:E; [|reflexivity].
  apply Z.ltb_lt in E. lia.
Qed.

Lemma select_page_sorted (db : table) (limit offset : Z) :
  StronglySorted newest_first (select_page order_by db limit offset).
Proof.
  unfold select_page, sql_limit, sql_offset.
  destruct (limit <? 0); [|apply sorted_firstn];
    apply sorted_skipn, order_by_sorted.
Qed.

(** Pages of [size] rows laid end to end are the head of the listing. *)
Lemma pages_concat (db : table) (size n : nat) :
  List.concat (map (fun k => select_page order_by db (Z.of_nat size)
                          (Z.of_nat (k * size)))
              (seq 0 n))
  = firstn (n * size) (listing db).
Proof.
  induction n as [|n IH]; [reflexivity|].
  rewrite seq_S, map_app, concat_app, IH. cbn [map List.concat Nat.add].
  rewrite app_nil_r, select_page_nat.
  replace (S n * size)%nat with (n * size + size)%nat by lia.
  now rewrite firstn_plus.
Qed.

Lemma page_decodable (db : table) (limit offset : Z) :
  Forall decodable (filter (fun r : row => r.(is_active)) db) ->
  Forall decodable (select_page order_by db limit offset).
Proof.
  intros H. apply Forall_forall. intros r Hr.
  unfold select_page in Hr. apply In_sql_limit in Hr. apply In_skipn in Hr.
  apply (Permutation_in _ (order_by_perm _)) in Hr.
  now apply (proj1 (Forall_forall _ _) H).
Qed.

(** C9: a listing is a page of the active rows ordered newest first,
    and what it returns are the dictionaries of these rows, in that
    order: every column as the row has it, so active, and ordered by
    created_at, newest first.  Pages of one size at consecutive offsets,
    laid end to end, are the head of that order, so they neither overlap
    nor leave a gap; and with five active rows the pages of two at
    offsets 0, 2 and 4 return 2, 2 and 1 dictionaries, which laid end to
    end are ordered newest first and are the dictionaries of the five
    active rows, once each. *)
Theorem C9_pagination (db : table) :
  Permutation (listing db) (filter (fun r : row => r.(is_active)) db)
  /\ StronglySorted newest_first (listing db)
  /\ (forall limit offset,
        StronglySorted newest_first (select_page order_by db limit offset)
        /\ (0 <= limit <= 9223372036854775807 ->
            0 <= offset <= 9223372036854775807 ->
            get_all_knowledge_items order_by db limit offset =
              mapM dict_of_row
                (firstn (Z.to_nat limit)
                   (skipn (Z.to_nat offset) (listing db)))))
  /\ (forall limit offset items,
        get_all_knowledge_items order_by db limit offset = Return items ->
        Forall2 item_of_row (select_page order_by db limit offset) items
        /\ StronglySorted newest_item_first items
        /\ Forall (fun i : item =>
                     i.(is_active) = true
                     /\ exists r, In r db /\ item_of_row r i) items)
  /\ (forall size n : nat,
        List.concat (map (fun k => select_page order_by db (Z.of_nat size)
                                (Z.of_nat (k * size)))
                    (seq 0 n))
        = firstn (n * size) (listing db))
  /\ (List.length (filter (fun r : row => r.(is_active)) db) = 5%nat ->
      let p0 := select_page order_by db 2 0 in
      let p1 := select_page order_by db 2 2 in
      let p2 := select_page order_by db 2 4 in
      List.length p0 = 2%nat /\ List.length p1 = 2%nat
      /\ List.length p2 = 1%nat
      /\ (p0 ++ p1 ++ p2)%list = listing db
      /\ Permutation (p0 ++ p1 ++ p2)
                     (filter (fun r : row => r.(is_active)) db)
      /\ (Forall decodable (filter (fun r : row => r.(is_active)) db) ->
          exists i0 i1 i2,
            get_all_knowledge_items order_by db 2 0 = Return i0
            /\ get_all_knowledge_items order_by db 2 2 = Return i1
            /\ get_all_knowledge_items order_by db 2 4 = Return i2
            /\ Forall2 (fun r i => dict_of_row r = Return i) p0 i0
            /\ Forall2 (fun r i => dict_of_row r = Return i) p1 i1
            /\ Forall2 (fun r i => dict_of_row r = Return i) p2 i2
            /\ List.length i0 = 2%nat /\ List.length i1 = 2%nat
            /\ List.length i2 = 1%nat
            /\ Forall2 item_of_row (listing db) (i0 ++ i1 ++ i2)
            /\ StronglySorted newest_item_first (i0 ++ i1 ++ i2)
            /\ Permutation
                 (map (fun i : item => i.(id)) (i0 ++ i1 ++ i2))
                 (map (fun r : row => r.(id))
                    (filter (fun r : row => r.(is_active)) db)))).
Proof.
  split; [apply order_by_perm|]. split; [apply order_by_sorted|].
  split; [|split; [|split; [apply pages_concat|]]].
  - intros limit offset. split; [apply select_page_sorted|].
    intros Hl Ho. unfold get_all_knowledge_items, sqlite_int.
    replace (- 9223372036854775808 <=? limit) with true
      by (symmetry; apply Z.leb_le; lia).
    replace (limit <=? 9223372036854775807) with true
      by (symmetry; apply Z.leb_le; lia).
    replace (- 9223372036854775808 <=? offset) with true
      by (symmetry; apply Z.leb_le; lia).
    replace (offset <=? 9223372036854775807) with true
      by (symmetry; apply Z.leb_le; lia).
    cbn [andb negb]. unfold select_page, sql_limit, sql_offset, listing.
    replace (limit <? 0) with false by (symmetry; apply Z.ltb_ge; lia).
    reflexivity.
  - intros limit offset items. unfold get_all_knowledge_items.
    destruct (negb (sqlite_int limit && sqlite_int offset));
      [discriminate|].
    intros Hm. apply rows_items in Hm.
    split; [exact Hm|].
    split; [exact (sorted_items (select_page_sorted db limit offset) Hm)|].
    clear - Hm order_by_perm.
    assert (Hin : forall r, In r (select_page order_by db limit offset) ->
                            In r db /\ r.(is_active) = true)
      by (intros r; apply select_page_In).
    induction Hm as [|r i rows items Hri F IH]; constructor.
    + destruct (Hin r (or_introl eq_refl)) as [Hdb Ha].
      split; [|eauto].
      destruct Hri as (_ & _ & _ & _ & _ & _ & _ & _ & _ & Hact & _).
      congruence.
    + apply IH. intros r' Hr'. apply Hin. now right.
  - intros H5 p0 p1 p2.
    assert (Hlen : List.length (listing db) = 5%nat)
      by (rewrite <- H5; apply Permutation_length, order_by_perm).
    assert (E0 : p0 = firstn 2 (skipn 0 (listing db)))
      by apply (select_page_nat db 2 0).
    assert (E1 : p1 = firstn 2 (skipn 2 (listing db)))
      by apply (select_page_nat db 2 2).
    assert (E2 : p2 = firstn 2 (skipn 4 (listing db)))
      by apply (select_page_nat db 2 4).
    assert (Hcat : (p0 ++ p1 ++ p2)%list = listing db).
    { rewrite E0, E1, E2.
      destruct (listing db) as [|a [|b [|c [|d [|e [|f l]]]]]];
        try discriminate Hlen. reflexivity. }
    assert (L0 : List.length p0 = 2%nat)
      by (rewrite E0, length_firstn, length_skipn; lia).
    assert (L1 : List.length p1 = 2%nat)
      by (rewrite E1, length_firstn, length_skipn; lia).
    assert (L2 : List.length p2 = 1%nat)
      by (rewrite E2, length_firstn, length_skipn; lia).
    split; [exact L0|]. split; [exact L1|]. split; [exact L2|].
    split; [exact Hcat|]. split; [rewrite Hcat; apply order_by_perm|].
    intros Hdec.
    destruct (mapM_decodable (page_decodable db 2 0 Hdec)) as (i0 & M0 & F0).
    destruct (mapM_decodable (page_decodable db 2 2 Hdec)) as (i1 & M1 & F1).
    destruct (mapM_decodable (page_decodable db 2 4 Hdec)) as (i2 & M2 & F2).
    assert (Hall : Forall2 item_of_row (listing db) (i0 ++ i1 ++ i2)%list).
    { rewrite <- Hcat.
      repeat apply Forall2_app; apply rows_items; assumption. }
    exists i0, i1, i2. unfold get_all_knowledge_items. cbn [sqlite_int].
    split; [exact M0|]. split; [exact M1|]. split; [exact M2|].
    split; [exact F0|]. split; [exact F1|]. split; [exact F2|].
    split; [rewrite <- (Forall2_length F0); exact L0|].
    split; [rewrite <- (Forall2_length F1); exact L1|].
    split; [rewrite <- (Forall2_length F2); exact L2|].
    split; [exact Hall|].
    split; [exact (sorted_items (order_by_sorted _) Hall)|].
    rewrite (items_ids Hall). apply Permutation_map, order_by_perm.
Qed.

End Queries.

(** C7 on the sample table, row 2 deleted. *)
Lemma C7_witness :
  get_knowledge_item (fst (delete_knowledge_item sample_db 600 2)) 2
  = Return None.
Proof.
  apply (proj1 (@C7_soft_delete ProcessingTerms.sample_str stable_order_by
                  stable_order_by_perm sample_db _ 600 2 eq_refl)).
Defined.

(** C9 on the sample table: the three pages return the five active
    rows, newest first. *)
Lemma C9_witness :
  exists i0 i1 i2,
    get_all_knowledge_items stable_order_by sample_db 2 0 = Return i0
    /\ get_all_knowledge_items stable_order_by sample_db 2 2 = Return i1
    /\ get_all_knowledge_items stable_order_by sample_db 2 4 = Return i2
    /\ List.length i0 = 2%nat /\ List.length i1 = 2%nat
    /\ List.length i2 = 1%nat
    /\ StronglySorted newest_item_first (i0 ++ i1 ++ i2)
    /\ Permutation (map (fun i : item => i.(id)) (i0 ++ i1 ++ i2))
                   [1; 2; 4; 5; 6].
Proof.
  pose proof (@C9_pagination stable_order_by stable_order_by_perm
                stable_order_by_sorted sample_db) as H.
  destruct H as (_ & _ & _ & _ & _ & H5).
  destruct (H5 eq_refl) as (_ & _ & _ & _ & _ & H).
  destruct H as (i0 & i1 & i2 & M0 & M1 & M2 & _ & _ & _ & L0 & L1 & L2
                 & _ & Hs & Hp).
  - repeat constructor; eexists; reflexivity.
  - exists i0, i1, i2. repeat split; assumption.
Defined.

(** The three pages of the sample table. *)
Example sample_pages :
  map (fun r : row => r.(id)) (select_page stable_order_by sample_db 2 0)
  = [6; 2]
  /\ map (fun r : row => r.(id)) (select_page stable_order_by sample_db 2 2)
     = [4; 5]
  /\ map (fun r : row => r.(id)) (select_page stable_order_by sample_db 2 4)
     = [1].
Proof. repeat split. Qed.

(** ** Create, then read *)

Lemma next_rowid_above (db : table) :
  Forall (fun r : row => r.(id) < next_rowid db) db.
Proof.
  unfold next_rowid. induction db as [|r db IH]; constructor.
  - cbn [map fold_right]. lia.
  - eapply Forall_impl; [|exact IH]. cbn [map fold_right]. intros; lia.
Qed.

Lemma find_last (p : row -> bool) (db : table) (r : row) :
  Forall (fun x => p x = false) db -> p r = true ->
  find p (db ++ [r]) = Some r.
Proof.
  intros H Hr. induction H as [|x db Hx _ IH]; cbn [app find].
  - now rewrite Hr.
  - now rewrite Hx.
Qed.

(** C8, as the code has it: an item created with an accepted source
    type, in a table that is not full, is read back by the id that the
    creation answered with the title, content, source type, source url,
    summary and analysis that were given, and with the tags that were
    given when they are a list that is not empty; an empty list of tags
    is read back as no tags, like tags that were not given. *)
Theorem C8_create_then_get (db : table) (now : Z)
    (title content source_type : string) (source_url : option string)
    (tags : option (list string)) (summary ai_analysis : option string) :
  In source_type ["text"; "url"; "file"] ->
  next_rowid db <= 9223372036854775807 ->
  exists db' item_id i,
    create_knowledge_item db now title content source_type source_url
      tags summary ai_analysis = (db', Return item_id)
    /\ get_knowledge_item db' item_id = Return (Some i)
    /\ i.(Database.title) = title
    /\ i.(Database.content) = content
    /\ i.(Database.source_type) = source_type
    /\ i.(Database.source_url) = source_url
    /\ i.(Database.tags) = tags_read_back tags
    /\ i.(Database.summary) = summary
    /\ i.(Database.ai_analysis) = ai_analysis
    /\ i.(id) = item_id /\ i.(created_at) = now /\ i.(updated_at) = now
    /\ i.(is_active) = true.
Proof.
  intros Hst Hfull.
  assert (Hc : check_source_type source_type = true).
  { unfold check_source_type. apply existsb_exists.
    exists source_type. split; [exact Hst | apply String.eqb_refl]. }
  assert (Hi : sqlite_int (next_rowid db) = true).
  { unfold sqlite_int. apply andb_true_iff.
    pose proof (next_rowid_above db) as Ha.
    assert (1 <= next_rowid db).
    { unfold next_rowid.
      assert (0 <= fold_right Z.max 0 (map (fun r : row => r.(id)) db));
        [|lia].
      clear. induction db; cbn [map fold_right]; lia. }
    split; [apply Z.leb_le; lia | apply Z.leb_le; lia]. }
  assert (Hnew : forall r : row,
             r.(id) = next_rowid db -> r.(is_active) = true ->
             find (active_with_id (next_rowid db)) (db ++ [r]) = Some r).
  { intros r Hid Hact. apply find_last.
    - eapply Forall_impl; [|apply next_rowid_above].
      intros x Hx. cbv beta in Hx. unfold active_with_id.
      replace (x.(id) =? next_rowid db) with false; [reflexivity|].
      symmetry. apply Z.eqb_neq. lia.
    - unfold active_with_id. now rewrite Hid, Z.eqb_refl, Hact. }
  unfold create_knowledge_item. rewrite Hc, Hi. cbn [negb].
  destruct tags as [[|t ts]|];
    (eexists _, _, _; split; [reflexivity|]);
    unfold get_knowledge_item; rewrite Hi; cbn [negb];
    rewrite Hnew by reflexivity;
    unfold dict_of_row; cbn [Database.tags];
    rewrite ?dumps_truthy, ?loads_dumps; cbn [rbind]; repeat split.
Qed.

(** C8 on an item created with two tags. *)
Lemma C8_witness :
  exists db' item_id i,
    create_knowledge_item sample_db 700 "Title" "Content" "url"
      (Some "http://example.org") (Some ["AI"; "Web"]) None None
    = (db', Return item_id)
    /\ get_knowledge_item db' item_id = Return (Some i)
    /\ i.(Database.tags) = PyList ["AI"; "Web"].
Proof.
  destruct (C8_create_then_get sample_db 700 "Title" "Content"
              (source_type := "url") (Some "http://example.org")
              (Some ["AI"; "Web"]) None None)
    as (db' & item_id & i & Hc & Hg & _ & _ & _ & _ & Ht & _).
  - simpl. auto.
  - vm_compute. discriminate.
  - exists db', item_id, i. repeat split; assumption.
Defined.

(** C8, as the claim has it, fails: an item created with the empty list
    of tags is read back with no tags, not with the list given. *)
Lemma C8_counterexample :
  create_knowledge_item [] 100 "Title" "Content" "text" None (Some [])
    None None
  = ([ {| id := 1; title := "Title"; content := "Content";
          source_type := "text"; source_url := None; tags := None;
          summary := None; ai_analysis := None; created_at := 100;
          updated_at := 100; is_active := true |} ], Return 1)
  /\ exists i,
       get_knowledge_item
         (fst (create_knowledge_item [] 100 "Title" "Content" "text" None
                 (Some []) None None)) 1
       = Return (Some i)
       /\ i.(Database.tags) = PyNone
       /\ i.(Database.tags) <> PyList [].
Proof.
  split; [reflexivity|]. eexists. split; [reflexivity|].
  split; [reflexivity | discriminate].
Qed.

End StoreSpec.

(* ================================================================== *)
(** * The content extractor *)
(* ================================================================== *)

Module CleaningSpec.
Import Py TextTerms PyFacts Processing ProcessingTerms CleaningTerms.

(** ** Trimming *)

Lemma lstrip_length (s : string) :
  (String.length (lstrip s) <= String.length s)%nat.
Proof.
  induction s as [|c s IH]; cbn [lstrip]; [lia|].
  destruct (isspace c); simpl; lia.
Qed.

Lemma rstrip_length (s : string) :
  (String.length (rstrip s) <= String.length s)%nat.
Proof.
  induction s as [|c s IH]; cbn [rstrip]; [lia|].
  destruct (isspace c && negb (truthy (rstrip s))); simpl; lia.
Qed.

Lemma lstrip_starts (s : string) : starts_with_space (lstrip s) = false.
Proof.
  induction s as [|c s IH]; cbn [lstrip]; [reflexivity|].
  destruct (isspace c) eqn:E; [exact IH | exact E].
Qed.

Lemma lstrip_fixed (s : string) :
  starts_with_space s = false -> lstrip s = s.
Proof.
  destruct s as [|c s]; cbn [starts_with_space lstrip]; [reflexivity|].
  now intros ->.
Qed.

Lemma rstrip_starts (s : string) :
  starts_with_space s = false -> starts_with_space (rstrip s) = false.
Proof.
  destruct s as [|c s]; cbn [starts_with_space rstrip]; [reflexivity|].
  intros E. rewrite E. cbn [andb starts_with_space]. exact E.
Qed.

Lemma rstrip_idempotent (s : string) : rstrip (rstrip s) = rstrip s.
Proof.
  induction s as [|c s IH]; cbn [rstrip]; [reflexivity|].
  destruct (isspace c && negb (truthy (rstrip s))) eqn:E; [reflexivity|].
  cbn [rstrip]. rewrite IH, E. reflexivity.
Qed.

Lemma strip_starts (s : string) : starts_with_space (strip s) = false.
Proof. unfold strip. apply rstrip_starts, lstrip_starts. Qed.

Lemma rstrip_empty (s : string) :
  starts_with_space s = false -> (rstrip s = "" <-> s = "").
Proof.
  destruct s as [|c s]; cbn [starts_with_space rstrip]; [tauto|].
  intros E. rewrite E. cbn [andb]. split; discriminate.
Qed.

Lemma split_from_nonempty (s cur : string) :
  truthy cur = true -> split_from cur s <> [].
Proof.
  revert cur; induction s as [|c s IH]; intros cur Hc; cbn [split_from].
  - now rewrite Hc.
  - destruct (isspace c); [now rewrite Hc|]. apply IH, truthy_snoc.
Qed.

(** A text without words is white space from end to end. *)
Lemma lstrip_empty_split (s : string) : lstrip s = "" <-> split s = [].
Proof.
  unfold split. induction s as [|c s IH]; cbn [lstrip split_from truthy];
    [tauto|].
  destruct (isspace c) eqn:E; [exact IH|].
  split; [discriminate|]. intros H.
  now apply split_from_nonempty in H.
Qed.

(** Trimming is a projection: a trimmed text is left as it is by a
    second trimming; trimming never lengthens; and the texts that trim
    to nothing are exactly those that split into no word. *)
Lemma strip_projection (s : string) :
  strip (strip s) = strip s
  /\ (String.length (strip s) <= String.length s)%nat
  /\ starts_with_space (strip s) = false
  /\ (strip s = "" <-> split s = []).
Proof.
  split; [|split; [|split]].
  - unfold strip at 1. rewrite (lstrip_fixed _ (strip_starts s)).
    unfold strip. apply rstrip_idempotent.
  - unfold strip. pose proof (rstrip_length (lstrip s)).
    pose proof (lstrip_length s). lia.
  - apply strip_starts.
  - unfold strip. rewrite (rstrip_empty _ (lstrip_starts s)).
    apply lstrip_empty_split.
Qed.

Lemma rstrip_app (a b : string) :
  rstrip b <> "" -> rstrip (a ++ b) = a ++ rstrip b.
Proof.
  intros Hb. induction a as [|c a IH]; [reflexivity|].
  cbn [append rstrip]. rewrite IH.
  replace (truthy (a ++ rstrip b)) with true.
  - now rewrite andb_false_r.
  - symmetry. destruct a; cbn [append]; [now apply truthy_true | reflexivity].
Qed.

(** ** Tags *)

Lemma strip_tags_keeps (a x : string) :
  has_lt a = false ->
  strip_tags_from false (a ++ x) = a ++ strip_tags_from false x.
Proof.
  induction a as [|c a IH]; [reflexivity|].
  cbn [has_lt append strip_tags_from]. intros H.
  apply orb_false_iff in H as [Hc Ha]. rewrite Hc, IH by assumption.
  reflexivity.
Qed.

Lemma strip_tags_skips (body rest : string) :
  has_gt body = false ->
  strip_tags_from true (body ++ String ">" rest) = strip_tags_from false rest.
Proof.
  induction body as [|c body IH]; [reflexivity|].
  cbn [has_gt append strip_tags_from]. intros H.
  apply orb_false_iff in H as [Hc Hb]. now rewrite Hc, IH.
Qed.

Lemma has_gt_app (a b : string) : has_gt (a ++ b) = has_gt a || has_gt b.
Proof.
  induction a as [|c a IH]; [reflexivity|].
  cbn [append has_gt]. now rewrite IH, orb_assoc.
Qed.

(** With no '>' left, nothing is a tag. *)
Lemma strip_tags_unclosed (s : string) :
  has_gt s = false -> strip_tags_from false s = s.
Proof.
  induction s as [|c s IH]; [reflexivity|].
  cbn [has_gt strip_tags_from]. intros H.
  apply orb_false_iff in H as [Hc Hs]. rewrite IH by assumption.
  destruct (Ascii.eqb c "<"); [|reflexivity].
  destruct s as [|d s]; [reflexivity|].
  cbn [has_gt] in Hs. apply orb_false_iff in Hs as [_ Hs].
  now rewrite Hs, andb_false_r.
Qed.

(** A tag is replaced by one space. *)
Lemma strip_tags_tag (a body rest : string) :
  has_lt a = false -> body <> "" -> has_gt body = false ->
  strip_tags (a ++ String "<" (body ++ String ">" rest))
  = a ++ String " " (strip_tags rest).
Proof.
  intros Ha Hne Hb. unfold strip_tags. rewrite strip_tags_keeps by assumption.
  f_equal. destruct body as [|d body]; [congruence|].
  cbn [has_gt] in Hb. apply orb_false_iff in Hb as [Hd Hb].
  cbn [append strip_tags_from]. rewrite Ascii.eqb_refl.
  rewrite Hd, has_gt_app, Hb. cbn [has_gt]. rewrite Ascii.eqb_refl.
  cbn [negb orb andb]. f_equal. now apply strip_tags_skips.
Qed.

(** ** Runs of white space *)

Lemma collapse_spaced (s : string) (b : bool) :
  spaced_from b (collapse_spaces_from b s) = true.
Proof.
  revert b; induction s as [|c s IH]; intros b; [reflexivity|].
  cbn [collapse_spaces_from]. destruct (isspace c) eqn:E.
  - destruct b; [apply IH|]. cbn [spaced_from]. now rewrite IH.
  - cbn [spaced_from]. rewrite E. apply IH.
Qed.

Lemma spaced_weaken (s : string) (b : bool) :
  spaced_from b s = true -> spaced_from false s = true.
Proof.
  destruct s as [|c s]; [reflexivity|]. cbn [spaced_from].
  destruct (isspace c); [|tauto]. destruct b; [|tauto].
  rewrite andb_false_r. discriminate.
Qed.

Lemma lstrip_spaced (s : string) (b : bool) :
  spaced_from b s = true -> spaced_from false (lstrip s) = true.
Proof.
  revert b; induction s as [|c s IH]; intros b; [reflexivity|].
  cbn [lstrip]. destruct (isspace c) eqn:E.
  - cbn [spaced_from]. rewrite E. intros H.
    apply andb_true_iff in H as [_ H]. now apply IH in H.
  - apply spaced_weaken.
Qed.

Lemma rstrip_spaced (s : string) (b : bool) :
  spaced_from b s = true -> spaced_from b (rstrip s) = true.
Proof.
  revert b; induction s as [|c s IH]; intros b; [reflexivity|].
  cbn [rstrip spaced_from]. destruct (isspace c) eqn:E.
  - intros H. apply andb_true_iff in H as [H1 H2].
    destruct (truthy (rstrip s)); cbn [negb andb]; [|reflexivity].
    cbn [spaced_from]. rewrite E, H1. now apply IH.
  - intros H. cbn [andb spaced_from]. rewrite E. now apply IH.
Qed.

Lemma substring_spaced (n : nat) (s : string) (b : bool) :
  spaced_from b s = true -> spaced_from b (String.substring 0 n s) = true.
Proof.
  revert s b; induction n as [|n IH]; intros [|c s] b; try reflexivity.
  cbn [String.substring spaced_from]. destruct (isspace c).
  - intros H. apply andb_true_iff in H as [H1 H2]. rewrite H1. now apply IH.
  - apply IH.
Qed.

Lemma append_dots_spaced (s : string) (b : bool) :
  spaced_from b s = true -> spaced_from b (s ++ "...") = true.
Proof.
  revert b; induction s as [|c s IH]; intros b.
  - now destruct b.
  - cbn [append spaced_from]. destruct (isspace c).
    + intros H. apply andb_true_iff in H as [H1 H2]. rewrite H1. now apply IH.
    + apply IH.
Qed.

Lemma substring_length (n : nat) (s : string) :
  (String.length (String.substring 0 n s) <= n)%nat.
Proof.
  revert s; induction n as [|n IH]; intros [|c s]; cbn; try lia.
  specialize (IH s). lia.
Qed.

Lemma substring_starts (n : nat) (s : string) :
  starts_with_space s = false ->
  starts_with_space (String.substring 0 n s) = false.
Proof. destruct n, s; try reflexivity. cbn. tauto. Qed.

Lemma append_starts (a b : string) :
  starts_with_space a = false -> starts_with_space b = false ->
  starts_with_space (a ++ b) = false.
Proof. destruct a; cbn; tauto. Qed.

(** ** The extractor *)

Lemma clean_text_normal (content : string) :
  Z.of_nat (String.length (clean_text content)) <= 5003
  /\ strip (clean_text content) = clean_text content
  /\ single_spaced (clean_text content) = true.
Proof.
  unfold clean_text.
  set (cleaned := strip (collapse_spaces (strip_tags content))).
  assert (Hs : single_spaced cleaned = true).
  { unfold cleaned, strip, single_spaced.
    apply rstrip_spaced. eapply lstrip_spaced. apply collapse_spaced. }
  assert (Hst : starts_with_space cleaned = false) by apply strip_starts.
  assert (H5 : Z.of_nat 5000 = 5000) by reflexivity.
  destruct (5000 <? String.length cleaned)%nat eqn:E.
  - unfold slice_to. split; [|split].
    + rewrite length_append. pose proof (substring_length 5000 cleaned).
      change (String.length "...") with 3%nat. lia.
    + unfold strip. rewrite lstrip_fixed.
      * rewrite rstrip_app; [reflexivity | discriminate].
      * apply append_starts; [now apply substring_starts | reflexivity].
    + apply append_dots_spaced. now apply substring_spaced.
  - apply Nat.ltb_ge in E. split; [lia|]. split; [|exact Hs].
    apply strip_projection.
Qed.

Section Extractor.

Variable str_exn : exn -> string.
Variable urlparse : string -> string * string.
Variable requests_get : string -> result string.

Local Abbreviation process := (process_content str_exn urlparse requests_get).
Local Abbreviation extract := (extract_text_from_url str_exn urlparse requests_get).

Lemma extract_invalid (u : string) :
  fst (urlparse u) = "" \/ snd (urlparse u) = "" ->
  extract u = ([], Raise invalid_url).
Proof.
  intros H. unfold extract_text_from_url.
  replace (negb (truthy (fst (urlparse u)))
           || negb (truthy (snd (urlparse u)))) with true; [reflexivity|].
  symmetry. destruct H as [-> | ->]; [reflexivity | apply orb_true_r].
Qed.

Lemma extract_valid (u : string) :
  fst (urlparse u) <> "" -> snd (urlparse u) <> "" ->
  extract u =
    match requests_get u with
    | Return content => ([HttpGet u], Return (clean_text content))
    | Raise e =>
        ([HttpGet u],
         Raise (HTTPException 400
                  ("Failed to extract content from URL: " ++ str str_exn e)))
    end.
Proof.
  intros H1 H2. apply truthy_true in H1, H2.
  unfold extract_text_from_url. rewrite H1, H2. cbn [negb orb].
  destruct (requests_get u); reflexivity.
Qed.

(** X1: a URL without a scheme or without a host is refused before any
    request is made: the extractor, and the pipeline on a request of
    type "url" for it, raise HTTP 400 "Failed to extract content from
    URL: Invalid URL format" with no event. *)
Theorem X1_invalid_url_makes_no_request (u : string) :
  fst (urlparse u) = "" \/ snd (urlparse u) = "" ->
  extract u = ([], Raise invalid_url)
  /\ (u <> "" ->
      forall text,
        process {| text := text; url := u; source_type := "url" |}
        = ([], Raise invalid_url)).
Proof.
  intros H. split; [now apply extract_invalid|].
  intros Hne text. unfold process_content, process_body. cbn.
  apply truthy_true in Hne. rewrite Hne, (extract_invalid _ H). reflexivity.
Qed.

(** X2: the extractor makes one request at most, to the URL it was
    given, and lets nothing out but an HTTP 400 whose detail starts with
    "Failed to extract content from URL: "; when it returns, it has made
    that request. *)
Theorem X2_extract_outcomes (u : string) :
  (fst (extract u) = [] \/ fst (extract u) = [HttpGet u])
  /\ match snd (extract u) with
     | Return txt =>
         fst (extract u) = [HttpGet u]
         /\ exists content,
              requests_get u = Return content /\ txt = clean_text content
     | Raise e =>
         exists msg,
           e = HTTPException 400
                 ("Failed to extract content from URL: " ++ msg)
     end.
Proof.
  destruct (string_dec (fst (urlparse u)) "") as [H1|H1].
  { assert (E : extract u = ([], Raise invalid_url))
      by (apply extract_invalid; auto).
    rewrite E. split; [now left|]. now exists "Invalid URL format". }
  destruct (string_dec (snd (urlparse u)) "") as [H2|H2].
  { assert (E : extract u = ([], Raise invalid_url))
      by (apply extract_invalid; auto).
    rewrite E. split; [now left|]. now exists "Invalid URL format". }
  rewrite (extract_valid _ H1 H2).
  destruct (requests_get u) as [content|e]; (split; [now right|]); cbn.
  - split; [reflexivity|]. now exists content.
  - now exists (str str_exn e).
Qed.

Lemma extract_returns (u : string) (t : list event) (txt : string) :
  extract u = (t, Return txt) ->
  t = [HttpGet u]
  /\ exists content, requests_get u = Return content /\ txt = clean_text content.
Proof.
  destruct (string_dec (fst (urlparse u)) "") as [H1|H1].
  { assert (E : extract u = ([], Raise invalid_url))
      by (apply extract_invalid; auto).
    rewrite E. discriminate. }
  destruct (string_dec (snd (urlparse u)) "") as [H2|H2].
  { assert (E : extract u = ([], Raise invalid_url))
      by (apply extract_invalid; auto).
    rewrite E. discriminate. }
  rewrite (extract_valid _ H1 H2).
  destruct (requests_get u) as [content|e]; [|discriminate].
  intros H; injection H as <- <-. eauto.
Qed.

(** X3: the text that the extractor returns is at most 5003 characters
    long, is trimmed, and holds white space only as single spaces. *)
Theorem X3_extracted_text_normal (u : string) (t : list event)
    (txt : string) :
  extract u = (t, Return txt) ->
  Z.of_nat (String.length txt) <= 5003
  /\ strip txt = txt
  /\ single_spaced txt = true.
Proof.
  intros H. apply extract_returns in H as (_ & content & _ & ->).
  apply clean_text_normal.
Qed.

End Extractor.

(** X4: a '<', one or more characters other than '>', and the next '>'
    are replaced by one space, the text before them being kept when it
    holds no '<'; this also eats what lies between two comparison
    signs; and a text with no '>' is left as it is. *)
Theorem X4_tags_become_spaces (a body rest : string) :
  has_lt a = false -> body <> "" -> has_gt body = false ->
  strip_tags (a ++ String "<" (body ++ String ">" rest))
  = a ++ String " " (strip_tags rest)
  /\ strip_tags "1 < 2 and 3 > 2" = "1   2"
  /\ (has_gt rest = false -> strip_tags rest = rest).
Proof.
  intros Ha Hne Hb. split; [now apply strip_tags_tag|].
  split; [reflexivity | apply strip_tags_unclosed].
Qed.

(** X1 on a URL without a scheme. *)
Lemma X1_witness :
  extract_text_from_url sample_str no_scheme page_get "not-a-url"
  = ([], Raise invalid_url).
Proof.
  apply (proj1 (X1_invalid_url_makes_no_request sample_str no_scheme
                  page_get "not-a-url" (or_introl eq_refl))).
Defined.

(** X3 on the sample page. *)
Lemma X3_witness :
  strip "Notes Python and SQL" = "Notes Python and SQL".
Proof.
  apply (proj1 (proj2 (X3_extracted_text_normal sample_str sample_urlparse
                         page_get "http://example.org"
                         (t := [HttpGet "http://example.org"])
                         (txt := "Notes Python and SQL") eq_refl))).
Defined.

(** X4 on a paragraph. *)
Lemma X4_witness :
  strip_tags "Hello <b>world</b>" = "Hello  world ".
Proof.
  apply (proj1 (@X4_tags_become_spaces "Hello " "b" "world</b>"
                  eq_refl ltac:(discriminate) eq_refl)).
Defined.

End CleaningSpec.

(* ================================================================== *)
(** * The analysis engine, beyond its three outputs *)
(* ================================================================== *)

Module AnalysisFacts.
Import Py TextTerms PyFacts Processing AnalysisTerms AnalysisSpec.
Import SummaryTerms WordFacts.

Lemma split_from_space (cur rest : string) :
  truthy cur = true ->
  split_from cur (String " " rest) = cur :: split_from "" rest.
Proof. intros H. cbn [split_from]. now rewrite H. Qed.

(** Words joined by single spaces, then a tail without white space,
    split into the same words, the last one carrying the tail. *)
Lemma split_join_tail (w : string) (ws : list string) (tail : string) :
  Forall (fun x => truthy x = true /\ no_space x = true) (w :: ws) ->
  no_space tail = true ->
  split (join " " (w :: ws) ++ tail) = glue_last (w :: ws) tail.
Proof.
  unfold split, join. revert w; induction ws as [|w' ws IH]; intros w Hall Ht;
    inversion Hall as [|? ? [Hw1 Hw2] Hrest]; subst.
  - cbn [String.concat glue_last].
    rewrite split_from_word by assumption. cbn [append].
    rewrite split_from_no_space by assumption.
    replace (truthy (w ++ tail)) with true; [reflexivity|].
    destruct w; [discriminate Hw1 | reflexivity].
  - change (String.concat " " (w :: w' :: ws))
      with (w ++ " " ++ String.concat " " (w' :: ws)).
    rewrite !append_assoc, split_from_word by assumption. cbn [append].
    rewrite split_from_space by assumption.
    rewrite IH by assumption. reflexivity.
Qed.

Lemma glue_last_length (ws : list string) (tail : string) :
  List.length (glue_last ws tail) = List.length ws.
Proof.
  induction ws as [|w [|w' ws] IH]; try reflexivity.
  change (glue_last (w :: w' :: ws) tail)
    with (w :: glue_last (w' :: ws) tail).
  cbn [List.length] in *. now rewrite IH.
Qed.

Lemma kept_words_bounds (text : string) :
  (List.length (kept_words text) <= 50)%nat
  /\ (3 * List.length (kept_words text) <= List.length (split text))%nat.
Proof.
  unfold kept_words. rewrite length_firstn.
  pose proof (Nat.Div0.mul_div_le (List.length (split text)) 3).
  split; lia.
Qed.

Lemma mock_summary_split (text : string) :
  split (mock_summary text) =
    match split text, kept_words text with
    | [], _ => []
    | _ :: _, [] => ["..."]
    | _ :: _, kept => glue_last kept "..."
    end.
Proof.
  rewrite mock_summary_kept.
  destruct (list_eq_dec string_dec (kept_words text) (split text))
    as [E|E].
  - apply kept_words_all in E as E'. rewrite E'.
    rewrite E' in E. now rewrite E.
  - destruct (split text) as [|w0 ws0] eqn:Ew.
    + elim E. unfold kept_words. rewrite Ew. now destruct (Nat.min _ _).
    + destruct (kept_words text) as [|k ks] eqn:Ek; [reflexivity|].
      apply split_join_tail; [|reflexivity].
      rewrite <- Ek. unfold kept_words.
      apply Forall_forall. intros x Hx. apply StoreSpec.In_firstn in Hx.
      now apply (proj1 (Forall_forall _ _) (split_words text)).
Qed.

Lemma mock_summary_word_count (text : string) :
  (List.length (split (mock_summary text)) <= 50)%nat.
Proof.
  pose proof (kept_words_bounds text) as [H50 _].
  rewrite mock_summary_split. destruct (split text); [cbn; lia|].
  destruct (kept_words text) eqn:Ek; [cbn; lia|].
  now rewrite glue_last_length.
Qed.

(** A text with a word always gets the ellipsis. *)
Lemma mock_summary_ellipsis (text : string) :
  split text <> [] ->
  mock_summary text = join " " (kept_words text) ++ "...".
Proof.
  intros H. rewrite mock_summary_kept.
  destruct (list_eq_dec string_dec (kept_words text) (split text))
    as [E|E]; [|reflexivity].
  now apply kept_words_all in E.
Qed.

Lemma mock_tags_nonempty (text : string) : mock_tags text <> [].
Proof.
  rewrite mock_tags_buckets. unfold bucket_tags.
  destruct (filter (bucket_matches text) buckets); discriminate.
Qed.

(** X7: read again as words, the summary is the kept words with "..."
    stuck to the last of them, the single word "..." when words exist
    but none is kept, and nothing for a text without words: any text
    with a word gets the ellipsis.  The summary never has more than 50
    words, and keeps at most a third of the words of the text. *)
Theorem X7_summary_words (text : string) :
  split (analyze text).(AiResult.summary) =
    match split text, kept_words text with
    | [], _ => []
    | _ :: _, [] => ["..."]
    | _ :: _, kept => glue_last kept "..."
    end
  /\ (List.length (split (analyze text).(AiResult.summary)) <= 50)%nat
  /\ (3 * List.length (kept_words text) <= List.length (split text))%nat.
Proof.
  cbn [AiResult.summary analyze].
  split; [apply mock_summary_split|].
  split; [apply mock_summary_word_count | apply kept_words_bounds].
Qed.






End AnalysisFacts.

(* ================================================================== *)
(** * The orchestrator, beyond its validations *)
(* ================================================================== *)

Module OrchestratorSpec.
Import Py TextTerms PyFacts Processing ProcessingTerms CleaningTerms.
Import ProcessingSpec CleaningSpec AnalysisTerms AnalysisSpec.
Import WordTerms WordFacts.

Section Outcomes.

Variable str_exn : exn -> string.
Variable urlparse : string -> string * string.
Variable requests_get : string -> result string.

Local Abbreviation process := (process_content str_exn urlparse requests_get).
Local Abbreviation extract := (extract_text_from_url str_exn urlparse requests_get).
Local Abbreviation extracted := (extracted str_exn urlparse requests_get).

(** The three ways through [process_content]. *)
Lemma process_cases (req : ProcessingRequest) :
  process req = ([], Raise NoContent)
  \/ (exists t e msg,
        req.(source_type) = "url" /\ req.(url) <> ""
        /\ extract req.(url) = (t, Raise e)
        /\ e = HTTPException 400
                 ("Failed to extract content from URL: " ++ msg)
        /\ process req = (t, Raise e))
  \/ (exists t txt,
        extracted req t txt
        /\ process req =
             if (String.length (strip txt) <? 10)%nat
             then (t, Raise ContentTooShort)
             else ((t ++ [Sleep])%list, Return (success_of txt))).
Proof.
  destruct ((req.(source_type) =? "url")%string && truthy req.(url)) eqn:Eu.
  - apply andb_true_iff in Eu as [Es Ev].
    apply String.eqb_eq in Es. apply truthy_true in Ev.
    destruct (extract req.(url)) as [t [txt|e]] eqn:He.
    + right; right. exists t, txt.
      assert (Hx : extracted req t txt) by (right; auto).
      split; [exact Hx | now apply process_extracted].
    + right; left. destruct (extract_raises _ _ _ _ He) as [msg Hm].
      exists t, e, msg. repeat split; auto.
      now apply process_extract_fails.
  - destruct ((req.(source_type) =? "text")%string && truthy req.(text))
      eqn:Et.
    + apply andb_true_iff in Et as [Es Ev].
      apply String.eqb_eq in Es. apply truthy_true in Ev.
      right; right. exists [], req.(text).
      assert (Hx : extracted req [] req.(text)) by (left; auto).
      split; [exact Hx | now apply process_extracted].
    + left. now apply process_rejects.
Qed.

Lemma extracted_trace (req : ProcessingRequest) (t : list event)
    (txt : string) :
  extracted req t txt ->
  t = [] \/ (t = [HttpGet req.(url)] /\ req.(source_type) = "url").
Proof.
  intros [(_ & _ & -> & _) | (Hs & _ & He)]; [now left|].
  apply extract_returns in He as [-> _]. now right.
Qed.

(** X5: [process_content] returns nothing but a success (status
    "success", empty error, the analysis of the extracted text), and
    raises nothing but an HTTP 400; the analysis has run exactly when
    it returns, and then it ran last. *)
Theorem X5_process_outcomes (req : ProcessingRequest) :
  match snd (process req) with
  | Return resp =>
      resp.(status) = "success" /\ resp.(error) = ""
      /\ exists t txt,
           extracted req t txt
           /\ (10 <= String.length (strip txt))%nat
           /\ resp = success_of txt
           /\ fst (process req) = (t ++ [Sleep])%list
           /\ ~ In Sleep t
  | Raise e =>
      (exists detail, e = HTTPException 400 detail)
      /\ ~ In Sleep (fst (process req))
  end.
Proof.
  destruct (process_cases req)
    as [H | [(t & e & msg & _ & _ & He & -> & H) | (t & txt & Hx & H)]].
  - rewrite H. cbn. split; [now eexists | tauto].
  - rewrite H. cbn. split; [now eexists|].
    assert (Ht : t = [] \/ t = [HttpGet req.(url)]).
    { destruct (string_dec (fst (urlparse req.(url))) "") as [H1|H1].
      { rewrite extract_invalid in He by auto. injection He as <- _. auto. }
      destruct (string_dec (snd (urlparse req.(url))) "") as [H2|H2].
      { rewrite extract_invalid in He by auto. injection He as <- _. auto. }
      rewrite (extract_valid _ _ _ _ H1 H2) in He.
      destruct (requests_get req.(url)); injection He as <- _; auto. }
    destruct Ht as [-> | ->]; cbn; intuition discriminate.
  - rewrite H. pose proof (extracted_trace Hx) as Ht.
    destruct (String.length (strip txt) <? 10)%nat eqn:E; cbn.
    + split; [now eexists|].
      destruct Ht as [-> | [-> _]]; cbn; intuition discriminate.
    + apply Nat.ltb_ge in E. repeat split.
      exists t, txt. repeat split; auto.
      destruct Ht as [-> | [-> _]]; cbn; intuition discriminate.
Qed.

(** X6: the pipeline makes a request only for a request of type "url"
    whose URL is not empty and has a scheme and a host, only to that
    URL, and only before anything else it does. *)
Theorem X6_network_only_for_urls (req : ProcessingRequest) (u : string) :
  In (HttpGet u) (fst (process req)) ->
  req.(source_type) = "url" /\ u = req.(url) /\ req.(url) <> ""
  /\ fst (urlparse u) <> "" /\ snd (urlparse u) <> ""
  /\ exists rest, fst (process req) = HttpGet u :: rest
                  /\ ~ In (HttpGet u) rest.
Proof.
  assert (Hx : forall t r,
             req.(source_type) = "url" -> req.(url) <> "" ->
             extract req.(url) = (t, r) ->
             In (HttpGet u) t ->
             u = req.(url) /\ fst (urlparse u) <> ""
             /\ snd (urlparse u) <> "" /\ t = [HttpGet u]).
  { intros t r _ _ He Hin.
    destruct (string_dec (fst (urlparse req.(url))) "") as [H1|H1].
    { rewrite extract_invalid in He by auto. injection He as <- _.
      destruct Hin. }
    destruct (string_dec (snd (urlparse req.(url))) "") as [H2|H2].
    { rewrite extract_invalid in He by auto. injection He as <- _.
      destruct Hin. }
    rewrite (extract_valid _ _ _ _ H1 H2) in He.
    assert (Ht : t = [HttpGet req.(url)])
      by (destruct (requests_get req.(url)); now injection He as <- _).
    subst t. destruct Hin as [E|[]]. injection E as E. subst u. auto. }
  destruct (process_cases req)
    as [H | [(t & e & msg & Hs & Hv & He & -> & H) | (t & txt & Hxt & H)]];
    rewrite H; cbn [fst].
  - intros [].
  - intros Hin. destruct (Hx _ _ Hs Hv He Hin) as (-> & H1 & H2 & ->).
    repeat split; auto. exists []. split; [reflexivity | tauto].
  - assert (Hin' : In (HttpGet u) t ->
                   req.(source_type) = "url" /\ req.(url) <> ""
                   /\ u = req.(url) /\ fst (urlparse u) <> ""
                   /\ snd (urlparse u) <> "" /\ t = [HttpGet u]).
    { destruct Hxt as [(_ & _ & -> & _) | (Hs & Hv & He)]; [intros []|].
      intros Hin. destruct (Hx _ _ Hs Hv He Hin) as (-> & H1 & H2 & ->).
      repeat split; auto. }
    destruct (String.length (strip txt) <? 10)%nat; cbn [fst].
    + intros Hin. destruct (Hin' Hin) as (Hs & Hv & -> & H1 & H2 & ->).
      repeat split; auto. exists []. split; [reflexivity | tauto].
    + intros Hin. apply in_app_or in Hin as [Hin | [E|[]]];
        [|discriminate E].
      destruct (Hin' Hin) as (Hs & Hv & -> & H1 & H2 & ->).
      repeat split; auto. exists [Sleep]. split; [reflexivity|].
      cbn. intuition discriminate.
Qed.

(** X9: a response that [process_content] returns is about the text
    of the request, or the text extracted from its URL: it has at least
    one tag, a summary of at most 50 words that ends with "...", and a
    narrative that is the template with these tags, one of the four
    topic clauses, and the decimal numeral of the number of words of
    that text, however the text is written out as words and gaps; and
    that text has a word. *)
Theorem X9_response_content (req : ProcessingRequest) (t : list event)
    (resp : ProcessingResponse) :
  process req = (t, Return resp) ->
  exists t' txt,
    extracted req t' txt /\ t = (t' ++ [Sleep])%list
    /\ resp.(tags) <> []
    /\ (exists kept, resp.(summary) = join " " kept ++ "...")
    /\ (List.length (split resp.(summary)) <= 50)%nat
    /\ (exists digits clause,
          resp.(analysis) =
            "This content appears to be about "
            ++ lower (join ", " resp.(tags))
            ++ ". The text contains approximately " ++ digits
            ++ " words and covers " ++ clause
          /\ In clause
               ["artificial intelligence concepts and applications.";
                "software development practices and methodologies.";
                "database design and management principles.";
                "general knowledge and information."]
          /\ forall lead pieces,
               txt = layout lead pieces ->
               all_space lead = true -> well_spaced pieces ->
               pieces <> [] /\ decimal (List.length pieces) digits).
Proof.
  intros H.
  destruct (process_cases req)
    as [H0 | [(t0 & e & msg & _ & _ & _ & _ & H0) | (t0 & txt & Hx & H0)]];
    rewrite H0 in H; try discriminate.
  destruct (String.length (strip txt) <? 10)%nat eqn:E; [discriminate|].
  injection H as <- <-. apply Nat.ltb_ge in E.
  assert (Hw : split txt <> []).
  { intros Hn. apply (proj2 (proj2 (proj2 (strip_projection txt)))) in Hn.
    rewrite Hn in E. cbn in E. lia. }
  exists t0, txt. split; [exact Hx|]. split; [reflexivity|].
  cbn [tags summary analysis success_of].
  split; [apply AnalysisFacts.mock_tags_nonempty|].
  split; [exists (kept_words txt);
          now apply AnalysisFacts.mock_summary_ellipsis|].
  split; [apply AnalysisFacts.mock_summary_word_count|].
  exists (str_of_nat (List.length (split txt))), (topic_clause txt).
  split; [apply mock_analysis_narrative|]. split.
  - rewrite topic_clause_tests.
    destruct (contains "ai" (lower txt)
              || contains "artificial intelligence" (lower txt));
      [cbn; auto|].
    destruct (contains "development" (lower txt)
              || contains "programming" (lower txt)); [cbn; auto|].
    destruct (contains "database" (lower txt)); cbn; auto.
  - intros lead pieces -> Hl Hp.
    rewrite (split_layout lead pieces Hl Hp) in *.
    rewrite length_map. split; [|apply str_of_nat_decimal].
    intros ->. now elim Hw.
Qed.

End Outcomes.

(** X6 on the sample page. *)
Lemma X6_witness :
  "url" = "url" /\ "http://example.org" = "http://example.org"
  /\ "http://example.org" <> "" /\ "http" <> "" /\ "example.org" <> ""
  /\ exists rest,
       fst (process_content sample_str sample_urlparse page_get
              {| text := ""; url := "http://example.org";
                 source_type := "url" |})
       = HttpGet "http://example.org" :: rest
       /\ ~ In (HttpGet "http://example.org") rest.
Proof.
  apply (@X6_network_only_for_urls sample_str sample_urlparse page_get
           {| text := ""; url := "http://example.org";
              source_type := "url" |} "http://example.org").
  vm_compute. auto.
Defined.

(** X9 on a text long enough to be analysed: five words. *)
Lemma X9_witness :
  exists digits clause,
    (success_of "Notes on Python and SQL").(analysis) =
      "This content appears to be about development, database. The text contains approximately "
      ++ digits ++ " words and covers " ++ clause
    /\ decimal 5 digits.
Proof.
  destruct (@X9_response_content sample_str sample_urlparse page_get
              {| text := "Notes on Python and SQL"; url := "";
                 source_type := "text" |} [Sleep] _ eq_refl)
    as (t' & txt & Hx & _ & _ & _ & _ & digits & clause & Ha & _ & Hd).
  destruct Hx as [(_ & _ & _ & ->) | (Hs & _)]; [|discriminate Hs].
  exists digits, clause. split; [exact Ha|].
  apply (Hd "" [ ("Notes", " "); ("on", " "); ("Python", " ");
                 ("and", " "); ("SQL", "") ] eq_refl eq_refl).
  cbn [well_spaced]. repeat split; try discriminate.
  intros H; now elim H.
Defined.

End OrchestratorSpec.

(* ================================================================== *)
(** * The store, operation by operation *)
(* ================================================================== *)

Module StoreFacts.
Import Py PyFacts Json JsonFacts Database StoreTerms StoreSpec UpdateTerms.

(** ** Creation *)

Lemma create_cases (db : table) (now : Z)
    (title content source_type : string) (source_url : option string)
    (tags : option (list string)) (summary ai_analysis : option string) :
  (check_source_type source_type = false
   /\ create_knowledge_item db now title content source_type source_url
        tags summary ai_analysis = (db, Raise IntegrityError))
  \/ (check_source_type source_type = true
      /\ sqlite_int (next_rowid db) = false
      /\ create_knowledge_item db now title content source_type source_url
           tags summary ai_analysis = (db, Raise OperationalError))
  \/ (check_source_type source_type = true
      /\ sqlite_int (next_rowid db) = true
      /\ exists r : row,
           create_knowledge_item db now title content source_type
             source_url tags summary ai_analysis
           = ((db ++ [r])%list, Return (next_rowid db))
           /\ r.(id) = next_rowid db /\ r.(is_active) = true
           /\ r.(created_at) = now /\ r.(updated_at) = now).
Proof.
  unfold create_knowledge_item.
  destruct (check_source_type source_type); cbn [negb]; [|now left].
  destruct (sqlite_int (next_rowid db)); cbn [negb].
  - right; right. repeat split. eexists. split; [reflexivity|].
    now repeat split.
  - right; left. auto.
Qed.


Lemma find_app_miss (p : row -> bool) (db : table) (r : row) :
  p r = false -> find p (db ++ [r]) = find p db.
Proof.
  intros Hr. induction db as [|x db IH]; cbn [app find]; [now rewrite Hr|].
  destruct (p x); [reflexivity | exact IH].
Qed.

(** X11: a creation changes the answer of no read of another id. *)
Theorem X11_create_keeps_other_items (db db' : table) (now item_id j : Z)
    (title content source_type : string) (source_url : option string)
    (tags : option (list string)) (summary ai_analysis : option string) :
  create_knowledge_item db now title content source_type source_url
    tags summary ai_analysis = (db', Return item_id) ->
  j <> item_id ->
  get_knowledge_item db' j = get_knowledge_item db j.
Proof.
  intros H Hj.
  destruct (create_cases db now title content source_type source_url tags
              summary ai_analysis)
    as [[_ E] | [(_ & _ & E) | (_ & _ & r & E & Hid & _)]];
    rewrite E in H; try discriminate.
  injection H as <- <-. unfold get_knowledge_item.
  destruct (negb (sqlite_int j)); [reflexivity|].
  rewrite find_app_miss; [reflexivity|].
  unfold active_with_id. rewrite Hid.
  replace (next_rowid db =? j) with false; [reflexivity|].
  symmetry. apply Z.eqb_neq. congruence.
Qed.

(** ** Updates *)

Lemma is_updatable_cases (k : string) :
  is_updatable k = true ->
  k = "title" \/ k = "content" \/ k = "source_url" \/ k = "tags"
  \/ k = "summary" \/ k = "ai_analysis".
Proof.
  unfold is_updatable, updatable. intros H.
  apply existsb_exists in H as (x & Hx & E). apply String.eqb_eq in E.
  subst x. cbn in Hx.
  repeat (destruct Hx as [Hx|Hx]; [subst k; tauto|]). destruct Hx.
Qed.

(** An assignment that succeeds has written its value. *)
Lemma assign_writes (key : string) (v : option string) (r r' : row) :
  is_updatable key = true -> assign key v r = Return r' ->
  column key r' = Some v.
Proof.
  intros Hk. apply is_updatable_cases in Hk.
  destruct Hk as [->|[->|[->|[->|[->| ->]]]]]; cbn [assign String.eqb];
    cbn; try (destruct v; [|discriminate]);
    intros H; injection H as <-; reflexivity.
Qed.

Lemma assign_all_writes (bound : list (string * option string))
    (r r' : row) :
  NoDup (map fst bound) ->
  Forall (fun kb => is_updatable (fst kb) = true) bound ->
  assign_all bound r = Return r' ->
  forall k b, In (k, b) bound -> column k r' = Some b.
Proof.
  revert r; induction bound as [|[k0 b0] bound IH]; intros r Hnd Hup Ha k b;
    [intros []|].
  cbn [assign_all] in Ha. unfold rbind in Ha.
  destruct (assign k0 b0 r) as [r1|e] eqn:E1; [|discriminate].
  inversion Hnd as [|? ? Hnotin Hnd']; subst.
  inversion Hup as [|? ? Hk0 Hup']; subst. cbn [fst] in Hk0.
  intros [E|Hin].
  - injection E as <- <-.
    destruct (assign_all_frame _ _ Ha) as (_ & _ & Hc).
    rewrite (Hc k0 Hnotin). now apply assign_writes with r.
  - now apply (IH r1).
Qed.

Lemma bind_params_In (sets : kwargs)
    (bound : list (string * option string)) :
  bind_params sets = Return bound ->
  forall k v, In (k, v) sets ->
  exists b, bind_param v = Return b /\ In (k, b) bound.
Proof.
  revert bound; induction sets as [|[k0 v0] sets IH]; intros bound H k v;
    [intros []|].
  cbn [bind_params] in H. unfold rbind in H.
  destruct (bind_param v0) as [b0|] eqn:E0; [|discriminate].
  destruct (bind_params sets) as [bs|] eqn:Es; [|discriminate].
  injection H as <-. intros [E|Hin].
  - injection E as <- <-. exists b0. split; [exact E0 | now left].
  - destruct (IH _ eq_refl _ _ Hin) as (b & Hb & Hin'). exists b.
    split; [exact Hb | now right].
Qed.

Lemma serialize_tags_In (kw : kwargs) (k : string) (v : pyval) :
  In (k, v) kw ->
  exists v', In (k, v') (serialize_tags kw)
             /\ (forall b, bind_param v' = Return b -> b = stored v).
Proof.
  intros Hin. unfold serialize_tags.
  exists (snd (if (k =? "tags")%string
               then match v with
                    | PyList l => (k, PyStr (dumps l))
                    | _ => (k, v)
                    end
               else (k, v))).
  split.
  - apply in_map_iff. exists (k, v). split; [|exact Hin]. cbn [fst snd].
    destruct (k =? "tags")%string; [destruct v|]; reflexivity.
  - destruct (k =? "tags")%string; destruct v; cbn;
      intros b H; try discriminate; now injection H as <-.
Qed.

Lemma set_clauses_distinct (kw : kwargs) :
  NoDup (map fst kw) -> NoDup (map fst (set_clauses kw)).
Proof.
  unfold set_clauses. induction kw as [|[k v] kw IH]; intros H;
    [constructor|].
  inversion H as [|? ? Hk Hrest]; subst. cbn [filter fst].
  destruct (is_updatable k); [|now apply IH].
  cbn [map fst]. constructor; [|now apply IH].
  intros Hin. apply Hk. now apply (set_clauses_keys kw).
Qed.

Lemma set_clauses_updatable (kw : kwargs) :
  Forall (fun kv => is_updatable (fst kv) = true) (set_clauses kw).
Proof.
  apply Forall_forall. intros kv H. now apply filter_In in H.
Qed.

(** What a successful update leaves of the statement it ran. *)
Lemma update_true_inv (db db' : table) (now item_id : Z) (kw : kwargs) :
  update_knowledge_item db now item_id kw = (db', Return true) ->
  sqlite_int item_id = true
  /\ exists bound n,
       bind_params (set_clauses (serialize_tags kw)) = Return bound
       /\ sql_update (active_with_id item_id)
            (fun r =>
               (r' <- assign_all bound r ;;
                Return (set_updated_at now r'))%result) db
          = Return (db', n)
       /\ (0 < n)%nat.
Proof.
  rewrite update_unfold. unfold update_with.
  destruct (set_clauses (serialize_tags kw)) as [|kv sets];
    [discriminate|].
  destruct (bind_params (kv :: sets)) as [bound|e] eqn:Hb; [|discriminate].
  destruct (sqlite_int item_id); cbn [negb]; [|discriminate].
  match goal with
  | |- context [sql_update ?w ?f db] =>
      destruct (sql_update w f db) as [[db1 n]|e] eqn:Hu
  end; [|discriminate].
  intros H. injection H as <- Hn. split; [reflexivity|].
  exists bound, n. split; [reflexivity|]. split; [exact Hu|].
  now apply Nat.ltb_lt.
Qed.

(** The first active row of an id, before and after a statement that
    keeps ids and activity. *)
Lemma find_after (item_id : Z) (R : row -> row -> Prop) (db db' : table) :
  Forall2 R db db' ->
  (forall r r', R r r' -> active_with_id item_id r' = active_with_id item_id r) ->
  forall r, find (active_with_id item_id) db = Some r ->
  exists r', find (active_with_id item_id) db' = Some r' /\ R r r'.
Proof.
  intros F HR. induction F as [|x x' db db' Hx _ IH]; intros r;
    cbn [find]; [discriminate|].
  rewrite (HR _ _ Hx). destruct (active_with_id item_id x).
  - intros E; injection E as <-. eauto.
  - apply IH.
Qed.

Lemma filter_find (p : row -> bool) (db : table) :
  (0 < List.length (filter p db))%nat -> exists r, find p db = Some r.
Proof.
  induction db as [|x db IH]; cbn [filter find]; [cbn; lia|].
  destruct (p x); eauto.
Qed.

(** X12: after an update that answered true, with no key given twice,
    the active row of that id holds, in every column that the call
    named among the six, the value given (a list of tags as its JSON
    text), and the time of the call in updated_at; and the tags given,
    even an empty list, are read back as given. *)
Theorem X12_update_then_read (db db' : table) (now item_id : Z)
    (kw : kwargs) :
  update_knowledge_item db now item_id kw = (db', Return true) ->
  NoDup (map fst kw) ->
  exists r' : row,
    find (active_with_id item_id) db' = Some r'
    /\ r'.(updated_at) = now
    /\ (forall k v, In (k, v) kw -> is_updatable k = true ->
                    column k r' = Some (stored v))
    /\ (forall l, In ("tags", PyList l) kw ->
                  exists i : item,
                    get_knowledge_item db' item_id = Return (Some i)
                    /\ i.(tags) = PyList l).
Proof.
  intros H Hnd.
  apply update_true_inv in H as (Hi & bound & n & Hb & Hu & Hn).
  apply sql_update_rows in Hu as [F ->].
  destruct (filter_find _ _ Hn) as [r Hr].
  set (R := fun r r' : row =>
              if active_with_id item_id r
              then (x <- assign_all bound r ;;
                    Return (set_updated_at now x))%result = Return r'
              else r' = r) in F.
  assert (HR : forall r r', R r r' ->
                 active_with_id item_id r' = active_with_id item_id r).
  { intros x x'. unfold R. destruct (active_with_id item_id x) eqn:Ex.
    - unfold rbind. destruct (assign_all bound x) as [x1|] eqn:Ea;
        [|discriminate].
      intros E; injection E as <-.
      apply assign_all_frame in Ea as ((A1 & _ & _ & A4) & _).
      unfold active_with_id in *. cbn. now rewrite A1, A4.
    - now intros ->. }
  destruct (@find_after item_id R db db' F HR r Hr) as (r' & Hr' & Hrr).
  exists r'. split; [exact Hr'|].
  apply find_some in Hr as [_ Hact]. unfold R in Hrr. rewrite Hact in Hrr.
  unfold rbind in Hrr.
  destruct (assign_all bound r) as [r1|] eqn:Ea; [|discriminate].
  injection Hrr as <-. split; [reflexivity|].
  assert (Hcol : forall k v, In (k, v) kw -> is_updatable k = true ->
                   column k (set_updated_at now r1) = Some (stored v)).
  { intros k v Hin Hk.
    destruct (serialize_tags_In _ _ _ Hin) as (v' & Hin' & Hv').
    assert (Hs : In (k, v') (set_clauses (serialize_tags kw)))
      by (apply filter_In; auto).
    destruct (bind_params_In _ Hb _ _ Hs) as (b & Hbv & Hinb).
    rewrite <- (Hv' b Hbv).
    change (column k (set_updated_at now r1)) with (column k r1).
    eapply assign_all_writes; [| |exact Ea|exact Hinb].
    - rewrite (bind_params_keys _ Hb), set_clauses_serialize,
        serialize_tags_keys. now apply set_clauses_distinct.
    - apply Forall_forall. intros [k1 b1] Hin1.
      assert (Hk1 : In k1 (map fst bound))
        by (apply in_map_iff; exists (k1, b1); auto).
      rewrite (bind_params_keys _ Hb) in Hk1.
      apply in_map_iff in Hk1 as ([k2 v2] & E & Hin2). cbn in E. subst k2.
      now apply filter_In in Hin2. }
  split; [exact Hcol|].
  intros l Hl. specialize (Hcol _ _ Hl eq_refl).
  change (Some (tags r1) = Some (Some (dumps l))) in Hcol.
  injection Hcol as Ht.
  unfold get_knowledge_item. rewrite Hi. cbn [negb]. rewrite Hr'.
  unfold dict_of_row. cbn [tags set_updated_at].
  rewrite Ht, dumps_truthy, loads_dumps. cbn [rbind]. eauto.
Qed.

Lemma typed_binds (kw : kwargs) :
  typed_update kw ->
  exists bound,
    bind_params (set_clauses (serialize_tags kw)) = Return bound
    /\ Forall (fun kb : string * option string => snd kb <> None) bound.
Proof.
  intros H. rewrite set_clauses_serialize.
  induction H as [|[k v] kw Hkv _ (bound & IH & Hnn)].
  { exists []. split; [reflexivity | constructor]. }
  change (set_clauses ((k, v) :: kw))
    with (if is_updatable k then (k, v) :: set_clauses kw
          else set_clauses kw).
  destruct (is_updatable k) eqn:Eu; [|eauto].
  change (serialize_tags ((k, v) :: set_clauses kw))
    with ((if (k =? "tags")%string
           then match v with
                | PyList l => (k, PyStr (dumps l))
                | _ => (k, v)
                end
           else (k, v)) :: serialize_tags (set_clauses kw)).
  cbn [fst snd] in Hkv.
  destruct v as [|s0|l]; [destruct Hkv| |].
  - exists ((k, Some s0) :: bound).
    destruct (k =? "tags")%string; cbn [bind_params bind_param rbind];
      rewrite IH; (split; [reflexivity|]); constructor; auto;
      cbn; discriminate.
  - subst k. exists (("tags", Some (dumps l)) :: bound).
    cbn [String.eqb Ascii.eqb Bool.eqb bind_params bind_param rbind].
    cbn. rewrite IH. split; [reflexivity|]. constructor; auto.
    cbn. discriminate.
Qed.

Lemma assign_total (key : string) (v : option string) (r : row) :
  v <> None -> exists r', assign key v r = Return r'.
Proof.
  intros Hv. destruct v as [s0|]; [|congruence]. unfold assign.
  repeat match goal with
         | |- context [(key =? ?c)%string] => destruct (key =? c)%string
         end; eauto.
Qed.

Lemma assign_all_total (bound : list (string * option string)) (r : row) :
  Forall (fun kb : string * option string => snd kb <> None) bound ->
  exists r', assign_all bound r = Return r'.
Proof.
  intros H; revert r; induction H as [|[k b] bound Hb _ IH]; intros r;
    [now exists r|].
  cbn [assign_all]. cbn [snd] in Hb.
  destruct (assign_total k r Hb) as [r1 E].
  rewrite E. cbn [rbind]. apply IH.
Qed.

Lemma sql_update_returns (where_ : row -> bool) (set_ : row -> result row)
    (db : table) :
  (forall r, exists r', set_ r = Return r') ->
  exists db',
    sql_update where_ set_ db
    = Return (db', List.length (filter where_ db)).
Proof.
  intros Hs. induction db as [|r db [db' IH]]; [now exists []|].
  cbn [sql_update filter]. rewrite IH. destruct (where_ r).
  - destruct (Hs r) as [r' E]. rewrite E. cbn. eauto.
  - cbn. eauto.
Qed.

Lemma filter_existsb (p : row -> bool) (db : table) :
  (0 <? List.length (filter p db))%nat = existsb p db.
Proof.
  induction db as [|r db IH]; [reflexivity|]. cbn [filter existsb].
  destruct (p r); [reflexivity | exact IH].
Qed.

Lemma update_typed_returns (db : table) (now item_id : Z) (kw : kwargs) :
  typed_update kw -> sqlite_int item_id = true ->
  exists db',
    update_knowledge_item db now item_id kw =
      (db', Return (match set_clauses kw with
                    | [] => false
                    | _ => existsb (active_with_id item_id) db
                    end)).
Proof.
  intros Ht Hi. destruct (typed_binds Ht) as (bound & Hb & Hnn).
  rewrite update_unfold. unfold update_with.
  rewrite set_clauses_serialize in *.
  destruct (set_clauses kw) as [|kv sets]; [now exists db|].
  change (serialize_tags (kv :: sets))
    with ((fun kv0 : string * pyval =>
             if (fst kv0 =? "tags")%string
             then match snd kv0 with
                  | PyList l => (fst kv0, PyStr (dumps l))
                  | _ => kv0
                  end
             else kv0) kv :: serialize_tags sets) in *.
  cbv beta in *. rewrite Hb, Hi. cbn [negb].
  destruct (sql_update_returns (active_with_id item_id)
              (fun r => (r' <- assign_all bound r ;;
                         Return (set_updated_at now r'))%result) db)
    as [db' E].
  { intros r. destruct (assign_all_total r Hnn) as [r1 E1].
    rewrite E1. cbn. eauto. }
  rewrite E. exists db'. now rewrite filter_existsb.
Qed.

(** X13: with the values that the update route passes (strings, and a
    list for the tags) and an id that SQLite can hold, an update never
    raises: it answers whether the call names one of the six columns
    and an active row has that id. *)
Theorem X13_update_answer (db : table) (now item_id : Z) (kw : kwargs) :
  typed_update kw -> sqlite_int item_id = true ->
  snd (update_knowledge_item db now item_id kw) =
    Return (match set_clauses kw with
            | [] => false
            | _ => existsb (active_with_id item_id) db
            end).
Proof.
  intros Ht Hi.
  destruct (update_typed_returns db now item_id Ht Hi) as [db' E].
  now rewrite E.
Qed.

Lemma sql_update_untouched (where_ : row -> bool) (set_ : row -> result row)
    (db db' : table) :
  sql_update where_ set_ db = Return (db', O) -> db' = db.
Proof.
  intros H. apply sql_update_rows in H as [F Hn].
  induction F as [|r r' db db' Hr _ IH]; [reflexivity|].
  cbn [filter] in Hn. destruct (where_ r); [discriminate Hn|].
  subst r'. f_equal. now apply IH.
Qed.

Lemma update_untouched (db db' : table) (now item_id : Z) (kw : kwargs)
    (res : result bool) :
  update_knowledge_item db now item_id kw = (db', res) ->
  res <> Return true -> db' = db.
Proof.
  rewrite update_unfold. unfold update_with.
  destruct (set_clauses (serialize_tags kw)); [congruence|].
  destruct (bind_params (p :: k)); [|congruence].
  destruct (negb (sqlite_int item_id)); [congruence|].
  match goal with
  | |- context [sql_update ?w ?f db] =>
      destruct (sql_update w f db) as [[db1 n]|e] eqn:Hu
  end; [|congruence].
  intros H; injection H as <- <-.
  destruct n as [|n]; [|intros H; now elim H].
  intros _. now apply sql_update_untouched in Hu.
Qed.

(** X14: unless an update answers true it leaves the table as it was:
    an update that raises (a null title, a value that cannot be bound,
    an id too large) or that answers false has changed no row. *)
Theorem X14_update_all_or_nothing (db : table) (now item_id : Z)
    (kw : kwargs) :
  snd (update_knowledge_item db now item_id kw) <> Return true ->
  fst (update_knowledge_item db now item_id kw) = db.
Proof.
  destruct (update_knowledge_item db now item_id kw) as [db' res] eqn:E.
  cbn [fst snd]. eapply update_untouched; exact E.
Qed.

(** ** Deletion *)

Lemma deactivate_content (now item_id : Z) (r : row) :
  same_content r (deactivate now item_id r)
  /\ (active_with_id item_id r = true ->
      (deactivate now item_id r).(is_active) = false
      /\ (deactivate now item_id r).(updated_at) = now)
  /\ (active_with_id item_id r = false -> deactivate now item_id r = r).
Proof.
  unfold deactivate, same_content.
  destruct (active_with_id item_id r); cbn; repeat split; congruence.
Qed.

(** X15: a deletion keeps every row, and in every row every column but
    is_active and updated_at: the active row of the id becomes inactive
    with the time of the call in updated_at, every other row is as it
    was; it answers whether there was such a row; and an id too large
    for SQLite raises [OverflowError] and changes nothing. *)
Theorem X15_delete_is_soft (db : table) (now item_id : Z) :
  (sqlite_int item_id = false ->
   delete_knowledge_item db now item_id = (db, Raise OverflowError))
  /\ (sqlite_int item_id = true ->
      exists db',
        delete_knowledge_item db now item_id
        = (db', Return (existsb (active_with_id item_id) db))
        /\ Forall2 (fun r r' =>
                      same_content r r'
                      /\ (active_with_id item_id r = true ->
                          r'.(is_active) = false /\ r'.(updated_at) = now)
                      /\ (active_with_id item_id r = false -> r' = r))
                   db db').
Proof.
  split; intros Hi.
  - unfold delete_knowledge_item. now rewrite Hi.
  - exists (map (deactivate now item_id) db).
    rewrite (delete_unfold _ _ _ Hi), filter_existsb.
    split; [reflexivity|].
    induction db as [|r db IH]; constructor; [|exact IH].
    apply deactivate_content.
Qed.

Lemma find_deactivate (now item_id j : Z) (db : table) :
  j <> item_id ->
  find (active_with_id j) (map (deactivate now item_id) db)
  = find (active_with_id j) db.
Proof.
  intros Hj. induction db as [|r db IH]; [reflexivity|]. cbn [map find].
  rewrite IH. unfold deactivate.
  destruct (active_with_id item_id r) eqn:E; [|reflexivity].
  unfold active_with_id in *. apply andb_true_iff in E as [E _].
  apply Z.eqb_eq in E. cbn. rewrite E.
  replace (item_id =? j) with false; [reflexivity|].
  symmetry. apply Z.eqb_neq. congruence.
Qed.

Lemma filter_deactivate (now item_id : Z) (db : table) :
  filter (fun r : row => r.(is_active)) (map (deactivate now item_id) db)
  = filter (fun r : row => r.(is_active) && negb (r.(id) =? item_id)) db.
Proof.
  induction db as [|r db IH]; [reflexivity|]. cbn [map filter].
  rewrite IH. unfold deactivate, active_with_id.
  destruct (r.(id) =? item_id), (r.(is_active)) eqn:Ea; cbn;
    rewrite ?Ea; reflexivity.
Qed.

(** X16: a deletion changes the answer of no read of another id, and
    (for an id that SQLite can hold) it removes from the active rows the
    rows of its id and no other, the rest staying in their order. *)
Theorem X16_delete_keeps_other_items (db db' : table) (now item_id : Z)
    (res : result bool) :
  delete_knowledge_item db now item_id = (db', res) ->
  (forall j, j <> item_id ->
             get_knowledge_item db' j = get_knowledge_item db j)
  /\ (sqlite_int item_id = true ->
      filter (fun r : row => r.(is_active)) db'
      = filter (fun r : row => r.(is_active) && negb (r.(id) =? item_id)) db).
Proof.
  destruct (sqlite_int item_id) eqn:Hi.
  - rewrite (delete_unfold _ _ _ Hi). intros H; injection H as <- _.
    split; [|intros _; apply filter_deactivate].
    intros j Hj. unfold get_knowledge_item.
    now rewrite find_deactivate.
  - unfold delete_knowledge_item. rewrite Hi. cbn [negb].
    intros H; injection H as <- _. split; [reflexivity | discriminate].
Qed.

(** ** On the sample table *)

(** X11 there: a creation leaves the read of row 2 as it was. *)
Lemma X11_witness :
  get_knowledge_item
    (fst (create_knowledge_item sample_db 700 "T" "C" "url" None None
            None None)) 2
  = get_knowledge_item sample_db 2.
Proof.
  apply (@X11_create_keeps_other_items sample_db _ 700 7 2 "T" "C" "url"
           None None None None eq_refl).
  discriminate.
Defined.

(** X12 there: new tags and a new title for row 2. *)
Lemma X12_witness :
  exists r' : row,
    find (active_with_id 2)
      (fst (update_knowledge_item sample_db 700 2
              [("tags", PyList ["x"]); ("title", PyStr "New")]))
    = Some r'
    /\ r'.(updated_at) = 700.
Proof.
  destruct (@X12_update_then_read sample_db _ 700 2
              [("tags", PyList ["x"]); ("title", PyStr "New")] eq_refl)
    as (r' & Hf & Ht & _).
  - repeat constructor; cbn; intuition discriminate.
  - exists r'. split; [exact Hf | exact Ht].
Defined.

(** X13 there: row 3 is deleted, so its update answers false. *)
Lemma X13_witness :
  snd (update_knowledge_item sample_db 700 3 [("title", PyStr "New")])
  = Return false.
Proof.
  apply (@X13_update_answer sample_db 700 3 [("title", PyStr "New")]).
  - repeat constructor.
  - reflexivity.
Defined.

(** X14 there: a null title is refused and nothing is written. *)
Lemma X14_witness :
  fst (update_knowledge_item sample_db 700 2
         [("summary", PyStr "s"); ("title", PyNone)])
  = sample_db.
Proof.
  apply (@X14_update_all_or_nothing sample_db 700 2
           [("summary", PyStr "s"); ("title", PyNone)]).
  discriminate.
Defined.

(** X16 there: deleting row 2 leaves the read of row 4 as it was. *)
Lemma X16_witness :
  get_knowledge_item (fst (delete_knowledge_item sample_db 700 2)) 4
  = get_knowledge_item sample_db 4.
Proof.
  apply (proj1 (@X16_delete_keeps_other_items sample_db _ 700 2 _ eq_refl)).
  discriminate.
Defined.

End StoreFacts.

(* ================================================================== *)
(** * The queries: listing and search *)
(* ================================================================== *)

Module QueryFacts.
Import Py Json Database StoreTerms SearchTerms ListingTerms.

(** ** LIKE *)

Lemma like_percent (p s : string) :
  like (String "%" p) s
  = like p s
    || match s with
       | EmptyString => false
       | String _ s' => like (String "%" p) s'
       end.
Proof. destruct s; reflexivity. Qed.

Lemma like_any (s : string) : like "%" s = true.
Proof.
  induction s as [|c s IH]; [reflexivity|].
  rewrite like_percent, IH. apply orb_true_r.
Qed.

Lemma like_letter (c : ascii) (p s : string) :
  Ascii.eqb c "%" = false -> Ascii.eqb c "_" = false ->
  like (String c p) s
  = match s with
    | EmptyString => false
    | String d s' => Ascii.eqb (like_fold c) (like_fold d) && like p s'
    end.
Proof.
  intros H1 H2. cbn [like]. rewrite H1, H2. reflexivity.
Qed.

Lemma like_fold_az (c : ascii) : like_fold c = lower_az c.
Proof. destruct c as [[] [] [] [] [] [] [] []]; reflexivity. Qed.

Lemma like_starts (q : string) :
  no_wildcard q = true ->
  forall s,
    like (q ++ "%") s = true
    <-> exists mid post, s = mid ++ post /\ fold_case mid = fold_case q.
Proof.
  induction q as [|c q IH]; intros Hq s.
  - cbn [append]. rewrite like_any. split; [|reflexivity].
    intros _. exists "", s. split; reflexivity.
  - cbn [no_wildcard] in Hq.
    apply andb_true_iff in Hq as [Hc Hq].
    apply andb_true_iff in Hc as [H1 H2].
    apply negb_true_iff in H1, H2.
    cbn [append]. rewrite (@like_letter c _ _ H1 H2).
    destruct s as [|d s]; rewrite ?like_fold_az.
    + split; [discriminate|]. intros (mid & post & E & F).
      destruct mid; discriminate.
    + rewrite andb_true_iff, (IH Hq s). split.
      * intros [E (mid & post & -> & F)]. apply Ascii.eqb_eq in E.
        exists (String d mid), post. split; [reflexivity|].
        cbn [fold_case]. now rewrite E, F.
      * intros (mid & post & E & F). destruct mid as [|d' mid];
          [discriminate|].
        cbn [append] in E. injection E as <- ->.
        cbn [fold_case] in F. injection F as F1 F2.
        split; [rewrite F1; apply Ascii.eqb_refl|].
        exists mid, post. auto.
Qed.

Lemma like_occurs (q : string) :
  no_wildcard q = true ->
  forall s, like ("%" ++ q ++ "%") s = true <-> occurs_in q s.
Proof.
  intros Hq s. change ("%" ++ q ++ "%") with (String "%" (q ++ "%")).
  induction s as [|d s IH]; rewrite like_percent, orb_true_iff,
    (like_starts q Hq).
  - split.
    + intros [(mid & post & E & F)|H]; [|discriminate].
      exists "", mid, post. auto.
    + intros (pre & mid & post & E & F). left.
      destruct pre; [|discriminate]. exists mid, post. auto.
  - rewrite IH. split.
    + intros [(mid & post & E & F)|(pre & mid & post & E & F)].
      * exists "", mid, post. auto.
      * exists (String d pre), mid, post. subst s. auto.
    + intros (pre & mid & post & E & F). destruct pre as [|d' pre].
      * left. exists mid, post. auto.
      * right. cbn [append] in E. injection E as <- ->.
        exists pre, mid, post. auto.
Qed.

Lemma dict_of_row_texts (r : row) (i : item) :
  dict_of_row r = Return i ->
  i.(id) = r.(id) /\ i.(title) = r.(title) /\ i.(content) = r.(content)
  /\ i.(summary) = r.(summary) /\ i.(is_active) = r.(is_active).
Proof.
  unfold dict_of_row.
  destruct (match r.(tags) with
            | None => Return PyNone
            | Some s =>
                if truthy s
                then match loads s with
                     | Some l => Return (PyList l)
                     | None => Raise JSONDecodeError
                     end
                else Return (PyStr s)
            end) as [t|]; cbn [rbind]; [|discriminate].
  intros H; injection H as <-. cbn. auto.
Qed.

Lemma Forall2_In_l {A B} (R : A -> B -> Prop) (l : list A) (l' : list B)
    (a : A) :
  Forall2 R l l' -> In a l -> exists b, In b l' /\ R a b.
Proof.
  induction 1 as [|x y l l' Hxy _ IH]; intros Hin; [destruct Hin|].
  destruct Hin as [->|Hin]; [exists y; cbn; auto|].
  destruct (IH Hin) as (b & Hb & Hr). exists b; cbn; auto.
Qed.

Lemma Forall2_In_r {A B} (R : A -> B -> Prop) (l : list A) (l' : list B)
    (b : B) :
  Forall2 R l l' -> In b l' -> exists a, In a l /\ R a b.
Proof.
  induction 1 as [|x y l l' Hxy _ IH]; intros Hin; [destruct Hin|].
  destruct Hin as [->|Hin]; [exists x; cbn; auto|].
  destruct (IH Hin) as (a & Ha & Hr). exists a; cbn; auto.
Qed.

Lemma like_null_occurs (q : string) (v : option string) :
  no_wildcard q = true ->
  like_null ("%" ++ q ++ "%") v = true
  <-> exists s, v = Some s /\ occurs_in q s.
Proof.
  intros Hq. destruct v as [s|]; cbn [like_null].
  - rewrite (like_occurs q Hq). split; [eauto|].
    intros (s' & E & H). now injection E as ->.
  - split; [discriminate|]. intros (s' & E & _). discriminate.
Qed.

Lemma search_filter (q : string) (r : row) :
  no_wildcard q = true ->
  r.(is_active)
  && (like ("%" ++ q ++ "%") r.(title)
      || like ("%" ++ q ++ "%") r.(content)
      || like_null ("%" ++ q ++ "%") r.(summary)) = true
  <-> r.(is_active) = true /\ mentions q r.
Proof.
  intros Hq. unfold mentions.
  rewrite andb_true_iff, !orb_true_iff, !(like_occurs q Hq),
    (like_null_occurs q _ Hq).
  tauto.
Qed.

Section Ordered.

Variable order_by : list row -> list row.
Hypothesis order_by_perm : forall rows, Permutation (order_by rows) rows.

(** X17: what a search for a query without wildcards returns: every
    dictionary is that of an active row that has the query in its
    title, its content or its summary, a letter A-Z and its small letter
    taken as the same; and with a negative limit, which is no limit,
    every such row whose texts hold no NUL is returned. *)
Theorem X17_search_finds_the_query (db : table) (q : string) (limit : Z)
    (items : list item) :
  literal q ->
  search_knowledge_items order_by db q limit = Return items ->
  (forall i, In i items ->
     i.(is_active) = true /\ mentions q i
     /\ exists r, In r db /\ item_of_row r i)
  /\ (limit < 0 ->
      forall r, In r db -> r.(is_active) = true -> read_in_full r ->
                mentions q r ->
                exists i, In i items /\ item_of_row r i).
Proof.
  intros (Hq & _ & _). unfold search_knowledge_items.
  destruct (negb (sqlite_int limit)); [discriminate|].
  intros Hm. apply StoreSpec.mapM_rows in Hm. unfold select_search in Hm.
  split.
  - intros i Hi. destruct (Forall2_In_r i Hm Hi) as (r & Hr & Hd).
    apply StoreSpec.In_sql_limit in Hr.
    apply (Permutation_in _ (order_by_perm _)) in Hr.
    apply filter_In in Hr as [Hdb Hf].
    apply (search_filter q _ Hq) in Hf as [Ha Hmen].
    destruct (dict_of_row_texts _ Hd) as (_ & Et & Ec & Es & Eact).
    split; [congruence|]. split.
    + unfold mentions in *. rewrite Et, Ec, Es. exact Hmen.
    + exists r. split; [exact Hdb|]. now apply StoreSpec.dict_of_row_item.
  - intros Hl r Hdb Ha _ Hmen. unfold sql_limit in Hm.
    apply Z.ltb_lt in Hl. rewrite Hl in Hm.
    destruct (Forall2_In_l r Hm) as (i & Hi & Hd).
    + apply (Permutation_in _ (Permutation_sym (order_by_perm _))).
      apply filter_In. split; [exact Hdb|].
      apply (search_filter q _ Hq). auto.
    + exists i. split; [exact Hi|]. now apply StoreSpec.dict_of_row_item.
Qed.

Lemma select_page_length (db : table) (limit offset : Z) :
  Z.of_nat (List.length (select_page order_by db limit offset)) =
    let rest :=
      Z.max 0 (Z.of_nat (List.length
                           (filter (fun r : row => r.(is_active)) db))
               - Z.max 0 offset) in
    if limit <? 0 then rest else Z.min limit rest.
Proof.
  unfold select_page, sql_limit, sql_offset. cbv zeta.
  pose proof (Permutation_length
                (order_by_perm (filter (fun r : row => r.(is_active)) db)))
    as Hp.
  destruct (limit <? 0) eqn:Hl.
  - rewrite length_skipn, Hp. lia.
  - apply Z.ltb_ge in Hl. rewrite length_firstn, length_skipn, Hp. lia.
Qed.

(** X18: how many items a listing returns: of the active rows past the
    offset (a negative offset is none), as many as the limit allows (a
    negative limit allows all). *)
Theorem X18_listing_count (db : table) (limit offset : Z)
    (items : list item) :
  get_all_knowledge_items order_by db limit offset = Return items ->
  Z.of_nat (List.length items) =
    let rest :=
      Z.max 0 (Z.of_nat (List.length
                           (filter (fun r : row => r.(is_active)) db))
               - Z.max 0 offset) in
    if limit <? 0 then rest else Z.min limit rest.
Proof.
  unfold get_all_knowledge_items.
  destruct (negb (sqlite_int limit && sqlite_int offset)); [discriminate|].
  intros Hm. apply StoreSpec.mapM_rows, Forall2_length in Hm. rewrite <- Hm.
  apply select_page_length.
Qed.

End Ordered.

(** X19: a search for the empty query is the listing from its start:
    the pattern is then "%%", which every title matches. *)
Theorem X19_empty_query_lists (order_by : list row -> list row)
    (db : table) (limit : Z) :
  search_knowledge_items order_by db "" limit
  = get_all_knowledge_items order_by db limit 0.
Proof.
  unfold search_knowledge_items, get_all_knowledge_items.
  replace (sqlite_int 0) with true by reflexivity.
  rewrite andb_true_r. destruct (negb (sqlite_int limit)); [reflexivity|].
  f_equal. unfold select_search, select_page, sql_offset.
  change (Z.to_nat 0) with O. cbn [skipn]. do 2 f_equal.
  apply filter_ext. intros r. change ("%" ++ "" ++ "%") with "%%".
  rewrite (like_percent "%" r.(title)), like_any.
  cbn [orb]. apply andb_true_r.
Qed.

(** X17 on the sample table: the query "tITLE" finds row 2, whose
    title is "Title", and every item found has the query in it. *)
Lemma X17_witness :
  exists items,
    search_knowledge_items stable_order_by sample_db "tITLE" (-1)
    = Return items
    /\ (forall i, In i items -> i.(is_active) = true /\ mentions "tITLE" i)
    /\ exists i, In i items /\ i.(id) = 2 /\ i.(title) = "Title".
Proof.
  eexists. split; [reflexivity|].
  assert (Hq : literal "tITLE").
  { split; [reflexivity|]. split; [reflexivity|]. cbn. lia. }
  destruct (@X17_search_finds_the_query stable_order_by
              StoreSpec.stable_order_by_perm sample_db "tITLE" (-1) _
              Hq eq_refl) as [Hsound Hall].
  split.
  - intros i Hi. destruct (Hsound i Hi) as (Ha & Hm & _).
    split; [exact Ha | exact Hm].
  - destruct (Hall eq_refl (sample_row 2 300 true)) as (i & Hi & Hr).
    + cbn. auto.
    + reflexivity.
    + repeat split; intros s H; injection H as <-; reflexivity.
    + left. exists "", "Title", "". split; reflexivity.
    + exists i. split; [exact Hi|].
      destruct Hr as (E1 & E2 & _). split; [exact E1 | exact E2].
Defined.

(** X18 there: past the first two of five active rows, three are left. *)
Lemma X18_witness :
  exists items,
    get_all_knowledge_items stable_order_by sample_db 10 2
    = Return items
    /\ Z.of_nat (List.length items) = 3.
Proof.
  eexists. split; [reflexivity|].
  apply (@X18_listing_count stable_order_by
           StoreSpec.stable_order_by_perm sample_db 10 2 _ eq_refl).
Defined.

End QueryFacts.

(* ================================================================== *)
(** * The statistics *)
(* ================================================================== *)

Module StatsFacts.
Import Database Knowledge StoreTerms StatsTerms.

(** ** Counting in a dictionary *)

Lemma get_incr (key k : string) (d : counter) :
  get k (incr key d) = if (key =? k)%string then S (get k d) else get k d.
Proof.
  induction d as [|[k0 n] d IH]; cbn [incr get]; [reflexivity|].
  destruct (String.eqb_spec k0 key) as [->|Hk]; cbn [get].
  - destruct (key =? k)%string; reflexivity.
  - rewrite IH. destruct (String.eqb_spec k0 k) as [->|Hk'];
      [|reflexivity].
    destruct (String.eqb_spec key k) as [->|_]; [now elim Hk | reflexivity].
Qed.

Lemma incr_keys (key k : string) (d : counter) :
  In k (map fst (incr key d)) <-> k = key \/ In k (map fst d).
Proof.
  induction d as [|[k0 n] d IH]; cbn [incr map fst In].
  - intuition.
  - destruct (String.eqb_spec k0 key) as [->|Hk]; cbn [map fst In].
    + intuition.
    + rewrite IH. intuition.
Qed.

Lemma incr_counts (key : string) (d : counter) :
  counts d -> counts (incr key d).
Proof.
  intros [Hn Hp]. split.
  - clear Hp. induction d as [|[k0 n] d IH]; cbn [incr map fst].
    + repeat constructor. intros [].
    + inversion Hn as [|x l Hx Hl]; subst.
      destruct (String.eqb_spec k0 key) as [->|Hk]; cbn [map fst].
      * now constructor.
      * constructor; [|now apply IH]. rewrite incr_keys.
        intros [E|E]; [now elim Hk | now elim Hx].
  - induction d as [|[k0 n] d IH]; cbn [incr]; intros k m.
    + intros [E|[]]. injection E as <- <-. lia.
    + inversion Hn as [|x l Hx Hl]; subst.
      destruct (String.eqb_spec k0 key) as [->|Hk].
      * intros [E|E]; [injection E as <- <-; lia|].
        apply (Hp k m). now right.
      * intros [E|E]; [apply (Hp k m); now left|].
        apply (IH Hl) with (k := k); [|exact E].
        intros k' n' H'. apply (Hp k' n'). now right.
Qed.

Lemma incr_sum (key : string) (d : counter) :
  list_sum (map snd (incr key d)) = S (list_sum (map snd d)).
Proof.
  unfold list_sum.
  induction d as [|[k0 n] d IH]; cbn [incr]; [reflexivity|].
  destruct (k0 =? key)%string; cbn [map snd fold_right]; [reflexivity|].
  rewrite IH. lia.
Qed.

Lemma counts_In (d : counter) (k : string) (n : nat) :
  counts d -> (In (k, n) d <-> get k d = n /\ (0 < n)%nat).
Proof.
  intros [Hn Hp]. induction d as [|[k0 n0] d IH]; cbn [get In].
  - split; [intros [] | intros [<- H]; lia].
  - inversion Hn as [|x l Hx Hl]; subst.
    assert (Hp' : forall k n, In (k, n) d -> (0 < n)%nat).
    { intros k' n' H'. apply (Hp k' n'). now right. }
    specialize (IH Hl Hp').
    destruct (String.eqb_spec k0 k) as [->|Hk].
    + split.
      * intros [E|E].
        -- injection E as ->. split; [reflexivity|].
           apply (Hp k n). now left.
        -- elim Hx. change k with (fst (k, n)). now apply in_map.
      * intros [-> _]. now left.
    + rewrite <- IH. split; [|tauto].
      intros [E|E]; [injection E as E _; now elim Hk | exact E].
Qed.

Lemma count_all (l : list string) (d : counter) :
  (forall k,
     get k (fold_left (fun d tag => incr tag d) l d) = (get k d + times k l)%nat)
  /\ (counts d -> counts (fold_left (fun d tag => incr tag d) l d))
  /\ list_sum (map snd (fold_left (fun d tag => incr tag d) l d))
     = (list_sum (map snd d) + List.length l)%nat.
Proof.
  revert d. induction l as [|t l IH]; intros d; cbn [fold_left].
  - unfold times. cbn [count_occ List.length]. rewrite Nat.add_0_r.
    split; [intros k; now rewrite Nat.add_0_r | auto].
  - destruct (IH (incr t d)) as (H1 & H2 & H3).
    split; [|split].
    + intros k. rewrite H1, get_incr. unfold times. cbn [count_occ].
      destruct (String.eqb_spec t k) as [->|Hk];
        destruct (string_dec _ k); try congruence; lia.
    + intros Hd. now apply H2, incr_counts.
    + rewrite H3, incr_sum. cbn [List.length]. lia.
Qed.

Lemma fold_count_item (items : list item) (acc : counter * counter) :
  fold_left count_item items acc
  = (fold_left (fun d tag => incr tag d)
       (map (fun i : item => i.(source_type)) items) (fst acc),
     fold_left (fun d tag => incr tag d) (all_tags items) (snd acc)).
Proof.
  revert acc. induction items as [|i items IH]; intros [a b];
    [reflexivity|].
  cbn [fold_left map]. rewrite IH. unfold count_item at 1 2.
  cbn [fst snd]. unfold all_tags. cbn [map List.concat].
  now rewrite fold_left_app.
Qed.

Lemma counts_nil : counts [].
Proof. split; [constructor | intros k n []]. Qed.

(** ** Sorting by count *)

Lemma insert_desc_perm (x : string * nat) (l : counter) :
  Permutation (insert_desc x l) (x :: l).
Proof.
  induction l as [|y l IH]; cbn [insert_desc]; [reflexivity|].
  destruct (snd x <? snd y)%nat; [|reflexivity].
  rewrite IH. apply perm_swap.
Qed.

Lemma sorted_desc_perm (d : counter) : Permutation (sorted_desc d) d.
Proof.
  unfold sorted_desc. induction d as [|x d IH]; cbn [fold_right];
    [reflexivity|].
  rewrite insert_desc_perm. now constructor.
Qed.

Lemma insert_desc_sorted (x : string * nat) (l : counter) :
  StronglySorted by_count_desc l ->
  StronglySorted by_count_desc (insert_desc x l).
Proof.
  induction 1 as [|y l Hs IH Hall]; cbn [insert_desc].
  - constructor; constructor.
  - destruct (snd x <? snd y)%nat eqn:E.
    + apply Nat.ltb_lt in E. constructor; [exact IH|].
      apply Forall_forall. intros z Hz.
      apply (Permutation_in _ (insert_desc_perm x l)) in Hz.
      destruct Hz as [<-|Hz]; [unfold by_count_desc; lia|].
      now apply (proj1 (Forall_forall _ _) Hall).
    + apply Nat.ltb_ge in E. constructor; [now constructor|].
      constructor; [exact E|].
      eapply Forall_impl; [|exact Hall]. unfold by_count_desc. intros; lia.
Qed.

Lemma sorted_desc_sorted (d : counter) :
  StronglySorted by_count_desc (sorted_desc d).
Proof.
  unfold sorted_desc. induction d as [|x d IH]; cbn [fold_right].
  - constructor.
  - now apply insert_desc_sorted.
Qed.

Lemma sorted_cut (n : nat) (l : counter) :
  StronglySorted by_count_desc l ->
  StronglySorted by_count_desc (firstn n l)
  /\ forall x y, In x (firstn n l) -> In y (skipn n l) -> by_count_desc x y.
Proof.
  intros H; revert n; induction H as [|a l Hs IH Hall]; intros [|n];
    cbn [firstn skipn].
  - split; [constructor | intros x y []].
  - split; [constructor | intros x y []].
  - split; [constructor | intros x y []].
  - destruct (IH n) as [IH1 IH2]. split.
    + constructor; [exact IH1|]. apply Forall_forall. intros z Hz.
      apply StoreSpec.In_firstn in Hz.
      now apply (proj1 (Forall_forall _ _) Hall).
    + intros x y [<-|Hx] Hy; [|now apply IH2].
      apply StoreSpec.In_skipn in Hy.
      now apply (proj1 (Forall_forall _ _) Hall).
Qed.

(** X20: the statistics of a list of items: total_items is their number;
    source_types has each source type of the items once, with the
    number of items that have it, and these numbers add up to
    total_items. *)
Theorem X20_source_type_counts (items : list item) :
  (stats_of items).(total_items) = List.length items
  /\ NoDup (map fst (stats_of items).(source_types))
  /\ (forall k n,
        In (k, n) (stats_of items).(source_types)
        <-> n = times k (map (fun i : item => i.(source_type)) items)
            /\ (0 < n)%nat)
  /\ list_sum (map snd (stats_of items).(source_types))
     = (stats_of items).(total_items).
Proof.
  unfold stats_of. rewrite fold_count_item. cbn [fst snd total_items
    source_types].
  destruct (count_all (map (fun i : item => i.(source_type)) items) [])
    as (H1 & H2 & H3).
  specialize (H2 counts_nil).
  split; [reflexivity|]. split; [apply H2|]. split.
  - intros k n. rewrite (counts_In k n H2), H1. cbn [get]. intuition lia.
  - rewrite H3, length_map. reflexivity.
Qed.

Lemma all_tags_given (items : list item) :
  Forall as_read items -> all_tags items = given_tags items.
Proof.
  unfold all_tags, given_tags.
  induction 1 as [|i items Hi _ IH]; [reflexivity|].
  cbn [map List.concat]. rewrite IH. f_equal.
  unfold as_read in Hi. destruct i.(tags) as [|s|l]; [reflexivity| |];
    [now subst s | reflexivity].
Qed.

(** What the store returns is as read. *)
Lemma dict_of_row_as_read (r : row) (i : item) :
  dict_of_row r = Return i -> as_read i.
Proof.
  unfold dict_of_row, as_read.
  destruct r.(tags) as [s|].
  - destruct (Py.truthy s) eqn:Ht.
    + destruct (Json.loads s); cbn [rbind]; [|discriminate].
      intros H; injection H as <-. exact I.
    + cbn [rbind]. intros H; injection H as <-. cbn.
      now destruct s.
  - cbn [rbind]. intros H; injection H as <-. exact I.
Qed.

(** X21: for items as the store reads them, popular_tags has ten entries
    at most, each a tag of the tag lists of the items with the number of
    times it is given there, no tag twice, the largest number first; and
    a tag of the items that is left out is given no more often than any
    tag that is in (and then there are ten).  Every list of items that
    the store returns is as read. *)
Theorem X21_popular_tags (items : list item) :
  Forall as_read items ->
  let popular := (stats_of items).(popular_tags) in
  (List.length popular <= 10)%nat
  /\ NoDup (map fst popular)
  /\ StronglySorted by_count_desc popular
  /\ (forall t n, In (t, n) popular ->
                  n = times t (given_tags items) /\ (0 < n)%nat)
  /\ (forall t, In t (given_tags items) -> ~ In t (map fst popular) ->
                List.length popular = 10%nat
                /\ forall x, In x popular ->
                             (times t (given_tags items) <= snd x)%nat)
  /\ ((List.length (nodup string_dec (given_tags items)) <= 10)%nat ->
      forall t, In t (given_tags items) ->
                In (t, times t (given_tags items)) popular).
Proof.
  intros Hread. rewrite <- (all_tags_given Hread).
  unfold stats_of. rewrite fold_count_item. cbn [fst snd popular_tags].
  cbv zeta.
  destruct (count_all (all_tags items) []) as (H1 & H2 & _).
  specialize (H2 counts_nil).
  set (d := fold_left (fun d tag => incr tag d) (all_tags items) []) in *.
  destruct (sorted_cut 10 (sorted_desc_sorted d)) as [Hs Hcut].
  assert (Hin : forall x, In x (sorted_desc d) <-> In x d).
  { intros x. split; apply Permutation_in;
      [|apply Permutation_sym]; apply sorted_desc_perm. }
  assert (Hd : forall t, In t (all_tags items) ->
                         In (t, times t (all_tags items)) (sorted_desc d)).
  { intros t Ht. apply Hin, (counts_In t _ H2). rewrite H1. cbn [get].
    split; [reflexivity|]. unfold times. now apply count_occ_In. }
  split; [apply firstn_le_length|]. split.
  { assert (Hnd : NoDup (map fst (sorted_desc d))).
    { eapply Permutation_NoDup; [|apply H2].
      apply Permutation_map, Permutation_sym, sorted_desc_perm. }
    rewrite <- (firstn_skipn 10 (sorted_desc d)), map_app in Hnd.
    now apply NoDup_app_remove_r in Hnd. }
  split; [exact Hs|]. split; [|split].
  - intros t n Ht. apply StoreSpec.In_firstn, Hin in Ht.
    apply (counts_In t n H2) in Ht as [Hg Hp]. rewrite H1 in Hg.
    cbn [get] in Hg. split; [lia | exact Hp].
  - intros t Ht Hout. specialize (Hd t Ht).
    rewrite <- (firstn_skipn 10 (sorted_desc d)) in Hd.
    apply in_app_or in Hd as [Hd|Hd].
    { elim Hout. change t with (fst (t, times t (all_tags items))).
      now apply in_map. }
    split.
    + rewrite length_firstn. apply Nat.min_l.
      destruct (Nat.le_gt_cases 10 (List.length (sorted_desc d)))
        as [Hle|Hlt]; [exact Hle|].
      rewrite skipn_all2 in Hd by lia. destruct Hd.
    + intros x Hx. apply (Hcut x _ Hx Hd).
  - intros Hfew t Ht.
    assert (Hlen : (List.length (sorted_desc d) <= 10)%nat).
    { rewrite (Permutation_length (sorted_desc_perm d)).
      rewrite <- (length_map fst d).
      apply Nat.le_trans
        with (List.length (nodup string_dec (all_tags items)));
        [|exact Hfew].
      apply NoDup_incl_length; [apply H2|].
      intros k Hk. apply nodup_In. apply in_map_iff in Hk as ([k' n] & <- & Hk).
      apply (counts_In k' n H2) in Hk as [Hg Hp]. rewrite H1 in Hg.
      cbn [get fst] in *. unfold times in Hg.
      apply (count_occ_In string_dec). lia. }
    rewrite firstn_all2 by exact Hlen. now apply Hd.
Qed.

Section Route.

Variable str_exn : exn -> string.
Variable order_by : list row -> list row.
Hypothesis order_by_perm : forall rows, Permutation (order_by rows) rows.

(** X22: the statistics route counts 10000 items at most: when it
    answers, total_items is the number of active rows, or 10000 when
    there are more. *)
Theorem X22_statistics_cap (db : table) (s : Stats) :
  get_knowledge_stats str_exn order_by db = Return s ->
  Z.of_nat s.(total_items)
  = Z.min 10000
      (Z.of_nat (List.length (filter (fun r : row => r.(is_active)) db))).
Proof.
  unfold get_knowledge_stats.
  destruct (get_all_knowledge_items order_by db 10000 0) as [items|]
    eqn:Hg; [|discriminate].
  intros H; injection H as <-.
  unfold get_all_knowledge_items in Hg.
  destruct (negb (sqlite_int 10000 && sqlite_int 0)); [discriminate|].
  apply StoreSpec.mapM_rows, Forall2_length in Hg.
  pose proof (@QueryFacts.select_page_length order_by order_by_perm db
                10000 0) as Hl.
  cbv zeta in Hl. change (10000 <? 0) with false in Hl. cbv iota in Hl.
  unfold stats_of. destruct (fold_left count_item items ([], [])).
  cbn [total_items]. rewrite <- Hg. lia.
Qed.

End Route.

(** X22 on the sample table. *)
Lemma X22_witness :
  exists s,
    get_knowledge_stats ProcessingTerms.sample_str stable_order_by sample_db
    = Return s
    /\ Z.of_nat s.(total_items) = 5.
Proof.
  eexists. split; [reflexivity|].
  apply (@X22_statistics_cap ProcessingTerms.sample_str stable_order_by
           StoreSpec.stable_order_by_perm sample_db _ eq_refl).
Defined.

(** X21 on three items: AI is given twice and Web once. *)
Lemma X21_witness :
  (stats_of sample_items).(popular_tags) = [("AI", 2%nat); ("Web", 1%nat)]
  /\ In ("AI", times "AI" (given_tags sample_items))
        (stats_of sample_items).(popular_tags).
Proof.
  split; [reflexivity|].
  assert (Hr : Forall as_read sample_items)
    by (repeat constructor).
  apply (proj2 (proj2 (proj2 (proj2 (proj2
           (@X21_popular_tags sample_items Hr)))))).
  - cbn. lia.
  - cbn. auto.
Defined.

End StatsFacts.

(* ================================================================== *)
(** * The table as a whole, and the log *)
(* ================================================================== *)

Module TableFacts.
Import Database StoreTerms.





(** X24: a log entry that is written is added at the end of the log
    with a new id, larger than every id of the log, which is the answer;
    the entries that were there are kept; no knowledge item is looked
    up, so any number is taken as knowledge_item_id; and a call that
    raises has written nothing. *)
Theorem X24_log_appends (logs : Logs.log_table) (now knowledge_item_id : Z)
    (processing_type input_text output_text : string)
    (processing_time_ms : Z) (status : string)
    (error_message : option string) :
  match Logs.log_ai_processing logs now knowledge_item_id processing_type
          input_text output_text processing_time_ms status error_message
  with
  | (logs', Return log_id) =>
      logs' = (logs ++ [ {| Logs.id := log_id;
                            Logs.knowledge_item_id := knowledge_item_id;
                            Logs.processing_type := processing_type;
                            Logs.input_text := input_text;
                            Logs.output_text := output_text;
                            Logs.processing_time_ms := processing_time_ms;
                            Logs.status := status;
                            Logs.error_message := error_message;
                            Logs.created_at := now |} ])%list
      /\ Forall (fun l : Logs.log_entry => l.(Logs.id) < log_id) logs
      /\ 0 < log_id
  | (logs', Raise e) =>
      logs' = logs
      /\ (sqlite_int knowledge_item_id = true ->
          sqlite_int processing_time_ms = true ->
          sqlite_int (Logs.next_rowid logs) = false)
  end.
Proof.
  unfold Logs.log_ai_processing.
  destruct (sqlite_int knowledge_item_id), (sqlite_int processing_time_ms);
    cbn [andb negb]; try (split; [reflexivity | discriminate]).
  destruct (sqlite_int (Logs.next_rowid logs)); cbn [negb];
    [|split; [reflexivity | auto]].
  split; [reflexivity|]. unfold Logs.next_rowid. split.
  - induction logs as [|l logs IH]; constructor; cbn [map fold_right].
    + lia.
    + eapply Forall_impl; [|exact IH]. cbv beta. intros; lia.
  - induction logs as [|l logs IH]; cbn [map fold_right]; lia.
Qed.

End TableFacts.

(* ================================================================== *)
(** * The routes over the store *)
(* ================================================================== *)

Module RouteFacts.
Import Database StoreTerms UpdateTerms RouteTerms.

Lemma update_data_typed (item : KnowledgeRoutes.Update.t) :
  typed_update (KnowledgeRoutes.update_data item).
Proof.
  destruct item as [[?|] [?|] [?|] [?|] [?|] [?|]];
    repeat (apply Forall_cons; [cbn; auto|]); apply Forall_nil.
Qed.

Lemma update_data_clauses (item : KnowledgeRoutes.Update.t) :
  set_clauses (KnowledgeRoutes.update_data item)
  = KnowledgeRoutes.update_data item.
Proof.
  destruct item as [[?|] [?|] [?|] [?|] [?|] [?|]]; reflexivity.
Qed.

Lemma find_existsb (p : row -> bool) (db : table) :
  existsb p db = match find p db with Some _ => true | None => false end.
Proof.
  induction db as [|r db IH]; [reflexivity|]. cbn [existsb find].
  destruct (p r); [reflexivity | exact IH].
Qed.

Lemma dict_of_row_raises (r : row) (e : exn) :
  dict_of_row r = Raise e -> e = JSONDecodeError.
Proof.
  unfold dict_of_row. destruct r.(tags) as [t|]; [|discriminate].
  destruct (Py.truthy t); [|discriminate].
  destruct (Json.loads t); [discriminate|]. cbn. congruence.
Qed.

Lemma get_raises (db : table) (item_id : Z) (e : exn) :
  get_knowledge_item db item_id = Raise e -> store_error e.
Proof.
  unfold get_knowledge_item.
  destruct (negb (sqlite_int item_id)); [intros H; injection H as <-; exact I|].
  destruct (find (active_with_id item_id) db) as [r|]; [|discriminate].
  destruct (dict_of_row r) eqn:Hd; cbn [rbind]; [discriminate|].
  intros H; injection H as <-. apply dict_of_row_raises in Hd. now subst.
Qed.

Lemma assign_all_raises (bound : list (string * option string)) (r : row)
    (e : exn) :
  assign_all bound r = Raise e -> e = IntegrityError.
Proof.
  revert r. induction bound as [|[k v] bound IH]; intros r; cbn [assign_all];
    [discriminate|].
  destruct (assign k v r) as [r1|e1] eqn:Ha; cbn [rbind]; [apply IH|].
  intros H; injection H as <-. unfold assign in Ha.
  repeat match type of Ha with
         | context [(k =? ?c)%string] => destruct (k =? c)%string
         end; destruct v; congruence.
Qed.

Lemma sql_update_raises (where_ : row -> bool) (set_ : row -> result row)
    (db : table) (e : exn) :
  sql_update where_ set_ db = Raise e ->
  exists r, In r db /\ where_ r = true /\ set_ r = Raise e.
Proof.
  induction db as [|r db IH]; cbn [sql_update]; [discriminate|].
  destruct (where_ r) eqn:Hw.
  - destruct (set_ r) as [r'|e1] eqn:Hs; cbn [rbind].
    + destruct (sql_update where_ set_ db) as [[db' n]|e']; cbn [rbind];
        [discriminate|].
      intros H. destruct (IH H) as (x & Hx & Hwx & Hsx).
      exists x. cbn; auto.
    + intros H; injection H as <-. exists r. cbn; auto.
  - destruct (sql_update where_ set_ db) as [[db' n]|e']; cbn [rbind];
      [discriminate|].
    intros H. destruct (IH H) as (x & Hx & Hwx & Hsx).
    exists x. cbn; auto.
Qed.

Lemma update_raises (db db' : table) (now item_id : Z) (kw : kwargs)
    (e : exn) :
  update_knowledge_item db now item_id kw = (db', Raise e) ->
  store_error e.
Proof.
  rewrite StoreSpec.update_unfold. unfold update_with.
  destruct (set_clauses (serialize_tags kw)); [discriminate|].
  destruct (bind_params (p :: k)) as [l|e0] eqn:Hb.
  - destruct (negb (sqlite_int item_id));
      [intros H; injection H as _ <-; exact I|].
    match goal with
    | |- context [sql_update ?w ?f db] =>
        destruct (sql_update w f db) as [[db1 n]|e1] eqn:Hu
    end; [discriminate|].
    intros H; injection H as _ <-.
    apply sql_update_raises in Hu as (r & _ & _ & Hs).
    destruct (assign_all l r) eqn:Ha; cbn [rbind] in Hs; [discriminate|].
    injection Hs as <-. apply assign_all_raises in Ha. now subst.
  - intros H; injection H as _ <-.
    apply StoreSpec.bind_params_raises in Hb. now subst.
Qed.

Lemma delete_raises (db db' : table) (now item_id : Z) (e : exn) :
  delete_knowledge_item db now item_id = (db', Raise e) -> store_error e.
Proof.
  unfold delete_knowledge_item.
  destruct (negb (sqlite_int item_id));
    [intros H; injection H as _ <-; exact I|].
  rewrite StoreSpec.sql_update_total. discriminate.
Qed.

Lemma reraise_is_500 (str_exn : exn -> string) (prefix : string) (e : exn) :
  store_error e ->
  KnowledgeRoutes.reraise_or_internal str_exn prefix e
  = HTTPException 500 (prefix ++ Processing.str str_exn e).
Proof. destruct e; intros H; [destruct H | ..]; reflexivity. Qed.

Section Routes.

Variable str_exn : exn -> string.

(** X25: the answers of the update route for an id that SQLite can
    hold: 400 when no field is given; 404, with the table as it was,
    when no active row has the id; otherwise the acknowledgement,
    after the update of the store has answered true. *)
Theorem X25_update_route (db : table) (now item_id : Z)
    (item : KnowledgeRoutes.Update.t) :
  sqlite_int item_id = true ->
  let out := KnowledgeRoutes.update_knowledge_item str_exn db now item_id
               item in
  (KnowledgeRoutes.update_data item = [] ->
   out = (db, Raise (HTTPException 400 "No update data provided")))
  /\ (KnowledgeRoutes.update_data item <> [] ->
      existsb (active_with_id item_id) db = false ->
      out = (db, Raise KnowledgeRoutes.not_found))
  /\ (KnowledgeRoutes.update_data item <> [] ->
      existsb (active_with_id item_id) db = true ->
      exists db',
        update_knowledge_item db now item_id
          (KnowledgeRoutes.update_data item) = (db', Return true)
        /\ out = (db', Return {| KnowledgeRoutes.id := item_id;
                                 KnowledgeRoutes.message :=
                                   "Knowledge item updated successfully";
                                 KnowledgeRoutes.status := "success" |})).
Proof.
  intros Hi. cbv zeta. unfold KnowledgeRoutes.update_knowledge_item.
  destruct (StoreFacts.update_typed_returns db now item_id
              (update_data_typed item) Hi) as [db' E].
  rewrite update_data_clauses in E.
  destruct (KnowledgeRoutes.update_data item) as [|kv data] eqn:Hd.
  - split; [reflexivity|]. split; intros H; now elim H.
  - rewrite E. split; [discriminate|].
    split; intros _ Hex; rewrite Hex in *.
    + apply StoreFacts.update_untouched in E; [|discriminate].
      now subst db'.
    + exists db'. split; reflexivity.
Qed.

(** X26: the get route for an id that SQLite can hold: it answers 404
    exactly when no active row has the id, and a dictionary that it
    returns is that of a row of the table, active and of that id. *)
Theorem X26_get_route (db : table) (item_id : Z) :
  sqlite_int item_id = true ->
  (KnowledgeRoutes.get_knowledge_item str_exn db item_id
   = Raise KnowledgeRoutes.not_found
   <-> existsb (active_with_id item_id) db = false)
  /\ (forall i,
        KnowledgeRoutes.get_knowledge_item str_exn db item_id = Return i ->
        i.(id) = item_id /\ i.(is_active) = true
        /\ exists r, In r db /\ dict_of_row r = Return i).
Proof.
  intros Hi. unfold KnowledgeRoutes.get_knowledge_item.
  rewrite find_existsb.
  destruct (get_knowledge_item db item_id) as [[i|]|e] eqn:Hg.
  - unfold get_knowledge_item in Hg. rewrite Hi in Hg. cbn [negb] in Hg.
    destruct (find (active_with_id item_id) db) as [r|] eqn:Hf;
      [|discriminate].
    split; [split; discriminate|].
    intros i' H; injection H as <-.
    destruct (dict_of_row r) as [i0|] eqn:Hd; cbn [rbind] in Hg;
      [|discriminate].
    injection Hg as <-. apply find_some in Hf as [Hin Hp].
    unfold active_with_id in Hp. apply andb_true_iff in Hp as [H1 H2].
    apply Z.eqb_eq in H1.
    destruct (QueryFacts.dict_of_row_texts r Hd) as (E1 & _ & _ & _ & E2).
    split; [congruence|]. split; [congruence|]. eauto.
  - unfold get_knowledge_item in Hg. rewrite Hi in Hg. cbn [negb] in Hg.
    destruct (find (active_with_id item_id) db) as [r|]; [|].
    + destruct (dict_of_row r); discriminate.
    + split; [tauto | discriminate].
  - pose proof (get_raises _ _ Hg) as He.
    rewrite (@reraise_is_500 str_exn _ _ He).
    unfold get_knowledge_item in Hg. rewrite Hi in Hg. cbn [negb] in Hg.
    destruct (find (active_with_id item_id) db) as [r|]; [|discriminate].
    split; [split; discriminate | discriminate].
Qed.

Lemma delete_route_unfold (db : table) (now item_id : Z) :
  sqlite_int item_id = true ->
  KnowledgeRoutes.delete_knowledge_item str_exn db now item_id
  = (map (deactivate now item_id) db,
     if existsb (active_with_id item_id) db
     then Return {| KnowledgeRoutes.id := item_id;
                    KnowledgeRoutes.message :=
                      "Knowledge item deleted successfully";
                    KnowledgeRoutes.status := "success" |}
     else Raise KnowledgeRoutes.not_found).
Proof.
  intros Hi. unfold KnowledgeRoutes.delete_knowledge_item.
  rewrite (StoreSpec.delete_unfold db now item_id Hi),
    StoreFacts.filter_existsb.
  destruct (existsb (active_with_id item_id) db); reflexivity.
Qed.

Lemma deactivate_none (db : table) (now item_id : Z) :
  existsb (active_with_id item_id) db = false ->
  map (deactivate now item_id) db = db.
Proof.
  intros Hex. rewrite <- (map_id db) at 2. apply map_ext_in.
  intros r Hr. unfold deactivate.
  destruct (active_with_id item_id r) eqn:Ha; [|reflexivity].
  assert (existsb (active_with_id item_id) db = true)
    by (apply existsb_exists; eauto).
  congruence.
Qed.

(** X27: the delete route for an id that SQLite can hold: it
    acknowledges when an active row has the id and answers 404, with
    the table as it was, when none has; and after it, whatever it
    answered, the get route and the delete route answer 404 for that
    id. *)
Theorem X27_delete_route (db : table) (now item_id : Z) :
  sqlite_int item_id = true ->
  let out := KnowledgeRoutes.delete_knowledge_item str_exn db now item_id in
  (existsb (active_with_id item_id) db = true ->
   snd out = Return {| KnowledgeRoutes.id := item_id;
                       KnowledgeRoutes.message :=
                         "Knowledge item deleted successfully";
                       KnowledgeRoutes.status := "success" |})
  /\ (existsb (active_with_id item_id) db = false ->
      out = (db, Raise KnowledgeRoutes.not_found))
  /\ KnowledgeRoutes.get_knowledge_item str_exn (fst out) item_id
     = Raise KnowledgeRoutes.not_found
  /\ (forall now',
        KnowledgeRoutes.delete_knowledge_item str_exn (fst out) now' item_id
        = (fst out, Raise KnowledgeRoutes.not_found)).
Proof.
  intros Hi. cbv zeta. rewrite (@delete_route_unfold db now item_id Hi).
  cbn [fst snd].
  assert (Hgone : existsb (active_with_id item_id)
                    (map (deactivate now item_id) db) = false).
  { rewrite find_existsb, (@StoreSpec.find_gone _ item_id); [reflexivity|].
    apply Forall_forall. intros r Hr.
    apply in_map_iff in Hr as (r0 & <- & _).
    apply StoreSpec.deactivate_inactive. }
  split; [|split; [|split]].
  - intros ->. reflexivity.
  - intros Hex. now rewrite Hex, (@deactivate_none db now item_id Hex).
  - unfold KnowledgeRoutes.get_knowledge_item, get_knowledge_item.
    rewrite Hi. cbn [negb]. rewrite find_existsb in Hgone.
    destruct (find (active_with_id item_id)
                (map (deactivate now item_id) db)); [discriminate|].
    reflexivity.
  - intros now'. rewrite (@delete_route_unfold _ now' item_id Hi), Hgone.
    now rewrite (@deactivate_none _ now' item_id Hgone).
Qed.

End Routes.

Section Errors.

Variable str_exn : exn -> string.
Variable order_by : list row -> list row.

(** X28: what the routes over the store raise: an [HTTPException]
    always; with status 500 from the creation, the listing, the search
    and the statistics; 404 or 500 from the get and delete routes; 400,
    404 or 500 from the update route. *)
Theorem X28_route_errors (db : table) (now item_id limit offset : Z)
    (new : KnowledgeRoutes.Create.t) (item : KnowledgeRoutes.Update.t)
    (search : option string) (query : string) (e : exn) :
  (snd (KnowledgeRoutes.create_knowledge_item str_exn db now new) = Raise e ->
   http_error [500] e)
  /\ (KnowledgeRoutes.get_knowledge_items str_exn order_by db limit offset
        search = Raise e -> http_error [500] e)
  /\ (KnowledgeRoutes.get_knowledge_item str_exn db item_id = Raise e ->
      http_error [404; 500] e)
  /\ (snd (KnowledgeRoutes.update_knowledge_item str_exn db now item_id item)
      = Raise e -> http_error [400; 404; 500] e)
  /\ (snd (KnowledgeRoutes.delete_knowledge_item str_exn db now item_id)
      = Raise e -> http_error [404; 500] e)
  /\ (KnowledgeRoutes.search_knowledge_items str_exn order_by db query limit
      = Raise e -> http_error [500] e)
  /\ (Knowledge.get_knowledge_stats str_exn order_by db = Raise e ->
      http_error [500] e).
Proof.
  assert (H500 : forall codes prefix e0,
            In 500 codes ->
            http_error codes (KnowledgeRoutes.internal_error str_exn prefix e0)).
  { intros codes prefix e0 Hc. eexists _, _. split; [reflexivity | exact Hc]. }
  assert (Hre : forall codes prefix e0,
            In 500 codes -> store_error e0 ->
            http_error codes
              (KnowledgeRoutes.reraise_or_internal str_exn prefix e0)).
  { intros codes prefix e0 Hc He. rewrite (@reraise_is_500 str_exn _ _ He).
    eexists _, _. split; [reflexivity | exact Hc]. }
  assert (H404 : forall codes, In 404 codes ->
                               http_error codes KnowledgeRoutes.not_found).
  { intros codes Hc. eexists _, _. split; [reflexivity | exact Hc]. }
  split; [|split; [|split; [|split; [|split; [|split]]]]].
  - unfold KnowledgeRoutes.create_knowledge_item.
    destruct (create_knowledge_item _ _ _ _ _ _ _ _ _) as [db' [x|e0]];
      cbn [snd]; [discriminate|].
    intros H; injection H as <-. apply H500. cbn; auto.
  - unfold KnowledgeRoutes.get_knowledge_items.
    match goal with
    | |- match ?m with _ => _ end = _ -> _ => destruct m as [x|e0]
    end; [discriminate|].
    intros H; injection H as <-. apply H500. cbn; auto.
  - unfold KnowledgeRoutes.get_knowledge_item.
    destruct (get_knowledge_item db item_id) as [[i|]|e0] eqn:Hg;
      [discriminate| |]; intros H; injection H as <-.
    + apply H404. cbn; auto.
    + apply Hre; [cbn; auto | exact (get_raises _ _ Hg)].
  - unfold KnowledgeRoutes.update_knowledge_item.
    destruct (KnowledgeRoutes.update_data item) as [|kv data].
    { cbn [snd]. intros H; injection H as <-.
      eexists _, _. split; [reflexivity | cbn; auto]. }
    destruct (update_knowledge_item db now item_id (kv :: data))
      as [db' [[|]|e0]] eqn:Hu; cbn [snd];
      [discriminate| |]; intros H; injection H as <-.
    + apply H404. cbn; auto.
    + apply Hre; [cbn; auto | exact (update_raises _ _ _ _ Hu)].
  - unfold KnowledgeRoutes.delete_knowledge_item.
    destruct (delete_knowledge_item db now item_id)
      as [db' [[|]|e0]] eqn:Hu; cbn [snd];
      [discriminate| |]; intros H; injection H as <-.
    + apply H404. cbn; auto.
    + apply Hre; [cbn; auto | exact (delete_raises _ _ _ Hu)].
  - unfold KnowledgeRoutes.search_knowledge_items.
    destruct (search_knowledge_items order_by db query limit) as [x|e0];
      [discriminate|].
    intros H; injection H as <-. apply H500. cbn; auto.
  - unfold Knowledge.get_knowledge_stats.
    destruct (get_all_knowledge_items order_by db 10000 0) as [x|e0];
      [discriminate|].
    intros H; injection H as <-. eexists _, _.
    split; [reflexivity | cbn; auto].
Qed.

End Errors.

(** X25 on the sample table: row 3 is deleted, so its update is a 404. *)
Lemma X25_witness :
  KnowledgeRoutes.update_knowledge_item ProcessingTerms.sample_str sample_db
    700 3
    {| KnowledgeRoutes.Update.title := Some "New";
       KnowledgeRoutes.Update.content := None;
       KnowledgeRoutes.Update.source_url := None;
       KnowledgeRoutes.Update.tags := Some ["x"];
       KnowledgeRoutes.Update.summary := None;
       KnowledgeRoutes.Update.ai_analysis := None |}
  = (sample_db, Raise KnowledgeRoutes.not_found).
Proof.
  apply (proj1 (proj2 (@X25_update_route ProcessingTerms.sample_str sample_db
                         700 3 _ eq_refl))).
  - discriminate.
  - reflexivity.
Defined.

(** X26 there: row 3 is deleted, so reading it is a 404. *)
Lemma X26_witness :
  KnowledgeRoutes.get_knowledge_item ProcessingTerms.sample_str sample_db 3
  = Raise KnowledgeRoutes.not_found.
Proof.
  apply (proj2 (proj1 (@X26_get_route ProcessingTerms.sample_str sample_db 3
                         eq_refl))).
  reflexivity.
Defined.

(** X27 there: once row 2 is deleted, reading it is a 404. *)
Lemma X27_witness :
  KnowledgeRoutes.get_knowledge_item ProcessingTerms.sample_str
    (fst (KnowledgeRoutes.delete_knowledge_item ProcessingTerms.sample_str
            sample_db 700 2)) 2
  = Raise KnowledgeRoutes.not_found.
Proof.
  apply (proj1 (proj2 (proj2 (@X27_delete_route ProcessingTerms.sample_str
                                sample_db 700 2 eq_refl)))).
Defined.

End RouteFacts.
